(** * Ticket extraction pipeline of the Linear and Pylon exporters

    A shallow embedding of [linear_fetcher.py] and [pylon_fetcher.py]:
    the two API clients, their pagination loops, the per-ticket assembly,
    the orchestrator [fetch_all_closed_tickets] and the scripts around it,
    and of the converters [linear_to_kapa.py] and [pylon_to_kapa.py],
    followed by the properties of the extraction pipeline and of the
    conversion.

    Conventions of the embedding.
    - Python values that travel through the pipeline are JSON payloads;
      they are represented by [pyval] (floats do not occur in the code
      paths modelled here and are left out).
    - The outside world is an [env]: the HTTP server (a function of the
      whole history of requests, so that any deterministic server, cursor
      based or not, is an instance), the clock read by [datetime.now], the
      process environment and the date formatting and parsing functions of
      the Python library.
    - Effects are threaded through a state and exception monad [M] whose
      state [world] records the requests issued so far and the number of
      clock readings.  [while True] loops take a step budget; [OutOfFuel]
      is the outcome of a loop that is still running when the budget ends.
    - [print] calls only notify the console and are not modelled.
    - The payload of [Exc] is [str(e)].  For exceptions raised by the
      interpreter itself ([TypeError], [AttributeError], ...) it names the
      exception class; the exact CPython message is not reproduced. *)

From Stdlib Require Import ZArith List String Ascii Bool Lia DecimalString.
Import ListNotations.
Local Open Scope string_scope.
Local Open Scope Z_scope.
Local Open Scope list_scope.

Set Implicit Arguments.
Set Warnings "-register-all".

(** String concatenation, written apart from list concatenation. *)
Local Infix "+:+" := String.append (at level 60, right associativity).

(** ** Python values *)

Inductive pyval : Type :=
| PNone
| PBool (b : bool)
| PInt (n : Z)
| PStr (s : string)
| PList (l : list pyval)
| PDict (kv : list (string * pyval)).

Definition exn := string.

(** Result of running a piece of code: a value, a raised exception, or a
    loop that has not finished within its step budget. *)
Inductive outcome (A : Type) : Type :=
| Ret (a : A)
| Exc (e : exn)
| OutOfFuel.

Arguments Exc {A} e.
Arguments OutOfFuel {A}.

Definition string_of_Z (n : Z) : string := NilZero.string_of_int (Z.to_int n).

(** [bool(v)]: the truth value Python gives to [v] in [if v] and [not v]. *)
Definition truthy (v : pyval) : bool :=
  match v with
  | PNone => false
  | PBool b => b
  | PInt n => negb (n =? 0)
  | PStr s => negb (s =? "")%string
  | PList l => match l with [] => false | _ :: _ => true end
  | PDict kv => match kv with [] => false | _ :: _ => true end
  end.

Fixpoint assoc (A : Type) (k : string) (kv : list (string * A)) : option A :=
  match kv with
  | [] => None
  | (k', v) :: rest => if (k' =? k)%string then Some v else assoc k rest
  end.

(** [d.get(k, dflt)]; on anything but a dict the attribute lookup fails. *)
Definition dict_get (d : pyval) (k : string) (dflt : pyval) : outcome pyval :=
  match d with
  | PDict kv => Ret (match assoc k kv with Some v => v | None => dflt end)
  | _ => Exc "AttributeError: object has no attribute 'get'"
  end.

(** [k in d and d[k]] of the date loop: the value bound to [k], if any. *)
Definition dict_lookup (d : pyval) (k : string) : option pyval :=
  match d with
  | PDict kv => assoc k kv
  | _ => None
  end.

Fixpoint chars (s : string) : list pyval :=
  match s with
  | EmptyString => []
  | String c rest => PStr (String c EmptyString) :: chars rest
  end.

(** Iteration over a value, as [list.extend] and [for] do it: a list
    yields its items, a dict its keys, a string its characters. *)
Definition py_iter (v : pyval) : outcome (list pyval) :=
  match v with
  | PList l => Ret l
  | PDict kv => Ret (map (fun p => PStr (fst p)) kv)
  | PStr s => Ret (chars s)
  | _ => Exc "TypeError: object is not iterable"
  end.

(** [acc.extend(v)] *)
Definition list_extend (acc : list pyval) (v : pyval) : outcome (list pyval) :=
  match py_iter v with
  | Ret items => Ret (acc ++ items)
  | Exc e => Exc e
  | OutOfFuel => OutOfFuel
  end.

(** [v == s] for a string [s]. *)
Definition eq_str (v : pyval) (s : string) : bool :=
  match v with
  | PStr s' => (s' =? s)%string
  | _ => false
  end.

(** [repr(v)] and [str(v)] (the latter is what an f-string inserts).
    Strings and integers are exact; quotes inside strings are not
    escaped. *)
Fixpoint py_repr (v : pyval) : string :=
  match v with
  | PNone => "None"
  | PBool true => "True"
  | PBool false => "False"
  | PInt n => string_of_Z n
  | PStr s => "'" +:+ s +:+ "'"
  | PList l =>
      "[" +:+ (fix items (l : list pyval) : string :=
                 match l with
                 | [] => ""
                 | [x] => py_repr x
                 | x :: rest => py_repr x +:+ ", " +:+ items rest
                 end) l +:+ "]"
  | PDict kv =>
      "{" +:+ (fix items (kv : list (string * pyval)) : string :=
                 match kv with
                 | [] => ""
                 | [(k, x)] => "'" +:+ k +:+ "': " +:+ py_repr x
                 | (k, x) :: rest =>
                     "'" +:+ k +:+ "': " +:+ py_repr x +:+ ", " +:+ items rest
                 end) kv +:+ "}"
  end.

Definition py_str (v : pyval) : string :=
  match v with
  | PStr s => s
  | _ => py_repr v
  end.

(** ** Dates

    A [datetime] is its wall-clock reading in microseconds since
    0001-01-01T00:00:00 ([datetime.min]) and, for an aware value, its UTC
    offset in microseconds.  A [timedelta] is a number of microseconds. *)

Record datetime := mk_datetime { wall : Z; utcoffset : option Z }.

Definition day : Z := 86400000000.
Definition datetime_max_wall : Z := 3652059 * day - 1.

(** [timedelta(days=d)] *)
Definition timedelta_days (d : Z) : outcome Z :=
  if Z.abs d <=? 999999999 then Ret (d * day)
  else Exc "OverflowError: days must have magnitude <= 999999999".

(** [d - delta]: the result has to be a date between [datetime.min] and
    [datetime.max]. *)
Definition datetime_sub (d : datetime) (delta : Z) : outcome datetime :=
  let w := wall d - delta in
  if (0 <=? w) && (w <=? datetime_max_wall)
  then Ret {| wall := w; utcoffset := utcoffset d |}
  else Exc "OverflowError: date value out of range".

(** [a <= b]: naive and aware values cannot be compared with each other. *)
Definition datetime_le (a b : datetime) : outcome bool :=
  match utcoffset a, utcoffset b with
  | None, None => Ret (wall a <=? wall b)
  | Some oa, Some ob => Ret (wall a - oa <=? wall b - ob)
  | _, _ => Exc "TypeError: can't compare offset-naive and offset-aware datetimes"
  end.

(** ** The transport and the rest of the outside world *)

Record request := mk_request {
  req_method : string;
  req_url : string;
  req_headers : list (string * string);
  req_params : list (string * string);
  req_json : pyval
}.

(** What [requests] hands back: [json] is [None] when the body is not
    JSON, in which case [response.json()] raises. *)
Record response := mk_response {
  status_code : Z;
  text : string;
  json : option pyval
}.

(** [requests.get] and [requests.post] either raise (no connection, time
    out, ...) or return a response. *)
Inductive reply : Type :=
| Refused (e : exn)
| Answer (r : response).

Record env := mk_env {
  (** reply to the newest request, given all requests so far (newest first) *)
  server : list request -> reply;
  (** value of the n-th reading of the clock *)
  clock : nat -> Z;
  (** [os.environ] *)
  environ : string -> option string;
  (** [datetime.fromisoformat]; [None] when it raises [ValueError] *)
  fromisoformat : string -> option datetime;
  (** [d.isoformat()] *)
  isoformat : datetime -> string;
  (** [d.strftime(format)] *)
  strftime : datetime -> string -> string
}.

Record world := mk_world { log : list request; ticks : nat }.

Definition M (A : Type) : Type := world -> outcome A * world.

Definition ret (A : Type) (a : A) : M A := fun w => (Ret a, w).
Definition raise (A : Type) (e : exn) : M A := fun w => (Exc e, w).
Definition lift (A : Type) (o : outcome A) : M A := fun w => (o, w).

Arguments raise {A} e.

Definition bind (A B : Type) (m : M A) (k : A -> M B) : M B :=
  fun w =>
    match m w with
    | (Ret a, w') => k a w'
    | (Exc e, w') => (Exc e, w')
    | (OutOfFuel, w') => (OutOfFuel, w')
    end.

Notation "x <- m ;; k" := (bind m (fun x => k))
  (at level 61, m at next level, right associativity).
Notation "' p <- m ;; k" := (bind m (fun x => match x with p => k end))
  (at level 61, p pattern, m at next level, right associativity).

(** [try: m except Exception as e: handler(e)] *)
Definition try_except (A : Type) (m : M A) (handler : exn -> M A) : M A :=
  fun w =>
    match m w with
    | (Exc e, w') => handler e w'
    | r => r
    end.

(** [while True: body], where the body either goes on with a new loop
    state or leaves the loop with the value the function then returns. *)
Fixpoint while_true (S A : Type) (fuel : nat) (body : S -> M (S + A)) (s : S)
  : M A :=
  match fuel with
  | O => fun w => (OutOfFuel, w)
  | Datatypes.S fuel' =>
      fun w =>
        match body s w with
        | (Ret (inl s'), w') => while_true fuel' body s' w'
        | (Ret (inr a), w') => (Ret a, w')
        | (Exc e, w') => (Exc e, w')
        | (OutOfFuel, w') => (OutOfFuel, w')
        end
  end.

(** [requests.get(...)] / [requests.post(...)]: the request is recorded
    and the server's reply to it is returned or raised. *)
Definition send (E : env) (r : request) : M response :=
  fun w =>
    let w' := {| log := r :: log w; ticks := ticks w |} in
    match server E (log w') with
    | Refused e => (Exc e, w')
    | Answer a => (Ret a, w')
    end.

(** [response.json()] *)
Definition response_json (r : response) : outcome pyval :=
  match json r with
  | Some v => Ret v
  | None => Exc "JSONDecodeError: response body is not JSON"
  end.

(** [datetime.now(tz)] *)
Definition now (E : env) (tz : option Z) : M datetime :=
  fun w =>
    (Ret {| wall := clock E (ticks w); utcoffset := tz |},
     {| log := log w; ticks := S (ticks w) |}).

Definition lower_char (c : ascii) : ascii :=
  let n := nat_of_ascii c in
  if ((65 <=? n) && (n <=? 90))%nat then ascii_of_nat (n + 32) else c.

(** [s.lower()] on ASCII text. *)
Fixpoint lower (s : string) : string :=
  match s with
  | EmptyString => EmptyString
  | String c rest => String (lower_char c) (lower rest)
  end.

(** [s.replace(old, new)] for a one-character [old]. *)
Fixpoint replace_char (old : ascii) (new : string) (s : string) : string :=
  match s with
  | EmptyString => EmptyString
  | String c rest =>
      if Ascii.eqb c old then new +:+ replace_char old new rest
      else String c (replace_char old new rest)
  end.

(** [len(l)] of a Python list. *)
Definition list_len (l : list pyval) : pyval := PInt (Z.of_nat (List.length l)).

(** [len(v)] of an arbitrary value (of a string: on ASCII text). *)
Definition py_len (v : pyval) : outcome pyval :=
  match v with
  | PList l => Ret (list_len l)
  | PDict kv => Ret (PInt (Z.of_nat (List.length kv)))
  | PStr s => Ret (PInt (Z.of_nat (String.length s)))
  | _ => Exc "TypeError: object has no len()"
  end.

(** Sequencing of computations that may raise but have no effect. *)
Definition and_then (A B : Type) (o : outcome A) (k : A -> outcome B)
  : outcome B :=
  match o with
  | Ret a => k a
  | Exc e => Exc e
  | OutOfFuel => OutOfFuel
  end.

(** [while cond: body]; the budget counts the runs of the body. *)
Fixpoint while_do (S : Type) (fuel : nat) (cond : S -> outcome bool)
    (body : S -> M S) (s : S) : M S :=
  c <- lift (cond s) ;;
  if c then
    match fuel with
    | O => fun w => (OutOfFuel, w)
    | Datatypes.S fuel' => s' <- body s ;; while_do fuel' cond body s'
    end
  else ret s.

(** [a > b] and [max(a, b)] on dates. *)
Definition datetime_gt (a b : datetime) : outcome bool :=
  and_then (datetime_le a b) (fun le => Ret (negb le)).

Definition datetime_max (a b : datetime) : outcome datetime :=
  and_then (datetime_gt b a) (fun gt => Ret (if gt then b else a)).

(** [for x in l: body], threading the variables the body updates. *)
Fixpoint for_each (A S : Type) (body : A -> S -> M S) (l : list A) (s : S)
  : M S :=
  match l with
  | [] => ret s
  | x :: rest => s' <- body x s ;; for_each body rest s'
  end.

(** [v[k]] for a string key: only a dict can be subscripted with one,
    and the key has to be there. *)
Definition py_getitem (v : pyval) (k : string) : outcome pyval :=
  match v with
  | PDict kv =>
      match assoc k kv with
      | Some x => Ret x
      | None => Exc ("KeyError: '" +:+ k +:+ "'")
      end
  | PList _ | PStr _ => Exc "TypeError: indices must be integers or slices"
  | _ => Exc "TypeError: object is not subscriptable"
  end.

(** [v[:n]]: strings (ASCII text) and lists can be sliced. *)
Definition py_slice_to (n : nat) (v : pyval) : outcome pyval :=
  match v with
  | PStr s => Ret (PStr (substring 0 n s))
  | PList l => Ret (PList (firstn n l))
  | PDict _ => Exc "TypeError: unhashable type: 'slice'"
  | _ => Exc "TypeError: object is not subscriptable"
  end.

(** A [for] loop whose body only prints: what is left of it is whether
    the evaluation of what it prints raises, item after item. *)
Fixpoint for_each_print (show : pyval -> outcome unit) (items : list pyval)
  : outcome unit :=
  match items with
  | [] => Ret tt
  | x :: rest => and_then (show x) (fun _ => for_each_print show rest)
  end.

(** ** linear_fetcher.py *)

Module Linear.

Record LinearAPIClient := mk_client {
  api_key : string;
  base_url : string;
  headers : list (string * string)
}.

(** [LinearAPIClient.__init__] *)
Definition __init__ (api_key : string) : LinearAPIClient :=
  {| api_key := api_key;
     base_url := "https://api.linear.app/graphql";
     headers := [("Authorization", api_key);
                 ("Content-Type", "application/json")] |}.

(** The message built from the [errors] array of a GraphQL answer. *)
Fixpoint error_messages (errors : list pyval) : option (list string) :=
  match errors with
  | [] => Some []
  | PDict kv :: rest =>
      match assoc "message" kv, error_messages rest with
      | None, Some ms => Some ("Unknown error" :: ms)
      | Some (PStr m), Some ms => Some (m :: ms)
      | _, _ => None
      end
  | _ :: _ => None
  end.

Definition graphql_error (errors : pyval) : exn :=
  match py_iter errors with
  | Ret es =>
      match error_messages es with
      | Some ms => "GraphQL errors: " +:+ String.concat "; " ms
      | None => "TypeError: malformed GraphQL error entry"
      end
  | _ => "TypeError: GraphQL errors value is not iterable"
  end.

(** [LinearAPIClient._execute_query] *)
Definition _execute_query (E : env) (self : LinearAPIClient)
    (query : string) (variables : pyval) : M pyval :=
  let payload :=
    PDict (("query", PStr query)
           :: (if truthy variables then [("variables", variables)] else [])) in
  response <- send E {| req_method := "POST"; req_url := base_url self;
                        req_headers := headers self; req_params := [];
                        req_json := payload |} ;;
  if negb (status_code response =? 200) then
    raise ("API request failed: " +:+ string_of_Z (status_code response)
           +:+ " - " +:+ text response)
  else
    result <- lift (response_json response) ;;
    match result with
    | PDict kv =>
        match assoc "errors" kv with
        | Some errors => raise (graphql_error errors)
        | None =>
            ret (match assoc "data" kv with Some d => d | None => PDict [] end)
        end
    | _ => raise "TypeError: GraphQL answer is not an object"
    end.

(** The GraphQL documents; the selection sets are abridged. *)
Definition issues_query : string :=
  "query FetchClosedIssues($filter: IssueFilter!, $after: String) { issues(filter: $filter, first: 50, after: $after, orderBy: updatedAt) { pageInfo { hasNextPage endCursor } nodes { id identifier ... } } }".

Definition comments_query : string :=
  "query FetchComments($issueId: String!, $after: String) { issue(id: $issueId) { comments(first: 100, after: $after) { pageInfo { hasNextPage endCursor } nodes { id body ... } } } }".

Definition fetch_all_states (E : env) : bool :=
  let v := lower (match environ E "FETCH_ALL_STATES" with
                  | Some s => s
                  | None => ""
                  end) in
  ((v =? "true") || (v =? "1") || (v =? "yes"))%string.

Definition issue_filter (cutoff_date : string) (fetch_all : bool)
    (team_id : option string) : pyval :=
  PDict
    ([("updatedAt", PDict [("gte", PStr cutoff_date)])]
     ++ (if fetch_all then []
         else [("state",
                PDict [("type",
                        PDict [("in", PList [PStr "completed";
                                             PStr "canceled"])])])])
     ++ (match team_id with
         | Some t =>
             if negb (t =? "")%string
             then [("team", PDict [("id", PDict [("eq", PStr t)])])]
             else []
         | None => []
         end)).

(** One turn of a cursor loop once the page's node list and its
    [pageInfo] carrier are at hand: stop on an empty page, else take the
    nodes and go on only if the page announces a next one. *)
Definition take_page (connection nodes : pyval) (all_items : list pyval)
  : M ((pyval * list pyval) + list pyval) :=
  if negb (truthy nodes) then ret (inr all_items)
  else
    all_items' <- lift (list_extend all_items nodes) ;;
    page_info <- lift (dict_get connection "pageInfo" (PDict [])) ;;
    has_next <- lift (dict_get page_info "hasNextPage" PNone) ;;
    if truthy has_next then
      end_cursor <- lift (dict_get page_info "endCursor" PNone) ;;
      if truthy end_cursor then ret (inl (end_cursor, all_items'))
      else ret (inr all_items')
    else ret (inr all_items').

(** Body of the [while True] of [fetch_closed_issues]; the loop state is
    [(cursor, all_issues)]. *)
Definition fetch_closed_issues_body (E : env) (self : LinearAPIClient)
    (filter : pyval) (st : pyval * list pyval)
  : M ((pyval * list pyval) + list pyval) :=
  let '(cursor, all_issues) := st in
  let variables :=
    PDict (("filter", filter)
           :: (if truthy cursor then [("after", cursor)] else [])) in
  data <- _execute_query E self issues_query variables ;;
  issues_data <- lift (dict_get data "issues" (PDict [])) ;;
  nodes <- lift (dict_get issues_data "nodes" (PList [])) ;;
  take_page issues_data nodes all_issues.

(** [LinearAPIClient.fetch_closed_issues] *)
Definition fetch_closed_issues (E : env) (self : LinearAPIClient)
    (fuel : nat) (days_back : Z) (team_id : option string)
  : M (list pyval) :=
  today <- now E (Some 0) ;;
  delta <- lift (timedelta_days days_back) ;;
  cutoff <- lift (datetime_sub today delta) ;;
  let cutoff_date := strftime E cutoff "%Y-%m-%dT%H:%M:%SZ" in
  let filter := issue_filter cutoff_date (fetch_all_states E) team_id in
  while_true fuel (fetch_closed_issues_body E self filter) (PNone, []).

(** Body of the [while True] of [fetch_issue_comments]. *)
Definition fetch_issue_comments_body (E : env) (self : LinearAPIClient)
    (issue_id : pyval) (st : pyval * list pyval)
  : M ((pyval * list pyval) + list pyval) :=
  let '(cursor, all_comments) := st in
  let variables :=
    PDict (("issueId", issue_id)
           :: (if truthy cursor then [("after", cursor)] else [])) in
  data <- _execute_query E self comments_query variables ;;
  issue_data <- lift (dict_get data "issue" (PDict [])) ;;
  if negb (truthy issue_data) then ret (inr all_comments)
  else
    comments_data <- lift (dict_get issue_data "comments" (PDict [])) ;;
    nodes <- lift (dict_get comments_data "nodes" (PList [])) ;;
    take_page comments_data nodes all_comments.

(** [LinearAPIClient.fetch_issue_comments] *)
Definition fetch_issue_comments (E : env) (self : LinearAPIClient)
    (fuel : nat) (issue_id : pyval) : M (list pyval) :=
  while_true fuel (fetch_issue_comments_body E self issue_id) (PNone, []).

Definition complete_ticket (issue : pyval) (comments : list pyval) : pyval :=
  PDict [("issue", issue);
         ("comments", PList comments);
         ("total_comments", list_len comments)].

Definition failed_ticket (issue : pyval) (e : exn) : pyval :=
  PDict [("issue", issue);
         ("comments", PList []);
         ("total_comments", PInt 0);
         ("error", PStr e)].

(** Body of the [for] loop of [fetch_all_closed_tickets]. *)
Definition process_issue (E : env) (self : LinearAPIClient) (fuel : nat)
    (issue : pyval) (all_tickets : list pyval) : M (list pyval) :=
  issue_id <- lift (dict_get issue "id" PNone) ;;
  identifier <- lift (dict_get issue "identifier" issue_id) ;;
  if negb (truthy issue_id) then ret all_tickets
  else
    try_except
      (comments <- fetch_issue_comments E self fuel issue_id ;;
       ret (all_tickets ++ [complete_ticket issue comments]))
      (fun e => ret (all_tickets ++ [failed_ticket issue e])).

Definition extraction_result (all_tickets : list pyval)
    (start_date end_date fetched_at : string) (days_back : Z) : pyval :=
  PDict [("metadata",
          PDict [("total_tickets", list_len all_tickets);
                 ("date_range", PDict [("start", PStr start_date);
                                       ("end", PStr end_date)]);
                 ("fetched_at", PStr fetched_at);
                 ("days_back", PInt days_back);
                 ("source", PStr "linear")]);
         ("tickets", PList all_tickets)].

(** Second half of [fetch_all_closed_tickets], from the comment
    "Fetch comments for each issue" on: the loop over the fetched issues
    and the construction of the result. *)
Definition assemble (E : env) (self : LinearAPIClient) (fuel : nat)
    (start_date end_date : datetime) (days_back : Z)
    (all_issues : list pyval) : M pyval :=
  all_tickets <- for_each (process_issue E self fuel) all_issues [] ;;
  fetched_at <- now E (Some 0) ;;
  ret (extraction_result all_tickets (isoformat E start_date)
         (isoformat E end_date) (isoformat E fetched_at) days_back).

(** [LinearAPIClient.fetch_all_closed_tickets] *)
Definition fetch_all_closed_tickets (E : env) (self : LinearAPIClient)
    (fuel : nat) (days_back : Z) (team_id : option string) : M pyval :=
  end_date <- now E (Some 0) ;;
  delta <- lift (timedelta_days days_back) ;;
  start_date <- lift (datetime_sub end_date delta) ;;
  all_issues <- fetch_closed_issues E self fuel days_back team_id ;;
  assemble E self fuel start_date end_date days_back all_issues.

(** The documents of the connection test and of the diagnosis (their
    layout over several lines is not reproduced). *)
Definition viewer_query : string :=
  "query { viewer { id name email } organization { id name } }".

Definition teams_query : string :=
  "query { teams { nodes { id name key issueCount } } }".

Definition states_query : string :=
  "query { workflowStates(first: 100) { nodes { id name type team { key } } } }".

Definition recent_query : string :=
  "query { issues(first: 5, orderBy: updatedAt) { nodes { identifier title state { name type } updatedAt completedAt } } }".

(** [LinearAPIClient.test_connection] *)
Definition test_connection (E : env) (self : LinearAPIClient) : M pyval :=
  _execute_query E self viewer_query PNone.

(** The values the line printed for a team is made of. *)
Definition show_team (t : pyval) : outcome unit :=
  and_then (py_getitem t "name") (fun _ =>
  and_then (py_getitem t "key") (fun _ =>
  and_then (dict_get t "issueCount" (PStr "?")) (fun _ =>
  and_then (py_getitem t "id") (fun _ => Ret tt)))).

(** The same for a workflow state. *)
Definition show_state (s : pyval) : outcome unit :=
  and_then (dict_get s "team" (PDict [])) (fun team =>
  and_then (dict_get team "key" (PStr "?")) (fun team_key =>
  and_then (py_getitem s "name") (fun _ =>
  and_then (py_getitem s "type") (fun _ => Ret tt)))).

(** The same for the two lines of a recent issue. *)
Definition show_issue (iss : pyval) : outcome unit :=
  and_then (dict_get iss "state" (PDict [])) (fun state =>
  and_then (py_getitem iss "identifier") (fun _ =>
  and_then (py_getitem iss "title") (fun title =>
  and_then (py_slice_to 50 title) (fun _ =>
  and_then (dict_get state "name" PNone) (fun _ =>
  and_then (dict_get state "type" PNone) (fun _ =>
  and_then (py_getitem iss "updatedAt") (fun updated =>
  and_then (py_slice_to 10 updated) (fun _ =>
  and_then (dict_get iss "completedAt" (PStr "None")) (fun _ =>
  Ret tt))))))))).

(** [LinearAPIClient.diagnose]: three queries, each followed by the
    printing of its answer.  Nothing is caught here. *)
Definition diagnose (E : env) (self : LinearAPIClient) : M unit :=
  data <- _execute_query E self teams_query PNone ;;
  teams_data <- lift (dict_get data "teams" (PDict [])) ;;
  teams <- lift (dict_get teams_data "nodes" (PList [])) ;;
  _ <- lift (py_len teams) ;;
  team_items <- lift (py_iter teams) ;;
  _ <- lift (for_each_print show_team team_items) ;;
  data <- _execute_query E self states_query PNone ;;
  states_data <- lift (dict_get data "workflowStates" (PDict [])) ;;
  states <- lift (dict_get states_data "nodes" (PList [])) ;;
  _ <- lift (py_len states) ;;
  state_items <- lift (py_iter states) ;;
  _ <- lift (for_each_print show_state state_items) ;;
  data <- _execute_query E self recent_query PNone ;;
  issues_data <- lift (dict_get data "issues" (PDict [])) ;;
  recent <- lift (dict_get issues_data "nodes" (PList [])) ;;
  recent_items <- lift (py_iter recent) ;;
  lift (for_each_print show_issue recent_items).

(** What comes before the fetch in the [try] block of [main]. *)
Definition preliminaries (E : env) (client : LinearAPIClient) : M unit :=
  viewer_data <- test_connection E client ;;
  viewer <- lift (dict_get viewer_data "viewer" (PDict [])) ;;
  org <- lift (dict_get viewer_data "organization" (PDict [])) ;;
  _ <- lift (dict_get viewer "name" PNone) ;;
  _ <- lift (dict_get viewer "email" PNone) ;;
  _ <- lift (dict_get org "name" PNone) ;;
  diagnose E client.

(** [int(s)], given the reading [int_of_str] of the Python library
    ([None] when it raises [ValueError]). *)
Definition py_int (int_of_str : string -> option Z) (s : string)
  : outcome Z :=
  match int_of_str s with
  | Some n => Ret n
  | None => Exc "ValueError: invalid literal for int() with base 10"
  end.

(** [main] of linear_fetcher.py.  The function returns nothing; the value
    of the model is the dump it ends with, if it gets that far: the name
    of the file it opens for writing and the data it hands to
    [json.dump].  What follows the dump only prints, and an exception
    there would, like any other, only be printed. *)
Definition main (E : env) (int_of_str : string -> option Z) (fuel : nat)
  : M (option (string * pyval)) :=
  let API_KEY := match environ E "LINEAR_API_KEY" with
                 | Some s => s
                 | None => ""
                 end in
  if (API_KEY =? "")%string then ret None
  else
    let TEAM_ID := environ E "LINEAR_TEAM_ID" in
    let client := __init__ API_KEY in
    try_except
      (_ <- preliminaries E client ;;
       days_back <- lift (py_int int_of_str
                            match environ E "LINEAR_DAYS_BACK" with
                            | Some s => s
                            | None => "180"
                            end) ;;
       all_data <- fetch_all_closed_tickets E client fuel days_back TEAM_ID ;;
       stamp <- now E None ;;
       let output_filename :=
         "linear_closed_tickets_" +:+ strftime E stamp "%Y%m%d_%H%M%S"
         +:+ ".json" in
       ret (Some (output_filename, all_data)))
      (fun e => ret None).


End Linear.

(** ** pylon_fetcher.py *)

Module Pylon.

Record PylonAPIClient := mk_client {
  api_token : string;
  base_url : string;
  headers : list (string * string)
}.

(** [PylonAPIClient.__init__]; the f-string of the [Authorization] header
    has no replacement field. *)
Definition __init__ (api_token : string) : PylonAPIClient :=
  {| api_token := api_token;
     base_url := "https://api.usepylon.com";
     headers := [("Authorization", "Bearer <TOKEN>");
                 ("Content-Type", "application/json");
                 ("Accept", "application/json")] |}.

(** [PylonAPIClient.get_issues_in_range] *)
Definition get_issues_in_range (E : env) (self : PylonAPIClient)
    (start_time end_time : datetime) : M pyval :=
  let start_str := isoformat E start_time +:+ "Z" in
  let end_str := isoformat E end_time +:+ "Z" in
  let params := [("start_time", start_str); ("end_time", end_str)] in
  response <- send E {| req_method := "GET";
                        req_url := base_url self +:+ "/issues";
                        req_headers := headers self; req_params := params;
                        req_json := PNone |} ;;
  if negb (status_code response =? 200) then
    raise ("API request failed: " +:+ string_of_Z (status_code response)
           +:+ " - " +:+ text response)
  else
    result <- lift (response_json response) ;;
    lift (dict_get result "data" (PList [])).

Definition search_payload (cursor : pyval) : pyval :=
  PDict ([("filter", PDict [("field", PStr "state");
                            ("operator", PStr "equals");
                            ("value", PStr "closed")]);
          ("limit", PInt 100)]
         ++ (if truthy cursor then [("cursor", cursor)] else [])).

(** Body of the [while True] of [search_closed_issues_only]; the loop
    state is [(cursor, all_issues)].  The payload dict is updated in place
    with every truthy cursor, and the loop only goes on with a truthy
    cursor, so the payload of a turn is determined by its cursor. *)
Definition search_body (E : env) (self : PylonAPIClient)
    (st : pyval * list pyval) : M ((pyval * list pyval) + list pyval) :=
  let '(cursor, all_issues) := st in
  response <- send E {| req_method := "POST";
                        req_url := base_url self +:+ "/issues/search";
                        req_headers := headers self; req_params := [];
                        req_json := search_payload cursor |} ;;
  if negb (status_code response =? 200) then
    raise ("API request failed: " +:+ string_of_Z (status_code response)
           +:+ " - " +:+ text response)
  else
    result <- lift (response_json response) ;;
    issues <- lift (dict_get result "data" (PList [])) ;;
    if negb (truthy issues) then ret (inr all_issues)
    else
      all_issues' <- lift (list_extend all_issues issues) ;;
      meta <- lift (dict_get result "meta" (PDict [])) ;;
      cursor' <- lift (dict_get meta "cursor" PNone) ;;
      if negb (truthy cursor') then ret (inr all_issues')
      else ret (inl (cursor', all_issues')).

(** [PylonAPIClient.search_closed_issues_only] *)
Definition search_closed_issues_only (E : env) (self : PylonAPIClient)
    (fuel : nat) : M (list pyval) :=
  while_true fuel (search_body E self) (PNone, []).

(** [PylonAPIClient.get_issue_details] *)
Definition get_issue_details (E : env) (self : PylonAPIClient)
    (issue_id : pyval) : M pyval :=
  response <- send E {| req_method := "GET";
                        req_url := base_url self +:+ "/issues/"
                                   +:+ py_str issue_id;
                        req_headers := headers self; req_params := [];
                        req_json := PNone |} ;;
  if negb (status_code response =? 200) then
    raise ("Failed to fetch issue " +:+ py_str issue_id +:+ ": "
           +:+ string_of_Z (status_code response) +:+ " - "
           +:+ text response)
  else lift (response_json response).

(** [PylonAPIClient.get_issue_messages] *)
Definition get_issue_messages (E : env) (self : PylonAPIClient)
    (issue_id : pyval) : M pyval :=
  response <- send E {| req_method := "GET";
                        req_url := base_url self +:+ "/issues/"
                                   +:+ py_str issue_id +:+ "/messages";
                        req_headers := headers self; req_params := [];
                        req_json := PNone |} ;;
  if negb (status_code response =? 200) then ret (PList [])
  else
    result <- lift (response_json response) ;;
    lift (dict_get result "data" (PList [])).

Definition date_fields : list string :=
  ["created_at"; "updated_at"; "closed_at"].

(** The [try] block of the date loop: [None] when it raises. *)
Definition parse_date (E : env) (v : pyval) : option datetime :=
  match v with
  | PStr s =>
      let date_str := replace_char "Z" "+00:00" s in
      fromisoformat E (replace_char "Z" "" date_str)
  | _ => None
  end.

(** The inner [for date_field in ...] loop: the value of [issue_date]
    when the loop is left. *)
Fixpoint find_issue_date (E : env) (issue : pyval) (fields : list string)
  : option datetime :=
  match fields with
  | [] => None
  | date_field :: rest =>
      match dict_lookup issue date_field with
      | Some v =>
          if truthy v then
            match parse_date E v with
            | Some d => Some d
            | None => find_issue_date E issue rest
            end
          else find_issue_date E issue rest
      | None => find_issue_date E issue rest
      end
  end.

(** [start_date <= issue_date <= end_date] *)
Definition in_window (start_date issue_date end_date : datetime)
  : outcome bool :=
  and_then (datetime_le start_date issue_date)
    (fun lower => if lower then datetime_le issue_date end_date
                  else Ret false).

(** Body of the outer [for] loop of [filter_issues_by_date_and_state]. *)
Definition filter_issue (E : env) (start_date end_date : datetime)
    (state : string) (issue : pyval) (filtered_issues : list pyval)
  : outcome (list pyval) :=
  and_then (dict_get issue "state" PNone)
    (fun issue_state =>
       if negb (eq_str issue_state state) then Ret filtered_issues
       else
         match find_issue_date E issue date_fields with
         | None => Ret filtered_issues
         | Some issue_date =>
             and_then (in_window start_date issue_date end_date)
               (fun inside =>
                  Ret (if inside then filtered_issues ++ [issue]
                       else filtered_issues))
         end).

Fixpoint filter_loop (E : env) (start_date end_date : datetime)
    (state : string) (issues filtered_issues : list pyval)
  : outcome (list pyval) :=
  match issues with
  | [] => Ret filtered_issues
  | issue :: rest =>
      and_then (filter_issue E start_date end_date state issue filtered_issues)
        (filter_loop E start_date end_date state rest)
  end.

(** [PylonAPIClient.filter_issues_by_date_and_state] *)
Definition filter_issues_by_date_and_state (E : env) (issues : list pyval)
    (start_date end_date : datetime) (state : string)
  : outcome (list pyval) :=
  filter_loop E start_date end_date state issues [].

(** [[issue for issue in chunk_issues if issue.get("state") == "closed"]] *)
Fixpoint closed_only (items : list pyval) : outcome (list pyval) :=
  match items with
  | [] => Ret []
  | issue :: rest =>
      and_then (dict_get issue "state" PNone)
        (fun issue_state =>
           and_then (closed_only rest)
             (fun closed =>
                Ret (if eq_str issue_state "closed" then issue :: closed
                     else closed)))
  end.

Definition closed_in_chunk (chunk_issues : pyval) : outcome (list pyval) :=
  and_then (py_iter chunk_issues) closed_only.

(** Body of the [while current_end > start_date] loop of the time-chunk
    alternative; the loop state is [(current_end, filtered_issues)]. *)
Definition scan_chunk (E : env) (self : PylonAPIClient)
    (start_date : datetime) (st : datetime * list pyval)
  : M (datetime * list pyval) :=
  let '(current_end, filtered_issues) := st in
  delta <- lift (timedelta_days 30) ;;
  earlier <- lift (datetime_sub current_end delta) ;;
  current_start <- lift (datetime_max start_date earlier) ;;
  filtered_issues' <-
    try_except
      (chunk_issues <- get_issues_in_range E self current_start current_end ;;
       closed <- lift (closed_in_chunk chunk_issues) ;;
       ret (filtered_issues ++ closed))
      (fun chunk_error => ret filtered_issues) ;;
  ret (current_start, filtered_issues').

(** The [except] branch of the list fetch: the scan in 30-day chunks. *)
Definition chunked_scan (E : env) (self : PylonAPIClient) (fuel : nat)
    (start_date end_date : datetime) : M (list pyval) :=
  '(_, filtered_issues) <-
    while_do fuel (fun st => datetime_gt (fst st) start_date)
      (scan_chunk E self start_date) (end_date, []) ;;
  ret filtered_issues.

(** The [try] branch of the list fetch. *)
Definition search_and_filter (E : env) (self : PylonAPIClient) (fuel : nat)
    (start_date end_date : datetime) : M (list pyval) :=
  all_closed_issues <- search_closed_issues_only E self fuel ;;
  lift (filter_issues_by_date_and_state E all_closed_issues start_date
          end_date "closed").

Definition complete_ticket (issue detailed_issue messages total : pyval)
  : pyval :=
  PDict [("issue_summary", issue);
         ("issue_details", detailed_issue);
         ("messages", messages);
         ("total_messages", total)].

(** Body of the [for] loop of [fetch_all_closed_tickets]. *)
Definition process_issue (E : env) (self : PylonAPIClient)
    (issue : pyval) (all_tickets : list pyval) : M (list pyval) :=
  issue_id <- lift (dict_get issue "id" PNone) ;;
  if negb (truthy issue_id) then ret all_tickets
  else
    try_except
      (detailed_issue <- get_issue_details E self issue_id ;;
       messages <- get_issue_messages E self issue_id ;;
       total <- lift (py_len messages) ;;
       ret (all_tickets
            ++ [complete_ticket issue detailed_issue messages total]))
      (fun e => ret all_tickets).

Definition extraction_result (all_tickets : list pyval)
    (start_date end_date fetched_at : string) (days_back : Z) : pyval :=
  PDict [("metadata",
          PDict [("total_tickets", list_len all_tickets);
                 ("date_range", PDict [("start", PStr start_date);
                                       ("end", PStr end_date)]);
                 ("fetched_at", PStr fetched_at);
                 ("days_back", PInt days_back)]);
         ("tickets", PList all_tickets)].

(** The list fetch of [fetch_all_closed_tickets]: the search, and the
    chunked scan when the search or the filter raises. *)
Definition fetch_list (E : env) (self : PylonAPIClient) (fuel : nat)
    (start_date end_date : datetime) : M (list pyval) :=
  try_except (search_and_filter E self fuel start_date end_date)
    (fun e => chunked_scan E self fuel start_date end_date).

(** Second half of [fetch_all_closed_tickets], from the comment "Now get
    detailed information for each issue" on: the loop over the filtered
    issues and the construction of the result. *)
Definition assemble (E : env) (self : PylonAPIClient)
    (start_date end_date : datetime) (days_back : Z)
    (filtered_issues : list pyval) : M pyval :=
  all_tickets <- for_each (process_issue E self) filtered_issues [] ;;
  fetched_at <- now E None ;;
  ret (extraction_result all_tickets (isoformat E start_date)
         (isoformat E end_date) (isoformat E fetched_at) days_back).

(** [PylonAPIClient.fetch_all_closed_tickets] *)
Definition fetch_all_closed_tickets (E : env) (self : PylonAPIClient)
    (fuel : nat) (days_back : Z) : M pyval :=
  end_date <- now E None ;;
  delta <- lift (timedelta_days days_back) ;;
  start_date <- lift (datetime_sub end_date delta) ;;
  filtered_issues <- fetch_list E self fuel start_date end_date ;;
  assemble E self start_date end_date days_back filtered_issues.

(** [main] of pylon_fetcher.py; as for the Linear script, the value of the
    model is the dump the function ends with, if it gets that far. *)
Definition main (E : env) (fuel : nat) : M (option (string * pyval)) :=
  let API_TOKEN := "XXX" in
  let client := __init__ API_TOKEN in
  try_except
    (test_response <- send E {| req_method := "GET";
                                req_url := base_url client +:+ "/me";
                                req_headers := headers client;
                                req_params := []; req_json := PNone |} ;;
     if negb (status_code test_response =? 200) then
       raise ("API authentication failed: "
              +:+ string_of_Z (status_code test_response) +:+ " - "
              +:+ text test_response)
     else
       org_data <- lift (response_json test_response) ;;
       org <- lift (dict_get org_data "data" (PDict [])) ;;
       _ <- lift (dict_get org "name" (PStr "Unknown")) ;;
       all_data <- fetch_all_closed_tickets E client fuel 180 ;;
       stamp <- now E None ;;
       let output_filename :=
         "pylon_closed_tickets_" +:+ strftime E stamp "%Y%m%d_%H%M%S"
         +:+ ".json" in
       ret (Some (output_filename, all_data)))
    (fun e => ret None).


End Pylon.

(** ** Sample environments

    Concrete worlds on which the model is run.  Dates are printed as their
    microsecond count; the parser knows the few date strings that the
    sample tickets carry, with the reading Python gives them. *)

Definition initial_world : world := {| log := []; ticks := 0 |}.

(** 2025-06-01T12:00:00, advancing by a second per reading. *)
Definition sample_clock (n : nat) : Z :=
  739402 * day + 43200000000 + 1000000 * Z.of_nat n.

Definition sample_fromisoformat (s : string) : option datetime :=
  if (s =? "2025-05-20T00:00:00")%string
  then Some {| wall := 739390 * day; utcoffset := None |}
  else if (s =? "2025-05-20T00:00:00+00:00")%string
  then Some {| wall := 739390 * day; utcoffset := Some 0 |}
  else if (s =? "2020-01-01T00:00:00")%string
  then Some {| wall := 737424 * day; utcoffset := None |}
  else None.

Definition sample_env (srv : list request -> reply) : env :=
  {| server := srv;
     clock := sample_clock;
     environ := fun _ => None;
     fromisoformat := sample_fromisoformat;
     isoformat := fun d => string_of_Z (wall d);
     strftime := fun d _ => string_of_Z (wall d) |}.

(** A transport that answers the n-th request with the n-th reply of a
    script, whatever is asked, and with [after] once the script is over. *)
Definition scripted (replies : list reply) (after : reply)
    (history : list request) : reply :=
  nth (List.length history - 1) replies after.

Definition ok (v : pyval) : reply :=
  Answer {| status_code := 200; text := ""; json := Some v |}.

Definition failure (code : Z) (msg : string) : reply :=
  Answer {| status_code := code; text := msg; json := None |}.

(** A page of the Linear [issues] connection. *)
Definition issues_page (nodes has_next end_cursor : pyval) : reply :=
  ok (PDict [("data",
              PDict [("issues",
                      PDict [("pageInfo",
                              PDict [("hasNextPage", has_next);
                                     ("endCursor", end_cursor)]);
                             ("nodes", nodes)])])]).

(** A page of the Linear [comments] connection of an issue. *)
Definition comments_page (nodes has_next end_cursor : pyval) : reply :=
  ok (PDict [("data",
              PDict [("issue",
                      PDict [("comments",
                              PDict [("pageInfo",
                                      PDict [("hasNextPage", has_next);
                                             ("endCursor", end_cursor)]);
                                     ("nodes", nodes)])])])]).

(** A page of the Pylon search endpoint. *)
Definition search_page (issues cursor : pyval) : reply :=
  ok (PDict [("data", issues); ("meta", PDict [("cursor", cursor)])]).

Definition ticket (id state : string) (more : list (string * pyval)) : pyval :=
  PDict (("id", PStr id) :: ("state", PStr state) :: more).

(** A transport that is down. *)
Definition down : list request -> reply :=
  fun _ => Refused "ConnectionError: connection refused".

(** A Linear transport that serves the same full page with the same
    cursor over and over. *)
Definition stuck : list request -> reply :=
  fun _ => issues_page (PList [ticket "L1" "completed" []]) (PBool true)
             (PStr "cursor-1").

(** A Pylon transport that does the same on the search endpoint. *)
Definition stuck_search : list request -> reply :=
  fun _ => search_page (PList [ticket "T1" "closed" []]) (PStr "cursor-1").

(** A Pylon deployment: the search endpoint is unavailable; the range
    endpoint lists four issues; the details of T1, T3 and T4 can be read;
    the messages of T1 answer 404, those of T3 cannot be reached, those of
    T4 are two. *)
Definition pylon_site (history : list request) : reply :=
  match history with
  | [] => Refused "no request"
  | r :: _ =>
      let u := req_url r in
      if (u =? "https://api.usepylon.com/issues/search")%string
      then failure 500 "search unavailable"
      else if (u =? "https://api.usepylon.com/issues")%string
      then ok (PDict [("data",
                       PList [ticket "T1" "closed"
                                [("created_at", PStr "2020-01-01T00:00:00")];
                              ticket "T2" "open" [];
                              ticket "T3" "closed" [];
                              PDict [("state", PStr "closed")];
                              ticket "T4" "closed"
                                [("created_at", PStr "2025-05-20T00:00:00Z")]])])
      else if (u =? "https://api.usepylon.com/issues/T1")%string
      then ok (PDict [("data", ticket "T1" "closed" [])])
      else if (u =? "https://api.usepylon.com/issues/T1/messages")%string
      then failure 404 "not found"
      else if (u =? "https://api.usepylon.com/issues/T3")%string
      then ok (PDict [("data", ticket "T3" "closed" [])])
      else if (u =? "https://api.usepylon.com/issues/T4")%string
      then ok (PDict [("data", ticket "T4" "closed" [])])
      else if (u =? "https://api.usepylon.com/issues/T4/messages")%string
      then ok (PDict [("data", PList [PDict [("id", PStr "m1")];
                                      PDict [("id", PStr "m2")]])])
      else Refused "ConnectionError: connection reset"
  end.

(** Value found by following a path of keys through nested dicts. *)
Fixpoint lookup_path (v : pyval) (path : list string) : option pyval :=
  match path with
  | [] => Some v
  | k :: rest =>
      match dict_lookup v k with
      | Some v' => lookup_path v' rest
      | None => None
      end
  end.

Definition is_dict (v : pyval) : bool :=
  match v with
  | PDict _ => true
  | _ => false
  end.

(** ** linear_to_kapa.py and pylon_to_kapa.py: the text helpers

    The helpers of the two converters work on the characters of a title or
    of a converted message.  A Python string is taken here as what it is,
    a sequence of code points, so that the whitespace of [\s] and of
    [str.strip] is the whitespace of Unicode and [[:100]] counts
    characters. *)

Module Kapa.

Definition text := list N.

(** The code points of a literal of ASCII characters. *)
Definition lit (s : string) : text :=
  map N_of_ascii (list_ascii_of_string s).

(** The characters for which [str.isspace] holds; they make up the class
    [\s] of a pattern on strings and are what [str.strip] removes. *)
Definition isspace (c : N) : bool :=
  ((9 <=? c) && (c <=? 13) || (28 <=? c) && (c <=? 32)
   || (c =? 133) || (c =? 160) || (c =? 5760)
   || (8192 <=? c) && (c <=? 8202)
   || (c =? 8232) || (c =? 8233) || (c =? 8239) || (c =? 8287)
   || (c =? 12288))%N.

(** The class of the second pattern: the two angle brackets, the colon,
    the double quote, the slash, the backslash, the bar, the question mark
    and the star. *)
Definition problematic (c : N) : bool :=
  ((c =? 60) || (c =? 62) || (c =? 58) || (c =? 34) || (c =? 47)
   || (c =? 92) || (c =? 124) || (c =? 63) || (c =? 42))%N.

(** [re.sub(pattern, repl, s)] for a pattern that matches no empty
    string.  [match_at s] is the length of the match of the pattern at the
    start of [s], 0 when there is none.  The text is scanned from left to
    right: where the pattern matches, the replacement is put and the scan
    goes on behind the match; elsewhere the character is kept.  [skip]
    counts the characters of the current match still to be passed. *)
Fixpoint re_sub (match_at : text -> nat) (repl : text) (skip : nat) (s : text)
  : text :=
  match s with
  | [] => []
  | c :: rest =>
      match skip with
      | S k => re_sub match_at repl k rest
      | O =>
          match match_at s with
          | S k => repl ++ re_sub match_at repl k rest
          | O => c :: re_sub match_at repl 0 rest
          end
      end
  end.

(** Number of characters of [s] up to its first [>], that one included;
    0 when there is none. *)
Fixpoint upto_gt (s : text) : nat :=
  match s with
  | [] => 0
  | c :: rest =>
      if (c =? 62)%N then 1
      else match upto_gt rest with
           | O => 0
           | S n => S (S n)
           end
  end%nat.

(** The pattern [<[^>]+>]: a [<], one or more characters other than [>]
    (as many as there are), and a [>]. *)
Definition match_tag (s : text) : nat :=
  match s with
  | c0 :: c1 :: rest =>
      if ((c0 =? 60) && negb (c1 =? 62))%N then
        match upto_gt rest with
        | O => O
        | S n => S (S (S n))
        end
      else O
  | _ => O
  end.

(** A pattern made of one class. *)
Definition match_class (class : N -> bool) (s : text) : nat :=
  match s with
  | c :: _ => if class c then 1%nat else O
  | [] => O
  end.

(** Length of the longest run of characters of a class at the start of
    [s]. *)
Fixpoint run (class : N -> bool) (s : text) : nat :=
  match s with
  | c :: rest => if class c then S (run class rest) else O
  | [] => O
  end.

(** The pattern [\s+]. *)
Definition match_spaces (s : text) : nat := run isspace s.

Definition is_newline (c : N) : bool := (c =? 10)%N.

(** The pattern [\n{3,}]. *)
Definition match_newlines (s : text) : nat :=
  let n := run is_newline s in
  if (3 <=? n)%nat then n else O.

(** [s.lstrip()], [s.rstrip()] and [s.strip()] *)
Fixpoint lstrip (s : text) : text :=
  match s with
  | c :: rest => if isspace c then lstrip rest else s
  | [] => []
  end.

Definition rstrip (s : text) : text := rev (lstrip (rev s)).

Definition strip (s : text) : text := rstrip (lstrip s).

(** [clean_filename], the same function in both converters. *)
Definition clean_filename (filename : text) : text :=
  let filename := re_sub match_tag [] 0 filename in
  let filename := re_sub (match_class problematic) (lit "_") 0 filename in
  let filename := re_sub match_spaces (lit "_") 0 (strip filename) in
  firstn 100 filename.

(** [html_to_markdown] of pylon_to_kapa.py; [html2text] is the function of
    that name of the library of that name, which may raise. *)
Definition html_to_markdown (html2text : text -> outcome text)
    (html_content : text) : outcome text :=
  match html_content with
  | [] => Ret []
  | _ :: _ =>
      and_then (html2text html_content)
        (fun h =>
           let h := re_sub match_newlines [10; 10]%N 0 h in
           Ret (strip h))
  end.

End Kapa.

(** ** The converters and their machine

    A converter reads one JSON file and writes files.  What it needs from
    the machine and from the libraries is a [host].  The files written are
    recorded newest first; a file that cannot be opened leaves no record.
    A string value holds a text in the encoding of the JSON file;
    [code_points] gives its characters.  Paths are joined as on a POSIX
    system. *)

Inductive document : Type :=
| Markdown (content : string)
| Json (v : pyval).

Record host := mk_host {
  (** [os.makedirs(path, exist_ok=True)]: the error it raises, if any *)
  makedirs_error : string -> option exn;
  (** [open(path)] and [json.load] *)
  load_json : string -> outcome pyval;
  (** [open(path, "w")]: the error it raises, if any, given the files
      written before; the writing itself is taken to succeed *)
  open_error : list (string * document) -> string -> option exn;
  (** the characters of a string value and the string value of
      characters *)
  code_points : string -> Kapa.text;
  of_code_points : Kapa.text -> string;
  (** [html2text.html2text] on a string *)
  html2text : string -> outcome string;
  (** [s.title()] *)
  str_title : string -> string
}.

Notation "x <-? m ;; k" := (and_then m (fun x => k))
  (at level 61, m at next level, right associativity).

(** [clean_filename] on a value: [re.sub] wants a string. *)
Definition clean_filename_of (H : host) (filename : pyval) : outcome string :=
  match filename with
  | PStr s => Ret (of_code_points H (Kapa.clean_filename (code_points H s)))
  | _ => Exc "TypeError: expected string or bytes-like object"
  end.

Fixpoint ends_with_slash (s : string) : bool :=
  match s with
  | EmptyString => false
  | String c EmptyString => Ascii.eqb c "/"
  | String _ rest => ends_with_slash rest
  end.

(** [os.path.join(a, b)] on a POSIX system. *)
Definition path_join (a b : string) : string :=
  if String.prefix "/" b then b
  else if (a =? "")%string || ends_with_slash a then a +:+ b
  else a +:+ "/" +:+ b.

(** [sep.join(items)]: every item has to be a string. *)
Fixpoint str_items (items : list pyval) : option (list string) :=
  match items with
  | [] => Some []
  | PStr s :: rest =>
      match str_items rest with
      | Some ss => Some (s :: ss)
      | None => None
      end
  | _ :: _ => None
  end.

Definition str_join (sep : string) (items : list pyval) : outcome string :=
  match str_items items with
  | Some ss => Ret (String.concat sep ss)
  | None => Exc "TypeError: sequence item: expected str instance"
  end.

(** [v or {}] *)
Definition or_empty (v : pyval) : pyval := if truthy v then v else PDict [].

Module LinearToKapa.

(** [format_timestamp] *)
Definition format_timestamp (E : env) (iso_str : pyval) : pyval :=
  if negb (truthy iso_str) then PStr ""
  else
    match iso_str with
    | PStr s =>
        match fromisoformat E (replace_char "Z" "+00:00" s) with
        | Some dt => PStr (strftime E dt "%Y-%m-%d %H:%M UTC")
        | None => iso_str
        end
    | _ => iso_str
    end.

(** [[l.get("name", "") for l in labels_data if l.get("name")]] *)
Fixpoint label_names (labels_data : list pyval) : outcome (list pyval) :=
  match labels_data with
  | [] => Ret []
  | l :: rest =>
      named <-? dict_get l "name" PNone ;;
      if truthy named then
        name <-? dict_get l "name" (PStr "") ;;
        names <-? label_names rest ;;
        Ret (name :: names)
      else label_names rest
  end.

(** A metadata line and the empty line after it. *)
Definition field (label : string) (v : pyval) : list pyval :=
  [PStr ("**" +:+ label +:+ "**: " +:+ py_str v); PStr ""].

(** The lines for a person or thing given by name, when it has one:
    [if d.get("name"): md.append(f"**label**: {d['name']}"); ...] *)
Definition named_field (label : string) (d : pyval)
  : outcome (list pyval) :=
  named <-? dict_get d "name" PNone ;;
  if truthy named then
    name <-? py_getitem d "name" ;;
    Ret (field label name)
  else Ret [].

Definition cycle_field (cycle : pyval) : outcome (list pyval) :=
  named <-? dict_get cycle "name" PNone ;;
  if truthy named then
    name <-? py_getitem cycle "name" ;;
    number <-? dict_get cycle "number" (PStr "") ;;
    Ret [PStr ("**Cycle**: " +:+ py_str name +:+ " (#" +:+ py_str number
               +:+ ")");
         PStr ""]
  else Ret [].

(** Body of the loop over the comments. *)
Definition comment_lines (comment : pyval) : outcome (list pyval) :=
  comment_body <-? dict_get comment "body" (PStr "") ;;
  comment_created <-? dict_get comment "createdAt" (PStr "") ;;
  user <-? dict_get comment "user" (PDict []) ;;
  let comment_user := or_empty user in
  bot <-? dict_get comment "botActor" (PDict []) ;;
  let bot_actor := or_empty bot in
  bot_named <-? dict_get bot_actor "name" PNone ;;
  author_name <-?
    (if truthy bot_named then
       name <-? py_getitem bot_actor "name" ;;
       Ret (py_str name +:+ " (Bot)")
     else
       user_named <-? dict_get comment_user "name" PNone ;;
       if truthy user_named then
         name <-? py_getitem comment_user "name" ;;
         Ret (py_str name)
       else Ret "Unknown") ;;
  Ret [PStr ("**" +:+ author_name +:+ "**: "
             +:+ (if truthy comment_body then py_str comment_body
                  else "_No body content._"));
       PStr ""].

Fixpoint conversation (comments : list pyval) : outcome (list pyval) :=
  match comments with
  | [] => Ret []
  | comment :: rest =>
      lines <-? comment_lines comment ;;
      more <-? conversation rest ;;
      Ret (lines ++ more)
  end.

(** The [try] block of the loop of [convert_linear_to_kapa_format] up to
    the writing of the file: the name of the file, its text and the URL of
    the ticket number [i]. *)
Definition render (H : host) (E : env) (i : Z) (ticket : pyval)
  : outcome (string * string * pyval) :=
  issue <-? dict_get ticket "issue" (PDict []) ;;
  comments <-? dict_get ticket "comments" (PList []) ;;
  identifier <-? dict_get issue "identifier"
                   (PStr ("ISSUE-" +:+ string_of_Z i)) ;;
  number <-? dict_get issue "number" (PInt i) ;;
  title <-? dict_get issue "title" (PStr ("Issue " +:+ py_str number)) ;;
  description <-? dict_get issue "description" (PStr "") ;;
  url <-? dict_get issue "url" (PStr "") ;;
  created_at <-? dict_get issue "createdAt" (PStr "") ;;
  completed_at <-? dict_get issue "completedAt" (PStr "") ;;
  priority_label <-? dict_get issue "priorityLabel" (PStr "") ;;
  state_info <-? dict_get issue "state" (PDict []) ;;
  state_name <-? dict_get state_info "name" (PStr "Unknown") ;;
  team_info <-? dict_get issue "team" (PDict []) ;;
  team_name <-? dict_get team_info "name" (PStr "") ;;
  assignee_value <-? dict_get issue "assignee" (PDict []) ;;
  let assignee := or_empty assignee_value in
  creator_value <-? dict_get issue "creator" (PDict []) ;;
  let creator := or_empty creator_value in
  labels <-? dict_get issue "labels" (PDict []) ;;
  labels_data <-? dict_get labels "nodes" (PList []) ;;
  label_items <-? py_iter labels_data ;;
  names <-? label_names label_items ;;
  project_value <-? dict_get issue "project" (PDict []) ;;
  let project := or_empty project_value in
  cycle_value <-? dict_get issue "cycle" (PDict []) ;;
  let cycle := or_empty cycle_value in
  cleaned <-? clean_filename_of H title ;;
  let filename := py_str identifier +:+ "_" +:+ cleaned +:+ ".md" in
  let header :=
    [PStr ("# Linear Issue: " +:+ py_str identifier +:+ " — "
           +:+ py_str title);
     PStr ""]
    ++ field "Timestamp" (format_timestamp E created_at)
    ++ field "Status" state_name
    ++ (if truthy completed_at
        then field "Completed" (format_timestamp E completed_at) else [])
    ++ (if truthy team_name then field "Team" team_name else [])
    ++ (if truthy priority_label then field "Priority" priority_label
        else []) in
  assignee_lines <-? named_field "Assignee" assignee ;;
  creator_lines <-? named_field "Creator" creator ;;
  tag_lines <-?
    (match names with
     | [] => Ret []
     | _ :: _ =>
         tags <-? str_join ", " names ;;
         Ret (field "Tags" (PStr tags))
     end) ;;
  project_lines <-? named_field "Project" project ;;
  cycle_lines <-? cycle_field cycle ;;
  let body :=
    [PStr "## Issue description"; PStr "";
     (if truthy description then description
      else PStr "No description provided.");
     PStr ""] in
  talk <-?
    (if truthy comments then
       comment_items <-? py_iter comments ;;
       lines <-? conversation comment_items ;;
       Ret ([PStr "## Conversation"; PStr ""] ++ lines)
     else Ret []) ;;
  full_markdown <-?
    str_join (String (ascii_of_nat 10) EmptyString)
      (header ++ assignee_lines ++ creator_lines ++ tag_lines
       ++ project_lines ++ cycle_lines ++ body ++ talk) ;;
  Ret (filename, full_markdown, url).

(** Body of the loop over the tickets; the loop state is the files
    written and [index_data].  Whatever the [try] block raises is printed
    and the loop goes on. *)
Definition convert_ticket (H : host) (E : env) (output_dir : string)
    (i : Z) (ticket : pyval)
    (st : list (string * document) * list pyval)
  : list (string * document) * list pyval :=
  let '(files, index_data) := st in
  match render H E i ticket with
  | Ret (filename, full_markdown, url) =>
      let filepath := path_join output_dir filename in
      match open_error H files filepath with
      | Some e => st
      | None =>
          ((filepath, Markdown full_markdown) :: files,
           if truthy url
           then index_data ++ [PDict [("object_key", PStr filename);
                                      ("source_url", url)]]
           else index_data)
      end
  | _ => st
  end.

(** [for i, ticket in enumerate(tickets, i): ...] *)
Fixpoint convert_tickets (H : host) (E : env) (output_dir : string)
    (i : Z) (tickets : list pyval)
    (st : list (string * document) * list pyval)
  : list (string * document) * list pyval :=
  match tickets with
  | [] => st
  | ticket :: rest =>
      convert_tickets H E output_dir (i + 1) rest
        (convert_ticket H E output_dir i ticket st)
  end.


End LinearToKapa.

(** ** pylon_to_kapa.py *)

(** [d.items()] *)
Definition dict_items (d : pyval) : outcome (list (string * pyval)) :=
  match d with
  | PDict kv => Ret kv
  | _ => Exc "AttributeError: object has no attribute 'items'"
  end.

(** [d[k] = v] on the entries of a dict: the value of an existing key is
    replaced in place, a new key comes last. *)
Fixpoint dict_set (k : string) (v : pyval) (kv : list (string * pyval))
  : list (string * pyval) :=
  match kv with
  | [] => [(k, v)]
  | (k', v') :: rest =>
      if (k' =? k)%string then (k, v) :: rest
      else (k', v') :: dict_set k v rest
  end.

(** [k in d] for a dict [d] *)
Definition has_key (d : pyval) (k : string) : bool :=
  match dict_lookup d k with
  | Some _ => true
  | None => false
  end.

Definition newline : string := String (ascii_of_nat 10) EmptyString.

Module PylonToKapa.

(** [html_to_markdown] on a value: nothing is converted when it is
    falsy, and [html2text] wants a string. *)
Definition html_to_markdown_of (H : host) (html_content : pyval)
  : outcome string :=
  match html_content with
  | PStr s =>
      md <-? Kapa.html_to_markdown
               (fun t =>
                  h <-? html2text H (of_code_points H t) ;;
                  Ret (code_points H h))
               (code_points H s) ;;
      Ret (of_code_points H md)
  | _ =>
      if truthy html_content
      then Exc "AttributeError: object has no attribute 'replace'"
      else Ret ""
  end.

(** [isinstance(field_data, dict) and "values" in field_data]: the
    values of a custom field of that shape. *)
Definition field_values (field_data : pyval) : option pyval :=
  match field_data with
  | PDict kv => assoc "values" kv
  | _ => None
  end.

(** The loop over [custom_fields.items()] in the header of the file. *)
Fixpoint custom_field_lines (H : host) (items : list (string * pyval))
  : outcome (list string) :=
  match items with
  | [] => Ret []
  | (field_name, field_data) :: rest =>
      line <-?
        (match field_values field_data with
         | Some values =>
             if truthy values then
               let label := str_title H (replace_char "_" " " field_name) in
               parts <-? py_iter values ;;
               joined <-? str_join ", " parts ;;
               Ret ["**" +:+ label +:+ ":** " +:+ joined]
             else Ret []
         | None => Ret []
         end) ;;
      more <-? custom_field_lines H rest ;;
      Ret (line ++ more)
  end.

(** The loop over [custom_fields.items()] that completes the metadata of
    the index entry. *)
Fixpoint add_custom_fields (items : list (string * pyval))
    (metadata : list (string * pyval)) : list (string * pyval) :=
  match items with
  | [] => metadata
  | (field_name, field_data) :: rest =>
      add_custom_fields rest
        (match field_values field_data with
         | Some values => dict_set field_name values metadata
         | None => metadata
         end)
  end.

(** Body of the loop over the messages. *)
Definition message_lines (H : host) (message : pyval)
  : outcome (list string) :=
  msg_html <-? dict_get message "message_html" (PStr "") ;;
  timestamp <-? dict_get message "timestamp" (PStr "") ;;
  author_info <-? dict_get message "author" (PDict []) ;;
  is_private <-? dict_get message "is_private" (PBool false) ;;
  author_name <-? dict_get author_info "name" (PStr "Unknown") ;;
  let author_type :=
    if has_key author_info "contact" then "Customer"
    else if has_key author_info "user" then "Support"
    else "Unknown" in
  let privacy_indicator := if truthy is_private then " (Private)" else "" in
  let head :=
    ["### " +:+ author_type +:+ ": " +:+ py_str author_name
      +:+ privacy_indicator]
    ++ (if truthy timestamp then ["*" +:+ py_str timestamp +:+ "*"] else [])
    ++ [""] in
  content <-?
    (if truthy msg_html then
       msg_markdown <-? html_to_markdown_of H msg_html ;;
       Ret [msg_markdown]
     else Ret []) ;;
  file_urls <-? dict_get message "file_urls" (PList []) ;;
  attachments <-?
    (if truthy file_urls then
       urls <-? py_iter file_urls ;;
       Ret ([""; "**Attachments:**"]
            ++ map (fun file_url => "- " +:+ py_str file_url) urls)
     else Ret []) ;;
  Ret (head ++ content ++ attachments ++ [""; "---"; ""]).

Fixpoint conversation (H : host) (messages : list pyval)
  : outcome (list string) :=
  match messages with
  | [] => Ret []
  | message :: rest =>
      lines <-? message_lines H message ;;
      more <-? conversation H rest ;;
      Ret (lines ++ more)
  end.

(** The index entry of a ticket, built once its file is written. *)
Definition index_entry (filename : string)
    (ticket_id ticket_number title state link created_at messages
       custom_fields : pyval) : outcome pyval :=
  total_messages <-? py_len messages ;;
  let metadata :=
    [("ticket_id", ticket_id);
     ("ticket_number", ticket_number);
     ("state", state);
     ("created_at", created_at);
     ("total_messages", total_messages);
     ("source", PStr "pylon_support_tickets")] in
  metadata' <-?
    (if truthy custom_fields then
       items <-? dict_items custom_fields ;;
       Ret (add_custom_fields items metadata)
     else Ret metadata) ;;
  Ret (PDict [("file_path", PStr filename);
              ("title", PStr ("Support Ticket #" +:+ py_str ticket_number
                              +:+ ": " +:+ py_str title));
              ("url", if truthy link then link else PNone);
              ("metadata", PDict metadata')]).

(** The [try] block of the loop of [convert_pylon_to_kapa_format] up to
    the writing of the file: the name of the file and its text for the
    ticket number [i], and the index entry that is built after the
    writing. *)
Definition render (H : host) (i : Z) (ticket : pyval)
  : outcome (string * string * outcome pyval) :=
  issue_summary <-? dict_get ticket "issue_summary" (PDict []) ;;
  details <-? dict_get ticket "issue_details" (PDict []) ;;
  issue_details <-? dict_get details "data" (PDict []) ;;
  messages <-? dict_get ticket "messages" (PList []) ;;
  ticket_id <-? dict_get issue_summary "id"
                  (PStr ("unknown_" +:+ string_of_Z i)) ;;
  ticket_number <-? dict_get issue_summary "number" (PInt i) ;;
  title <-? dict_get issue_summary "title"
              (PStr ("Ticket " +:+ py_str ticket_number)) ;;
  state <-? dict_get issue_summary "state" (PStr "unknown") ;;
  link <-? dict_get issue_summary "link" (PStr "") ;;
  created_at <-? dict_get issue_summary "created_at" (PStr "") ;;
  cleaned <-? clean_filename_of H title ;;
  let filename := py_str ticket_number +:+ "_" +:+ cleaned +:+ ".md" in
  state_title <-?
    (match state with
     | PStr s => Ret (str_title H s)
     | _ => Exc "AttributeError: object has no attribute 'title'"
     end) ;;
  let header :=
    ["# Support Ticket: " +:+ py_str title +:+ " - " +:+ state_title; ""]
    ++ (if truthy created_at then ["**Created:** " +:+ py_str created_at]
        else [])
    ++ (if truthy link then ["**Pylon Link:** " +:+ py_str link] else []) in
  custom_fields <-? dict_get issue_summary "custom_fields" (PDict []) ;;
  custom_lines <-?
    (if truthy custom_fields then
       items <-? dict_items custom_fields ;;
       custom_field_lines H items
     else Ret []) ;;
  initial_body <-? dict_get issue_summary "body_html" (PStr "") ;;
  initial <-?
    (if truthy initial_body then
       body <-? html_to_markdown_of H initial_body ;;
       Ret ["## Initial Request"; ""; body; ""]
     else Ret []) ;;
  talk <-?
    (if truthy messages then
       items <-? py_iter messages ;;
       lines <-? conversation H items ;;
       Ret (["## Conversation"; ""] ++ lines)
     else Ret []) ;;
  let full_markdown :=
    String.concat newline
      (header ++ custom_lines ++ [""; "---"; ""] ++ initial ++ talk) in
  Ret (filename, full_markdown,
       index_entry filename ticket_id ticket_number title state link
         created_at messages custom_fields).

(** Body of the loop over the tickets; the loop state is the files
    written and [index_data].  The file is written before the index entry
    is built; whatever the [try] block raises is printed and the loop goes
    on. *)
Definition convert_ticket (H : host) (output_dir : string)
    (i : Z) (ticket : pyval)
    (st : list (string * document) * list pyval)
  : list (string * document) * list pyval :=
  let '(files, index_data) := st in
  match render H i ticket with
  | Ret (filename, full_markdown, entry) =>
      let filepath := path_join output_dir filename in
      match open_error H files filepath with
      | Some e => st
      | None =>
          ((filepath, Markdown full_markdown) :: files,
           match entry with
           | Ret index_entry => index_data ++ [index_entry]
           | _ => index_data
           end)
      end
  | _ => st
  end.

Fixpoint convert_tickets (H : host) (output_dir : string)
    (i : Z) (tickets : list pyval)
    (st : list (string * document) * list pyval)
  : list (string * document) * list pyval :=
  match tickets with
  | [] => st
  | ticket :: rest =>
      convert_tickets H output_dir (i + 1) rest
        (convert_ticket H output_dir i ticket st)
  end.




End PylonToKapa.

(** * Vocabulary of the properties

    Views of replies, sequences of pages, windows of the chunk scan and
    the sample deployments used to run the model. *)

(** [turns body k s w s' w']: from loop state [s] in world [w], the body
    of a [while True] loop runs [k] times without leaving the loop and
    reaches [s'] in [w']. *)
Inductive turns (S A : Type) (body : S -> M (S + A))
  : nat -> S -> world -> S -> world -> Prop :=
| turns_O : forall s w, turns body 0 s w s w
| turns_S : forall k s w s1 w1 s' w',
    body s w = (Ret (inl s1), w1) ->
    turns body k s1 w1 s' w' ->
    turns body (Datatypes.S k) s w s' w'.

(** The world after request [r] has been sent. *)
Definition sent (r : request) (w : world) : world :=
  {| log := r :: log w; ticks := ticks w |}.

(** The replies to the next requests, whatever they ask for, are
    [replies], in this order. *)
Definition serves (E : env) (w : world) (replies : list reply) : Prop :=
  forall i r history,
    nth_error replies i = Some r ->
    List.length history = (List.length (log w) + Datatypes.S i)%nat ->
    server E history = r.

(** Whatever is requested next in world [w], the reply is [r]. *)
Definition next_reply (E : env) (w : world) (r : reply) : Prop :=
  forall req, server E (req :: log w) = r.

(** A page with nodes that announces a next page and gives its cursor. *)
Definition goes_on (p : list pyval * pyval * pyval) : bool :=
  let '(items, has_next, end_cursor) := p in
  match items with
  | [] => false
  | _ :: _ => truthy has_next && truthy end_cursor
  end.

(** Replies on which a GraphQL call raises: no connection, a status
    other than 200, a body that is not JSON, or an [errors] array. *)
Definition graphql_failure (r : reply) : option exn :=
  match r with
  | Refused e => Some e
  | Answer a =>
      if negb (status_code a =? 200)
      then Some ("API request failed: " +:+ string_of_Z (status_code a)
                 +:+ " - " +:+ text a)
      else
        match json a with
        | None => Some "JSONDecodeError: response body is not JSON"
        | Some (PDict kv) =>
            match assoc "errors" kv with
            | Some errors => Some (Linear.graphql_error errors)
            | None => None
            end
        | Some _ => Some "TypeError: GraphQL answer is not an object"
        end
  end.

(** A page of the Pylon search with issues and a cursor to a next page. *)
Definition search_goes_on (p : list pyval * pyval) : bool :=
  let '(items, cursor) := p in
  match items with
  | [] => false
  | _ :: _ => truthy cursor
  end.

(** Replies on which a turn of the Pylon search raises: no connection, a
    status other than 200, a body that is not JSON or not an object. *)
Definition rest_failure (r : reply) : option exn :=
  match r with
  | Refused e => Some e
  | Answer a =>
      if negb (status_code a =? 200)
      then Some ("API request failed: " +:+ string_of_Z (status_code a)
                 +:+ " - " +:+ text a)
      else
        match json a with
        | None => Some "JSONDecodeError: response body is not JSON"
        | Some (PDict _) => None
        | Some _ => Some "AttributeError: object has no attribute 'get'"
        end
  end.

(** The ways a cursor loop of the Linear client comes to its end: a page
    without nodes (whatever it says about a next page), a page with nodes
    that does not announce a next page or gives no cursor, or a reply on
    which the GraphQL call raises. *)
Inductive ending : Type :=
| EmptyPage (has_next end_cursor : pyval)
| LastPage (items : list pyval) (has_next end_cursor : pyval)
| Failure (r : reply).

Definition ending_ok (e : ending) : bool :=
  match e with
  | EmptyPage _ _ => true
  | LastPage items has_next end_cursor =>
      match items with
      | [] => false
      | _ :: _ => negb (truthy has_next && truthy end_cursor)
      end
  | Failure r =>
      match graphql_failure r with
      | Some _ => true
      | None => false
      end
  end.

Definition ending_reply (page : pyval -> pyval -> pyval -> reply)
    (e : ending) : reply :=
  match e with
  | EmptyPage has_next end_cursor => page (PList []) has_next end_cursor
  | LastPage items has_next end_cursor => page (PList items) has_next end_cursor
  | Failure r => r
  end.

(** What the loop hands back when it ends this way with [acc] collected. *)
Definition ending_outcome (acc : list pyval) (e : ending)
  : outcome (list pyval) :=
  match e with
  | EmptyPage _ _ => Ret acc
  | LastPage items _ _ => Ret (acc ++ items)
  | Failure r =>
      match graphql_failure r with
      | Some x => Exc x
      | None => OutOfFuel
      end
  end.

(** The same for the Pylon search, whose pages carry only a cursor. *)
Inductive search_ending : Type :=
| SearchEmptyPage (cursor : pyval)
| SearchLastPage (items : list pyval) (cursor : pyval)
| SearchFailure (r : reply).

Definition search_ending_ok (e : search_ending) : bool :=
  match e with
  | SearchEmptyPage _ => true
  | SearchLastPage items cursor =>
      match items with
      | [] => false
      | _ :: _ => negb (truthy cursor)
      end
  | SearchFailure r =>
      match rest_failure r with
      | Some _ => true
      | None => false
      end
  end.

Definition search_ending_reply (e : search_ending) : reply :=
  match e with
  | SearchEmptyPage cursor => search_page (PList []) cursor
  | SearchLastPage items cursor => search_page (PList items) cursor
  | SearchFailure r => r
  end.

Definition search_ending_outcome (acc : list pyval) (e : search_ending)
  : outcome (list pyval) :=
  match e with
  | SearchEmptyPage _ => Ret acc
  | SearchLastPage items _ => Ret (acc ++ items)
  | SearchFailure r =>
      match rest_failure r with
      | Some x => Exc x
      | None => OutOfFuel
      end
  end.

(** [body] ends the loop with outcome [o], having sent one request. *)
Definition ends_with (S A : Type) (body : S -> M (S + A)) (s : S) (w : world)
    (o : outcome A) : Prop :=
  exists req,
    match o with
    | Ret a => body s w = (Ret (inr a), sent req w)
    | Exc x => body s w = (Exc x, sent req w)
    | OutOfFuel => False
    end.

Definition issues_reply (p : list pyval * pyval * pyval) : reply :=
  let '(items, has_next, end_cursor) := p in
  issues_page (PList items) has_next end_cursor.

Definition comments_reply (p : list pyval * pyval * pyval) : reply :=
  let '(items, has_next, end_cursor) := p in
  comments_page (PList items) has_next end_cursor.

Definition search_reply (p : list pyval * pyval) : reply :=
  let '(items, cursor) := p in search_page (PList items) cursor.

Definition page_items (p : list pyval * pyval * pyval) : list pyval :=
  fst (fst p).

Definition all_items (pages : list (list pyval * pyval * pyval)) : list pyval :=
  List.concat (map page_items pages).

Definition all_found (pages : list (list pyval * pyval)) : list pyval :=
  List.concat (map fst pages).

(** The subtraction of [days_back] days from the current clock reading
    stays within the dates Python can represent. *)
Definition days_back_in_range (E : env) (w : world) (days_back : Z) : Prop :=
  Z.abs days_back <= 999999999
  /\ 0 <= clock E (ticks w) - days_back * day <= datetime_max_wall.

(** The world after one more reading of the clock. *)
Definition ticked (w : world) : world :=
  {| log := log w; ticks := Datatypes.S (ticks w) |}.

(** Two pages of Linear issues sharing one cursor, then an empty page
    that announces a next page. *)
Definition linear_pages_sample : list (list pyval * pyval * pyval) :=
  [([ticket "L1" "completed" []; ticket "L2" "canceled" []],
    PBool true, PStr "cursor-1");
   ([ticket "L3" "completed" []], PBool true, PStr "cursor-1")].

Definition pylon_pages_sample : list (list pyval * pyval) :=
  [([ticket "T1" "closed" []; ticket "T2" "closed" []], PStr "cursor-1");
   ([ticket "T3" "closed" []], PStr "cursor-1")].

Unset Implicit Arguments.

(** [issue.get("id")] of a ticket. *)
Definition issue_id (issue : pyval) : pyval :=
  match dict_lookup issue "id" with
  | Some v => v
  | None => PNone
  end.

Definition has_id (issue : pyval) : bool :=
  is_dict issue && truthy (issue_id issue).

(** The [try] block of the Pylon loop body. *)
Definition pylon_fetch_ticket (E : env) (self : Pylon.PylonAPIClient)
    (issue : pyval) : M pyval :=
  detailed_issue <- Pylon.get_issue_details E self (issue_id issue) ;;
  messages <- Pylon.get_issue_messages E self (issue_id issue) ;;
  total <- lift (py_len messages) ;;
  ret (Pylon.complete_ticket issue detailed_issue messages total).

(** Computations without loops never run out of budget. *)
Definition total {A : Type} (m : M A) : Prop :=
  forall w, fst (m w) <> OutOfFuel.

Definition pure_total {A : Type} (o : outcome A) : Prop := o <> OutOfFuel.

Definition all_dicts (issues : list pyval) : Prop :=
  Forall (fun issue => is_dict issue = true) issues.

(** A Linear transport for three tickets: the comments of L1 come in two
    pages, the comment request of L2 is answered with status 500, L3 has no
    comments. *)
Definition linear_comment_replies : list reply :=
  [comments_page (PList [PDict [("id", PStr "c1")]; PDict [("id", PStr "c2")]])
     (PBool true) (PStr "cc-1");
   comments_page (PList [PDict [("id", PStr "c3")]]) (PBool false) PNone;
   failure 500 "overloaded";
   comments_page (PList []) (PBool false) PNone].

Definition linear_site : env :=
  sample_env (scripted linear_comment_replies (failure 500 "")).

Definition L1 : pyval := PDict [("id", PStr "L1"); ("identifier", PStr "ENG-1")].
Definition L2 : pyval := PDict [("id", PStr "L2"); ("identifier", PStr "ENG-2")].
Definition L3 : pyval := PDict [("id", PStr "L3"); ("identifier", PStr "ENG-3")].
Definition no_id : pyval := PDict [("title", PStr "draft")].

(** A complete Linear deployment: one page of four issues, then the
    comment replies of [linear_comment_replies]. *)
Definition linear_full_site : env :=
  sample_env
    (scripted (issues_page (PList [L1; L2; no_id; L3]) (PBool false) PNone
               :: linear_comment_replies) (failure 500 "")).

(** [fetches E self issues]: the detail and message fetch of each of
    these tickets yields a record, in whatever world it is attempted. *)
Definition fetches (E : env) (self : Pylon.PylonAPIClient)
    (issues : list pyval) : Prop :=
  Forall (fun issue =>
            forall w, exists record w',
              pylon_fetch_ticket E self issue w = (Ret record, w')) issues.

(** A Pylon transport that answers every request with an empty list. *)
Definition quiet : list request -> reply :=
  fun _ => ok (PDict [("data", PList [])]).





Definition naive (t : Z) : datetime := {| wall := t; utcoffset := None |}.

(** The windows the chunk loop walks through, newest first: a second
    description of the loop's date arithmetic, on plain numbers. *)
Fixpoint chunk_windows (fuel : nat) (start current_end : Z) : list (Z * Z) :=
  if start <? current_end then
    match fuel with
    | O => []
    | Datatypes.S fuel' =>
        let current_start := Z.max start (current_end - 30 * day) in
        (current_start, current_end)
        :: chunk_windows fuel' start current_start
    end
  else [].

(** [chain hi ws lo]: the windows [ws] lie end to end from [hi] down to
    [lo]. *)
Inductive chain : Z -> list (Z * Z) -> Z -> Prop :=
| chain_nil : forall t, chain t [] t
| chain_cons : forall hi mid ws lo,
    chain mid ws lo -> chain hi ((mid, hi) :: ws) lo.

(** What one chunk adds: the closed issues of its range request, or
    nothing when the request or the reading of its answer raises. *)
Definition chunk_step (E : env) (self : Pylon.PylonAPIClient)
    (acc : list pyval * world) (win : Z * Z) : list pyval * world :=
  let '(filtered, w) := acc in
  match bind (Pylon.get_issues_in_range E self (naive (fst win))
                (naive (snd win)))
          (fun chunk_issues => lift (Pylon.closed_in_chunk chunk_issues)) w with
  | (Ret closed, w') => (filtered ++ closed, w')
  | (_, w') => (filtered, w')
  end.

(** What the list comprehension over a chunk keeps. *)
Definition is_closed (issue : pyval) : bool :=
  match dict_lookup issue "state" with
  | Some v => eq_str v "closed"
  | None => false
  end.

Definition issue_state (issue : pyval) : pyval :=
  match dict_lookup issue "state" with
  | Some v => v
  | None => PNone
  end.

(** What the specification of the filter asks for: the state is the target state
    and the first parseable date among the three fields lies in the
    window. *)
Definition retained (E : env) (start finish : Z) (state : string)
    (issue : pyval) : bool :=
  eq_str (issue_state issue) state
  && match Pylon.find_issue_date E issue Pylon.date_fields with
     | Some d => (start <=? wall d) && (wall d <=? finish)
     | None => false
     end.

(** ** Vocabulary of the further properties *)

(** [sends P m]: whatever the world, running [m] only adds requests to
    the log, each of which satisfies [P]. *)
Definition sends {A : Type} (P : request -> Prop) (m : M A) : Prop :=
  forall w, exists added,
    log (snd (m w)) = added ++ log w /\ Forall P added.

(** A request of the Linear client [self]: a POST to its endpoint that
    carries its headers. *)
Definition linear_request (self : Linear.LinearAPIClient) (r : request) : Prop :=
  req_method r = "POST"
  /\ req_url r = Linear.base_url self
  /\ req_headers r = Linear.headers self.

(** A request of the Pylon client [self]: a GET or POST below its base
    URL that carries its headers. *)
Definition pylon_request (self : Pylon.PylonAPIClient) (r : request) : Prop :=
  (req_method r = "GET" \/ req_method r = "POST")
  /\ String.prefix (Pylon.base_url self) (req_url r) = true
  /\ req_headers r = Pylon.headers self.

(** The two shapes of a record of the Linear exporter for [issue]. *)
Definition linear_record (issue record : pyval) : Prop :=
  (exists comments, record = Linear.complete_ticket issue comments)
  \/ (exists e, record = Linear.failed_ticket issue e).

(** The shape of a record of the Pylon exporter for [issue]. *)
Definition pylon_record (issue record : pyval) : Prop :=
  exists detailed messages total,
    record = Pylon.complete_ticket issue detailed messages total
    /\ py_len messages = Ret total.

Definition with_id (issue : pyval) : bool := truthy (issue_id issue).

(** [subsequence l1 l2]: [l1] is [l2] with some items left out. *)
Inductive subsequence {A : Type} : list A -> list A -> Prop :=
| subsequence_nil : subsequence [] []
| subsequence_keep : forall x l1 l2,
    subsequence l1 l2 -> subsequence (x :: l1) (x :: l2)
| subsequence_drop : forall x l1 l2,
    subsequence l1 l2 -> subsequence l1 (x :: l2).

(** The request of a turn of the Linear issue pagination, by its cursor. *)
Definition issues_request (self : Linear.LinearAPIClient)
    (filter cursor : pyval) : request :=
  {| req_method := "POST"; req_url := Linear.base_url self;
     req_headers := Linear.headers self; req_params := [];
     req_json :=
       PDict [("query", PStr Linear.issues_query);
              ("variables",
               PDict (("filter", filter)
                      :: (if truthy cursor then [("after", cursor)]
                          else [])))] |}.

(** The request of a turn of the Pylon search, by its cursor. *)
Definition search_request (self : Pylon.PylonAPIClient) (cursor : pyval)
  : request :=
  {| req_method := "POST";
     req_url := Pylon.base_url self +:+ "/issues/search";
     req_headers := Pylon.headers self; req_params := [];
     req_json := Pylon.search_payload cursor |}.

(** [still m]: running [m] leaves the world as it is. *)
Definition still {A : Type} (m : M A) : Prop := forall w, snd (m w) = w.

(** [sends_at_most n m]: running [m] adds at most [n] requests to the
    log and touches none that is there. *)
Definition sends_at_most {A : Type} (n : nat) (m : M A) : Prop :=
  forall w, exists added,
    log (snd (m w)) = added ++ log w /\ (List.length added <= n)%nat.

(** What the filter found for a ticket it kept: the state asked for and a
    date inside the window. *)
Definition kept_rightly (E : env) (start_date end_date : datetime)
    (state : string) (issue : pyval) : Prop :=
  eq_str (issue_state issue) state = true
  /\ exists d,
       Pylon.find_issue_date E issue Pylon.date_fields = Some d
       /\ Pylon.in_window start_date d end_date = Ret true.

(** The request of a GraphQL call of the Linear client without
    variables. *)
Definition query_request (self : Linear.LinearAPIClient) (query : string)
  : request :=
  {| req_method := "POST"; req_url := Linear.base_url self;
     req_headers := Linear.headers self; req_params := [];
     req_json := PDict [("query", PStr query)] |}.

(** The four queries that come before the fetch in the Linear script, in
    the order they are sent. *)
Definition preliminary_queries : list string :=
  [Linear.viewer_query; Linear.teams_query; Linear.states_query;
   Linear.recent_query].

(** [asks requests m]: running [m] sends the requests of the list, in its
    order and nothing else, and does not read the clock; it may stop early
    by raising, but when it returns all of them have been sent. *)
Definition asks {A : Type} (requests : list request) (m : M A) : Prop :=
  forall w, exists done rest,
    requests = done ++ rest
    /\ snd (m w) = {| log := rev done ++ log w; ticks := ticks w |}
    /\ (forall a, fst (m w) = Ret a -> rest = []).

(** The connection test of the Pylon script. *)
Definition me_request : request :=
  {| req_method := "GET"; req_url := "https://api.usepylon.com/me";
     req_headers := [("Authorization", "Bearer <TOKEN>");
                     ("Content-Type", "application/json");
                     ("Accept", "application/json")];
     req_params := []; req_json := PNone |}.

(** The replies with which the connection test of the Pylon script is
    passed: status 200 and a JSON object whose [data], if any, is an
    object. *)
Definition accepted (r : reply) : bool :=
  match r with
  | Refused _ => false
  | Answer a =>
      (status_code a =? 200)
      && match json a with
         | Some (PDict kv) =>
             match assoc "data" kv with
             | Some d => is_dict d
             | None => true
             end
         | _ => false
         end
  end.

(** An environment for the Linear script: the key is set, the other
    variables are not. *)
Definition script_env (srv : list request -> reply) : env :=
  {| server := srv;
     clock := sample_clock;
     environ := fun name =>
                  if (name =? "LINEAR_API_KEY")%string
                  then Some "lin_api_sample" else None;
     fromisoformat := sample_fromisoformat;
     isoformat := fun d => string_of_Z (wall d);
     strftime := fun d _ => string_of_Z (wall d) |}.

Definition sample_int_of_str (s : string) : option Z :=
  if (s =? "180")%string then Some 180
  else if (s =? "30")%string then Some 30
  else None.

(** Answers of a small Linear workspace to the connection test and to the
    three queries of the diagnosis. *)
Definition viewer_answer : reply :=
  ok (PDict [("data",
              PDict [("viewer", PDict [("id", PStr "u1");
                                       ("name", PStr "Ada");
                                       ("email", PStr "ada@example.org")]);
                     ("organization", PDict [("id", PStr "o1");
                                             ("name", PStr "Example")])])]).

Definition teams_answer : reply :=
  ok (PDict [("data",
              PDict [("teams",
                      PDict [("nodes",
                              PList [PDict [("id", PStr "t1");
                                            ("name", PStr "Core");
                                            ("key", PStr "COR");
                                            ("issueCount", PInt 3)]])])])]).

Definition states_answer : reply :=
  ok (PDict [("data",
              PDict [("workflowStates",
                      PDict [("nodes",
                              PList [PDict [("id", PStr "s1");
                                            ("name", PStr "Done");
                                            ("type", PStr "completed");
                                            ("team",
                                             PDict [("key", PStr "COR")])]])])])]).

Definition recent_answer : reply :=
  ok (PDict [("data",
              PDict [("issues",
                      PDict [("nodes",
                              PList [PDict [("identifier", PStr "COR-1");
                                            ("title", PStr "Crash on start");
                                            ("state",
                                             PDict [("name", PStr "Done");
                                                    ("type", PStr "completed")]);
                                            ("updatedAt",
                                             PStr "2025-05-20T00:00:00.000Z");
                                            ("completedAt", PNone)]])])])]).

(** The same workspace when the team has no key. *)
Definition keyless_teams_answer : reply :=
  ok (PDict [("data",
              PDict [("teams",
                      PDict [("nodes",
                              PList [PDict [("id", PStr "t1");
                                            ("name", PStr "Core")]])])])]).

(** The small workspace with no closed issue in the window. *)
Definition sample_workspace : list request -> reply :=
  scripted [viewer_answer; teams_answer; states_answer; recent_answer;
            issues_page (PList []) (PBool false) PNone]
    (failure 500 "").

(** The same with the team that has no key. *)
Definition keyless_workspace : list request -> reply :=
  scripted [viewer_answer; keyless_teams_answer; states_answer; recent_answer;
            issues_page (PList []) (PBool false) PNone]
    (failure 500 "").

(** A character that [clean_filename] leaves alone: outside the class of
    the second pattern and no whitespace. *)
Definition safe_char (c : N) : Prop :=
  Kapa.problematic c = false /\ Kapa.isspace c = false.

(** No run of more than two newlines starts anywhere in [s]. *)
Fixpoint calm (s : Kapa.text) : bool :=
  match s with
  | [] => true
  | _ :: rest => (Kapa.run Kapa.is_newline s <=? 2)%nat && calm rest
  end.







(** A machine on which nothing fails, for texts of ASCII characters;
    [html2text] and [title] are stand-ins that leave the text as it is. *)
Definition sample_host (input : pyval) : host :=
  {| makedirs_error := fun _ => None;
     load_json := fun _ => Ret input;
     open_error := fun _ _ => None;
     code_points := Kapa.lit;
     of_code_points :=
       fun t => string_of_list_ascii (map ascii_of_N t);
     html2text := fun s => Ret s;
     str_title := fun s => s |}.


(** A Pylon export of two tickets; the messages of the second are
    null. *)
Definition pylon_export : pyval :=
  PDict [("metadata",
          PDict [("date_range",
                  PDict [("start", PStr "2025-01-01T00:00:00");
                         ("end", PStr "2025-06-01T12:00:00")])]);
         ("tickets",
          PList [PDict [("issue_summary",
                         PDict [("id", PStr "T1");
                                ("number", PInt 7);
                                ("title", PStr "Login fails");
                                ("state", PStr "closed")]);
                        ("messages", PList [])];
                 PDict [("issue_summary",
                         PDict [("id", PStr "T2");
                                ("number", PInt 8);
                                ("title", PStr "Export: broken");
                                ("state", PStr "closed")]);
                        ("messages", PNone)]])].

(** The small workspace when the issue list is out of order. *)
Definition failing_workspace : list request -> reply :=
  scripted [viewer_answer; teams_answer; states_answer; recent_answer]
    (failure 500 "").


Set Implicit Arguments.

(** * Properties *)

(** ** The monad and its loops *)

Lemma bind_Ret_inv (A B : Type) (m : M A) (k : A -> M B) w b w' :
  bind m k w = (Ret b, w') ->
  exists a w1, m w = (Ret a, w1) /\ k a w1 = (Ret b, w').
Proof.
  unfold bind. destruct (m w) as [[a | e |] w1]; intro H; try discriminate.
  exists a, w1. split; [reflexivity | exact H].
Qed.

Lemma bind_Ret (A B : Type) (m : M A) (k : A -> M B) w a w1 :
  m w = (Ret a, w1) -> bind m k w = k a w1.
Proof. unfold bind. intros ->. reflexivity. Qed.

Lemma bind_Exc (A B : Type) (m : M A) (k : A -> M B) w e w1 :
  m w = (Exc e, w1) -> bind m k w = (Exc e, w1).
Proof. unfold bind. intros ->. reflexivity. Qed.

Lemma bind_OutOfFuel (A B : Type) (m : M A) (k : A -> M B) w w1 :
  m w = (OutOfFuel, w1) -> bind m k w = (OutOfFuel, w1).
Proof. unfold bind. intros ->. reflexivity. Qed.

Lemma lift_Ret_inv (A : Type) (o : outcome A) w a w' :
  lift o w = (Ret a, w') -> o = Ret a /\ w' = w.
Proof. unfold lift. intro H. inversion H. split; reflexivity. Qed.

Lemma for_each_app (A S : Type) (body : A -> S -> M S) (l1 l2 : list A) s w :
  for_each body (l1 ++ l2) s w
  = bind (for_each body l1 s) (for_each body l2) w.
Proof.
  revert s w. induction l1 as [| x l1 IH]; intros s w; simpl.
  - reflexivity.
  - unfold bind in *. destruct (body x s w) as [[s' | e |] w1].
    + apply IH.
    + reflexivity.
    + reflexivity.
Qed.

Lemma while_true_continue (S A : Type) (body : S -> M (S + A)) fuel s w s' w' :
  body s w = (Ret (inl s'), w') ->
  while_true (Datatypes.S fuel) body s w = while_true fuel body s' w'.
Proof. simpl. intros ->. reflexivity. Qed.

Lemma while_true_break (S A : Type) (body : S -> M (S + A)) fuel s w a w' :
  body s w = (Ret (inr a), w') ->
  while_true (Datatypes.S fuel) body s w = (Ret a, w').
Proof. simpl. intros ->. reflexivity. Qed.

Lemma while_true_raise (S A : Type) (body : S -> M (S + A)) fuel s w e w' :
  body s w = (Exc e, w') ->
  while_true (Datatypes.S fuel) body s w = (Exc e, w').
Proof. simpl. intros ->. reflexivity. Qed.

(** ** Request headers of the Pylon client *)

(** C4: whatever token the Pylon client is constructed with, its headers
    are the same constant list, whose Authorization entry is the literal
    text "Bearer <TOKEN>": it is not the token prefixed by "Bearer "
    (unless the token is that placeholder itself), two clients built from
    different tokens carry equal headers, and their runs are equal, request
    logs included. *)
Theorem pylon_headers_ignore_token :
  forall api_token : string,
    Pylon.headers (Pylon.__init__ api_token)
    = [("Authorization", "Bearer <TOKEN>");
       ("Content-Type", "application/json");
       ("Accept", "application/json")]
    /\ assoc "Authorization" (Pylon.headers (Pylon.__init__ api_token))
       = Some "Bearer <TOKEN>"
    /\ (assoc "Authorization" (Pylon.headers (Pylon.__init__ api_token))
        = Some ("Bearer " +:+ api_token) -> api_token = "<TOKEN>")
    /\ (forall other : string,
          Pylon.headers (Pylon.__init__ api_token)
          = Pylon.headers (Pylon.__init__ other))
    /\ (forall (other : string) E fuel days_back w,
          Pylon.fetch_all_closed_tickets E (Pylon.__init__ api_token) fuel
            days_back w
          = Pylon.fetch_all_closed_tickets E (Pylon.__init__ other) fuel
              days_back w).
Proof.
  intro api_token.
  split; [reflexivity |].
  split; [reflexivity |].
  split.
  { simpl. intro H. injection H as H. symmetry. exact H. }
  split; intros; reflexivity.
Qed.

(** ** Loops as step relations *)

Section Loop.
Variables (S A : Type) (body : S -> M (S + A)).

Lemma turns_last k s w s1 w1 s' w' :
  turns body k s w s1 w1 ->
  body s1 w1 = (Ret (inl s'), w') ->
  turns body (Datatypes.S k) s w s' w'.
Proof.
  induction 1 as [| k s w s2 w2 s1 w1 Hb _ IH]; intro Hlast.
  - eapply turns_S; [exact Hlast | constructor].
  - eapply turns_S; [exact Hb | exact (IH Hlast)].
Qed.

Lemma while_true_turns k n s w s' w' :
  turns body k s w s' w' ->
  while_true (k + n) body s w = while_true n body s' w'.
Proof.
  induction 1 as [| k s w s1 w1 s' w' Hb _ IH]; simpl.
  - reflexivity.
  - rewrite Hb. exact IH.
Qed.

(** After [k] turns that all go on, a budget of [k] is used up. *)
Lemma while_true_still_running k s w s' w' :
  turns body k s w s' w' ->
  while_true k body s w = (OutOfFuel, w').
Proof.
  intro H. rewrite <- (Nat.add_0_r k) at 1.
  rewrite (while_true_turns 0 H). reflexivity.
Qed.

(** [k] turns that go on and one that leaves the loop. *)
Lemma while_true_returns k n s w s' w' a w'' :
  turns body k s w s' w' ->
  body s' w' = (Ret (inr a), w'') ->
  while_true (k + Datatypes.S n) body s w = (Ret a, w'').
Proof.
  intros H Hb. rewrite (while_true_turns (Datatypes.S n) H).
  simpl. rewrite Hb. reflexivity.
Qed.

(** [k] turns that go on and one that raises. *)
Lemma while_true_raises k n s w s' w' e w'' :
  turns body k s w s' w' ->
  body s' w' = (Exc e, w'') ->
  while_true (k + Datatypes.S n) body s w = (Exc e, w'').
Proof.
  intros H Hb. rewrite (while_true_turns (Datatypes.S n) H).
  simpl. rewrite Hb. reflexivity.
Qed.
End Loop.

(** ** Transports that serve a given sequence of replies *)

Lemma serves_next E w r replies req :
  serves E w (r :: replies) -> server E (req :: log w) = r.
Proof.
  intro H. apply (H 0%nat); [reflexivity | simpl; lia].
Qed.

Lemma serves_sent E w r replies req :
  serves E w (r :: replies) -> serves E (sent req w) replies.
Proof.
  intros H i r' history Hi Hlen.
  apply (H (Datatypes.S i)); [exact Hi | simpl in *; lia].
Qed.

Lemma serves_app_l E w replies more :
  serves E w (replies ++ more) -> serves E w replies.
Proof.
  intros H i r history Hi Hlen. apply (H i); [| exact Hlen].
  rewrite nth_error_app1; [exact Hi |].
  apply nth_error_Some. rewrite Hi. discriminate.
Qed.

Lemma serves_ticks E l t t' replies :
  serves E {| log := l; ticks := t |} replies ->
  serves E {| log := l; ticks := t' |} replies.
Proof. intro H. exact H. Qed.

Lemma serves_scripted replies after clk envr parse iso fmt :
  serves {| server := scripted replies after; clock := clk;
            environ := envr; fromisoformat := parse; isoformat := iso;
            strftime := fmt |} initial_world replies.
Proof.
  intros i r history Hi Hlen. simpl in *. unfold scripted.
  rewrite Hlen. replace (Datatypes.S i - 1)%nat with i by lia.
  apply nth_error_nth. exact Hi.
Qed.

(** ** One turn of each pagination loop, by the reply it gets *)

Ltac run_turn H :=
  unfold Linear.fetch_closed_issues_body, Linear.fetch_issue_comments_body,
    Linear._execute_query, Pylon.search_body, Pylon.get_issues_in_range,
    Pylon.get_issue_details, Pylon.get_issue_messages,
    bind, send; simpl;
  rewrite H; simpl.

Lemma take_page_goes_on connection items has_next end_cursor acc w :
  dict_get connection "pageInfo" (PDict [])
  = Ret (PDict [("hasNextPage", has_next); ("endCursor", end_cursor)]) ->
  goes_on (items, has_next, end_cursor) = true ->
  Linear.take_page connection (PList items) acc w
  = (Ret (inl (end_cursor, acc ++ items)), w).
Proof.
  intros Hinfo Hgo. unfold Linear.take_page, bind, lift, ret. simpl.
  destruct items as [| x items]; [discriminate |]. simpl in *.
  rewrite Hinfo. simpl.
  apply andb_true_iff in Hgo. destruct Hgo as [-> ->]. reflexivity.
Qed.

Lemma take_page_empty connection acc w :
  Linear.take_page connection (PList []) acc w = (Ret (inr acc), w).
Proof. reflexivity. Qed.

Lemma take_page_last connection items has_next end_cursor acc w :
  dict_get connection "pageInfo" (PDict [])
  = Ret (PDict [("hasNextPage", has_next); ("endCursor", end_cursor)]) ->
  items <> [] ->
  truthy has_next && truthy end_cursor = false ->
  Linear.take_page connection (PList items) acc w
  = (Ret (inr (acc ++ items)), w).
Proof.
  intros Hinfo Hne Hstop. unfold Linear.take_page, bind, lift, ret. simpl.
  destruct items as [| x items]; [congruence |]. simpl in *.
  rewrite Hinfo. simpl.
  destruct (truthy has_next); simpl in *; [rewrite Hstop |]; reflexivity.
Qed.

Lemma issues_turn_goes_on E self filter cursor acc w items has_next end_cursor :
  next_reply E w (issues_page (PList items) has_next end_cursor) ->
  goes_on (items, has_next, end_cursor) = true ->
  exists req,
    Linear.fetch_closed_issues_body E self filter (cursor, acc) w
    = (Ret (inl (end_cursor, acc ++ items)), sent req w).
Proof.
  intros H Hgo. eexists. run_turn H.
  apply take_page_goes_on with (has_next := has_next);
    [reflexivity | exact Hgo].
Qed.

Lemma issues_turn_empty E self filter cursor acc w has_next end_cursor :
  next_reply E w (issues_page (PList []) has_next end_cursor) ->
  exists req,
    Linear.fetch_closed_issues_body E self filter (cursor, acc) w
    = (Ret (inr acc), sent req w).
Proof. intro H. eexists. run_turn H. reflexivity. Qed.

Lemma issues_turn_last E self filter cursor acc w items has_next end_cursor :
  next_reply E w (issues_page (PList items) has_next end_cursor) ->
  items <> [] ->
  truthy has_next && truthy end_cursor = false ->
  exists req,
    Linear.fetch_closed_issues_body E self filter (cursor, acc) w
    = (Ret (inr (acc ++ items)), sent req w).
Proof.
  intros H Hne Hstop. eexists. run_turn H.
  apply take_page_last with (has_next := has_next) (end_cursor := end_cursor);
    [reflexivity | exact Hne | exact Hstop].
Qed.

Lemma comments_turn_goes_on E self issue_id cursor acc w items has_next
    end_cursor :
  next_reply E w (comments_page (PList items) has_next end_cursor) ->
  goes_on (items, has_next, end_cursor) = true ->
  exists req,
    Linear.fetch_issue_comments_body E self issue_id (cursor, acc) w
    = (Ret (inl (end_cursor, acc ++ items)), sent req w).
Proof.
  intros H Hgo. eexists. run_turn H.
  apply take_page_goes_on with (has_next := has_next);
    [reflexivity | exact Hgo].
Qed.

Lemma comments_turn_empty E self issue_id cursor acc w has_next end_cursor :
  next_reply E w (comments_page (PList []) has_next end_cursor) ->
  exists req,
    Linear.fetch_issue_comments_body E self issue_id (cursor, acc) w
    = (Ret (inr acc), sent req w).
Proof. intro H. eexists. run_turn H. reflexivity. Qed.

Lemma comments_turn_last E self issue_id cursor acc w items has_next
    end_cursor :
  next_reply E w (comments_page (PList items) has_next end_cursor) ->
  items <> [] ->
  truthy has_next && truthy end_cursor = false ->
  exists req,
    Linear.fetch_issue_comments_body E self issue_id (cursor, acc) w
    = (Ret (inr (acc ++ items)), sent req w).
Proof.
  intros H Hne Hstop. eexists. run_turn H.
  apply take_page_last with (has_next := has_next) (end_cursor := end_cursor);
    [reflexivity | exact Hne | exact Hstop].
Qed.

Lemma execute_query_fails E self query variables w r e :
  next_reply E w r ->
  graphql_failure r = Some e ->
  exists req,
    Linear._execute_query E self query variables w = (Exc e, sent req w).
Proof.
  intros H Hfail. eexists. run_turn H.
  destruct r as [e' | a]; simpl in *.
  - injection Hfail as ->. reflexivity.
  - destruct (status_code a =? 200); simpl in *.
    + unfold lift, response_json, raise.
      destruct (json a) as [[| | | | | kv] |]; simpl;
        try (injection Hfail as ->; reflexivity).
      destruct (assoc "errors" kv); [| discriminate].
      injection Hfail as ->. reflexivity.
    + injection Hfail as ->. reflexivity.
Qed.

Lemma issues_turn_fails E self filter cursor acc w r e :
  next_reply E w r ->
  graphql_failure r = Some e ->
  exists req,
    Linear.fetch_closed_issues_body E self filter (cursor, acc) w
    = (Exc e, sent req w).
Proof.
  intros H Hfail.
  destruct (execute_query_fails self Linear.issues_query
              (PDict (("filter", filter)
                      :: (if truthy cursor then [("after", cursor)] else [])))
              H Hfail) as [req Hq].
  exists req. unfold Linear.fetch_closed_issues_body.
  apply bind_Exc. exact Hq.
Qed.

Lemma comments_turn_fails E self issue_id cursor acc w r e :
  next_reply E w r ->
  graphql_failure r = Some e ->
  exists req,
    Linear.fetch_issue_comments_body E self issue_id (cursor, acc) w
    = (Exc e, sent req w).
Proof.
  intros H Hfail.
  destruct (execute_query_fails self Linear.comments_query
              (PDict (("issueId", issue_id)
                      :: (if truthy cursor then [("after", cursor)] else [])))
              H Hfail) as [req Hq].
  exists req. unfold Linear.fetch_issue_comments_body.
  apply bind_Exc. exact Hq.
Qed.

Lemma search_turn_goes_on E self cursor acc w items cursor' :
  next_reply E w (search_page (PList items) cursor') ->
  search_goes_on (items, cursor') = true ->
  exists req,
    Pylon.search_body E self (cursor, acc) w
    = (Ret (inl (cursor', acc ++ items)), sent req w).
Proof.
  intros H Hgo. eexists. run_turn H.
  destruct items as [| x items]; [discriminate |]. simpl in *.
  unfold bind, lift, ret. simpl. rewrite Hgo. reflexivity.
Qed.

Lemma search_turn_empty E self cursor acc w cursor' :
  next_reply E w (search_page (PList []) cursor') ->
  exists req,
    Pylon.search_body E self (cursor, acc) w = (Ret (inr acc), sent req w).
Proof. intro H. eexists. run_turn H. reflexivity. Qed.

Lemma search_turn_last E self cursor acc w items cursor' :
  next_reply E w (search_page (PList items) cursor') ->
  items <> [] ->
  truthy cursor' = false ->
  exists req,
    Pylon.search_body E self (cursor, acc) w
    = (Ret (inr (acc ++ items)), sent req w).
Proof.
  intros H Hne Hstop. eexists. run_turn H.
  destruct items as [| x items]; [congruence |]. simpl in *.
  unfold bind, lift, ret. simpl. rewrite Hstop. reflexivity.
Qed.

Lemma search_turn_fails E self cursor acc w r e :
  next_reply E w r ->
  rest_failure r = Some e ->
  exists req,
    Pylon.search_body E self (cursor, acc) w = (Exc e, sent req w).
Proof.
  intros H Hfail. eexists. run_turn H.
  destruct r as [e' | a]; simpl in *.
  - injection Hfail as ->. reflexivity.
  - destruct (status_code a =? 200); simpl in *.
    + unfold bind, lift, response_json, raise.
      destruct (json a) as [[| | | | | kv] |]; simpl;
        try (injection Hfail as ->; reflexivity).
      discriminate.
    + injection Hfail as ->. reflexivity.
Qed.

(** ** The turn that ends a pagination *)

Lemma issues_turn_ends E self filter cursor acc w e :
  next_reply E w (ending_reply issues_page e) ->
  ending_ok e = true ->
  ends_with (Linear.fetch_closed_issues_body E self filter) (cursor, acc) w
    (ending_outcome acc e).
Proof.
  intros H Hok. unfold ends_with.
  destruct e as [h c | items h c | r]; simpl in *.
  - exact (issues_turn_empty self filter cursor acc H).
  - destruct items as [| x items]; [discriminate |].
    apply negb_true_iff in Hok.
    apply (issues_turn_last self filter cursor acc H); [discriminate | exact Hok].
  - destruct (graphql_failure r) as [x |] eqn:Hf; [| discriminate].
    exact (issues_turn_fails self filter cursor acc H Hf).
Qed.

Lemma comments_turn_ends E self issue_id cursor acc w e :
  next_reply E w (ending_reply comments_page e) ->
  ending_ok e = true ->
  ends_with (Linear.fetch_issue_comments_body E self issue_id) (cursor, acc) w
    (ending_outcome acc e).
Proof.
  intros H Hok. unfold ends_with.
  destruct e as [h c | items h c | r]; simpl in *.
  - exact (comments_turn_empty self issue_id cursor acc H).
  - destruct items as [| x items]; [discriminate |].
    apply negb_true_iff in Hok.
    apply (comments_turn_last self issue_id cursor acc H);
      [discriminate | exact Hok].
  - destruct (graphql_failure r) as [x |] eqn:Hf; [| discriminate].
    exact (comments_turn_fails self issue_id cursor acc H Hf).
Qed.

Lemma search_turn_ends E self cursor acc w e :
  next_reply E w (search_ending_reply e) ->
  search_ending_ok e = true ->
  ends_with (Pylon.search_body E self) (cursor, acc) w
    (search_ending_outcome acc e).
Proof.
  intros H Hok. unfold ends_with.
  destruct e as [c | items c | r]; simpl in *.
  - exact (search_turn_empty self cursor acc H).
  - destruct items as [| x items]; [discriminate |].
    apply negb_true_iff in Hok.
    apply (search_turn_last self cursor acc H); [discriminate | exact Hok].
  - destruct (rest_failure r) as [x |] eqn:Hf; [| discriminate].
    exact (search_turn_fails self cursor acc H Hf).
Qed.

(** ** A run of pages that all go on *)

Lemma last_shift (A : Type) (a : A) (l : list A) (d : A) :
  last (a :: l) d = last l a.
Proof.
  destruct l as [| b l]; [reflexivity |].
  change (last (a :: b :: l) d) with (last (b :: l) d).
  revert b. induction l as [| c l IH]; intro b; [reflexivity |].
  change (last (b :: c :: l) d) with (last (c :: l) d).
  change (last (b :: c :: l) a) with (last (c :: l) a).
  apply IH.
Qed.

Section Pages.
Variables (E : env) (P A : Type).
Variable body : pyval * list pyval -> M ((pyval * list pyval) + A).
Variables (reply_of : P -> reply) (more_follows : P -> bool).
Variables (items_of : P -> list pyval) (cursor_of : P -> pyval).

Hypothesis turn_goes_on :
  forall p cursor acc w,
    next_reply E w (reply_of p) ->
    more_follows p = true ->
    exists req,
      body (cursor, acc) w
      = (Ret (inl (cursor_of p, acc ++ items_of p)), sent req w).

Lemma pages_turns pages :
  forall more cursor acc w,
    forallb more_follows pages = true ->
    serves E w (map reply_of pages ++ more) ->
    exists w',
      turns body (List.length pages) (cursor, acc) w
        (last (map cursor_of pages) cursor,
         acc ++ List.concat (map items_of pages)) w'
      /\ serves E w' more
      /\ List.length (log w') = (List.length (log w) + List.length pages)%nat
      /\ ticks w' = ticks w.
Proof.
  induction pages as [| p pages IH]; intros more cursor acc w Hall Hs.
  - exists w. simpl. rewrite app_nil_r.
    repeat split; [constructor | exact Hs | lia].
  - simpl in Hall. apply andb_true_iff in Hall. destruct Hall as [Hp Hall].
    simpl in Hs.
    assert (Hnext : next_reply E w (reply_of p)).
    { intro req. exact (serves_next req Hs). }
    destruct (turn_goes_on cursor acc Hnext Hp) as [req Hb].
    destruct (IH more (cursor_of p) (acc ++ items_of p) (sent req w) Hall
                (serves_sent (req := req) Hs))
      as [w' [Ht [Hs' [Hlen Hticks]]]].
    exists w'. repeat split.
    + eapply turns_S; [exact Hb |].
      simpl List.concat. rewrite app_assoc.
      replace (last (map cursor_of (p :: pages)) cursor)
        with (last (map cursor_of pages) (cursor_of p)).
      * exact Ht.
      * simpl map. symmetry. apply last_shift.
    + exact Hs'.
    + simpl in *. lia.
    + exact Hticks.
Qed.

(** As long as the pages go on the loop goes on: after as many turns
    as there are pages the budget is used up. *)
Lemma pages_still_running pages more cursor acc w :
  forallb more_follows pages = true ->
  serves E w (map reply_of pages ++ more) ->
  exists w',
    while_true (List.length pages) body (cursor, acc) w = (OutOfFuel, w')
    /\ List.length (log w') = (List.length (log w) + List.length pages)%nat.
Proof.
  intros Hall Hs.
  destruct (pages_turns pages more cursor acc Hall Hs)
    as [w' [Ht [_ [Hlen _]]]].
  exists w'. split; [exact (while_true_still_running Ht) | exact Hlen].
Qed.

Variables (Ending : Type) (last_reply : Ending -> reply).
Variable valid : Ending -> bool.
Variable result : list pyval -> Ending -> outcome A.

Hypothesis turn_ends :
  forall e cursor acc w,
    next_reply E w (last_reply e) ->
    valid e = true ->
    ends_with body (cursor, acc) w (result acc e).

(** Pages that go on, then an ending: the loop is over after one turn
    per reply, whatever budget is left. *)
Lemma pages_then_ending pages e more cursor acc w fuel :
  forallb more_follows pages = true ->
  valid e = true ->
  serves E w (map reply_of pages ++ last_reply e :: more) ->
  (List.length pages < fuel)%nat ->
  exists w',
    while_true fuel body (cursor, acc) w
    = (result (acc ++ List.concat (map items_of pages)) e, w')
    /\ List.length (log w')
       = (List.length (log w) + List.length pages + 1)%nat
    /\ ticks w' = ticks w
    /\ serves E w' more.
Proof.
  intros Hall Hok Hs Hfuel.
  destruct (pages_turns pages (last_reply e :: more) cursor acc Hall Hs)
    as [w1 [Ht [Hs1 [Hlen Hticks]]]].
  assert (Hnext : next_reply E w1 (last_reply e)).
  { intro req. exact (serves_next req Hs1). }
  destruct (turn_ends (last (map cursor_of pages) cursor)
              (acc ++ List.concat (map items_of pages)) Hnext Hok)
    as [req Hend].
  exists (sent req w1).
  replace fuel
    with (List.length pages + Datatypes.S (fuel - List.length pages - 1))%nat
    by lia.
  destruct (result (acc ++ List.concat (map items_of pages)) e)
    as [a | x |] eqn:Hres; [| | contradiction].
  - rewrite (while_true_returns _ Ht Hend).
    repeat split; simpl; try lia.
    exact (serves_sent (req := req) Hs1).
  - rewrite (while_true_raises _ Ht Hend).
    repeat split; simpl; try lia.
    exact (serves_sent (req := req) Hs1).
Qed.
End Pages.

(** ** The three pagination functions on a sequence of pages *)

Lemma days_back_in_range_sub E w days_back tz :
  days_back_in_range E w days_back ->
  timedelta_days days_back = Ret (days_back * day)
  /\ datetime_sub {| wall := clock E (ticks w); utcoffset := tz |}
       (days_back * day)
     = Ret {| wall := clock E (ticks w) - days_back * day; utcoffset := tz |}.
Proof.
  intros [Habs [Hlo Hhi]]. unfold timedelta_days, datetime_sub. simpl.
  split.
  - destruct (Z.leb_spec (Z.abs days_back) 999999999); [reflexivity | lia].
  - destruct (Z.leb_spec 0 (clock E (ticks w) - days_back * day)); [| lia].
    destruct (Z.leb_spec (clock E (ticks w) - days_back * day)
                datetime_max_wall); [reflexivity | lia].
Qed.

Lemma fetch_closed_issues_loop E self fuel days_back team_id w :
  days_back_in_range E w days_back ->
  exists filter,
    Linear.fetch_closed_issues E self fuel days_back team_id w
    = while_true fuel (Linear.fetch_closed_issues_body E self filter)
        (PNone, []) (ticked w).
Proof.
  intro Hr. destruct (days_back_in_range_sub (Some 0) Hr) as [Hd Hs].
  eexists. unfold Linear.fetch_closed_issues, bind, now, lift.
  rewrite Hd, Hs. reflexivity.
Qed.

Lemma issues_page_goes_on E self filter :
  forall p cursor acc w,
    next_reply E w (issues_reply p) ->
    goes_on p = true ->
    exists req,
      Linear.fetch_closed_issues_body E self filter (cursor, acc) w
      = (Ret (inl (snd p, acc ++ page_items p)), sent req w).
Proof.
  intros [[items h] c] cursor acc w H Hp.
  exact (issues_turn_goes_on self filter cursor acc H Hp).
Qed.

Lemma comments_page_goes_on E self issue_id :
  forall p cursor acc w,
    next_reply E w (comments_reply p) ->
    goes_on p = true ->
    exists req,
      Linear.fetch_issue_comments_body E self issue_id (cursor, acc) w
      = (Ret (inl (snd p, acc ++ page_items p)), sent req w).
Proof.
  intros [[items h] c] cursor acc w H Hp.
  exact (comments_turn_goes_on self issue_id cursor acc H Hp).
Qed.

Lemma search_page_goes_on E self :
  forall p cursor acc w,
    next_reply E w (search_reply p) ->
    search_goes_on p = true ->
    exists req,
      Pylon.search_body E self (cursor, acc) w
      = (Ret (inl (snd p, acc ++ fst p)), sent req w).
Proof.
  intros [items c] cursor acc w H Hp.
  exact (search_turn_goes_on self cursor acc H Hp).
Qed.

Lemma fetch_closed_issues_pages E self fuel days_back team_id w pages e more :
  days_back_in_range E w days_back ->
  forallb goes_on pages = true ->
  ending_ok e = true ->
  serves E w (map issues_reply pages ++ ending_reply issues_page e :: more) ->
  (List.length pages < fuel)%nat ->
  exists w',
    Linear.fetch_closed_issues E self fuel days_back team_id w
    = (ending_outcome (all_items pages) e, w')
    /\ List.length (log w') = (List.length (log w) + List.length pages + 1)%nat
    /\ serves E w' more.
Proof.
  intros Hr Hall Hok Hs Hfuel.
  destruct (fetch_closed_issues_loop self fuel team_id Hr) as [filter ->].
  destruct (@pages_then_ending E _ _ _ issues_reply goes_on page_items snd
              (issues_page_goes_on self filter)
              _ (ending_reply issues_page) ending_ok ending_outcome
              (fun e cursor acc w => @issues_turn_ends E self filter cursor acc w e)
              pages e more PNone [] (ticked w) fuel Hall Hok Hs Hfuel)
    as [w' [Hrun [Hlen [_ Hs']]]].
  exists w'. split; [exact Hrun | split; [exact Hlen | exact Hs']].
Qed.

Lemma fetch_closed_issues_running E self days_back team_id w pages more :
  days_back_in_range E w days_back ->
  forallb goes_on pages = true ->
  serves E w (map issues_reply pages ++ more) ->
  exists w',
    Linear.fetch_closed_issues E self (List.length pages) days_back team_id w
    = (OutOfFuel, w')
    /\ List.length (log w') = (List.length (log w) + List.length pages)%nat.
Proof.
  intros Hr Hall Hs.
  destruct (fetch_closed_issues_loop self (List.length pages) team_id Hr)
    as [filter ->].
  exact (@pages_still_running E _ _ _ issues_reply goes_on page_items snd
           (issues_page_goes_on self filter) pages more PNone [] (ticked w)
           Hall Hs).
Qed.

Lemma fetch_issue_comments_pages E self fuel issue_id w pages e more :
  forallb goes_on pages = true ->
  ending_ok e = true ->
  serves E w (map comments_reply pages ++ ending_reply comments_page e :: more) ->
  (List.length pages < fuel)%nat ->
  exists w',
    Linear.fetch_issue_comments E self fuel issue_id w
    = (ending_outcome (all_items pages) e, w')
    /\ List.length (log w') = (List.length (log w) + List.length pages + 1)%nat
    /\ ticks w' = ticks w
    /\ serves E w' more.
Proof.
  intros Hall Hok Hs Hfuel.
  exact (@pages_then_ending E _ _ _ comments_reply goes_on page_items snd
           (comments_page_goes_on self issue_id)
           _ (ending_reply comments_page) ending_ok ending_outcome
           (fun e cursor acc w =>
              @comments_turn_ends E self issue_id cursor acc w e)
           pages e more PNone [] w fuel Hall Hok Hs Hfuel).
Qed.

Lemma search_closed_issues_only_pages E self fuel w pages e more :
  forallb search_goes_on pages = true ->
  search_ending_ok e = true ->
  serves E w (map search_reply pages ++ search_ending_reply e :: more) ->
  (List.length pages < fuel)%nat ->
  exists w',
    Pylon.search_closed_issues_only E self fuel w
    = (search_ending_outcome (all_found pages) e, w')
    /\ List.length (log w') = (List.length (log w) + List.length pages + 1)%nat
    /\ ticks w' = ticks w
    /\ serves E w' more.
Proof.
  intros Hall Hok Hs Hfuel.
  exact (@pages_then_ending E _ _ _ search_reply search_goes_on fst snd
           (search_page_goes_on self)
           _ search_ending_reply search_ending_ok search_ending_outcome
           (fun e cursor acc w => @search_turn_ends E self cursor acc w e)
           pages e more PNone [] w fuel Hall Hok Hs Hfuel).
Qed.

Lemma search_closed_issues_only_running E self w pages more :
  forallb search_goes_on pages = true ->
  serves E w (map search_reply pages ++ more) ->
  exists w',
    Pylon.search_closed_issues_only E self (List.length pages) w
    = (OutOfFuel, w')
    /\ List.length (log w') = (List.length (log w) + List.length pages)%nat.
Proof.
  intros Hall Hs.
  exact (@pages_still_running E _ _ _ search_reply search_goes_on fst snd
           (search_page_goes_on self) pages more PNone [] w Hall Hs).
Qed.

Lemma serves_constant E w r replies :
  (forall history, server E history = r) ->
  Forall (fun r' => r' = r) replies ->
  serves E w replies.
Proof.
  intros Hc Hall i r' history Hi _. rewrite Hc.
  rewrite Forall_forall in Hall. symmetry. apply Hall.
  eapply nth_error_In. exact Hi.
Qed.

(** ** Pagination *)

(** C8: when pages that go on are followed by a page with zero items,
    whatever that page says about a next page (in particular when it still
    announces one), the paginator returns the items of the earlier pages,
    in order, and raises nothing.  This holds for the issue pagination of
    the Linear client and for the search pagination of the Pylon client,
    for every budget that allows one turn per page. *)
Theorem empty_page_ends_pagination :
  forall E fuel,
    (forall self days_back team_id w pages has_next end_cursor more,
        days_back_in_range E w days_back ->
        forallb goes_on pages = true ->
        serves E w (map issues_reply pages
                    ++ issues_page (PList []) has_next end_cursor :: more) ->
        (List.length pages < fuel)%nat ->
        fst (Linear.fetch_closed_issues E self fuel days_back team_id w)
        = Ret (all_items pages))
    /\ (forall self w pages cursor more,
           forallb search_goes_on pages = true ->
           serves E w (map search_reply pages
                       ++ search_page (PList []) cursor :: more) ->
           (List.length pages < fuel)%nat ->
           fst (Pylon.search_closed_issues_only E self fuel w)
           = Ret (all_found pages)).
Proof.
  intros E fuel. split.
  - intros self days_back team_id w pages has_next end_cursor more Hr Hall Hs Hf.
    destruct (@fetch_closed_issues_pages E self fuel days_back team_id w pages
                (EmptyPage has_next end_cursor) more Hr Hall eq_refl Hs Hf)
      as [w' [Hrun _]].
    rewrite Hrun. reflexivity.
  - intros self w pages cursor more Hall Hs Hf.
    destruct (@search_closed_issues_only_pages E self fuel w pages
                (SearchEmptyPage cursor) more Hall eq_refl Hs Hf)
      as [w' [Hrun _]].
    rewrite Hrun. reflexivity.
Qed.

Lemma sample_days_back_in_range srv :
  days_back_in_range (sample_env srv) initial_world 180.
Proof. unfold days_back_in_range. simpl. vm_compute. intuition discriminate. Defined.

Lemma empty_page_ends_pagination_witness :
  fst (Linear.fetch_closed_issues
         (sample_env
            (scripted (map issues_reply linear_pages_sample
                       ++ [issues_page (PList []) (PBool true)
                             (PStr "cursor-2")]) (failure 500 "")))
         (Linear.__init__ "key") 5 180 None initial_world)
  = Ret [ticket "L1" "completed" []; ticket "L2" "canceled" [];
         ticket "L3" "completed" []]
  /\ fst (Pylon.search_closed_issues_only
            (sample_env
               (scripted (map search_reply pylon_pages_sample
                          ++ [search_page (PList []) (PStr "cursor-2")])
                  (failure 500 "")))
            (Pylon.__init__ "token") 5 initial_world)
     = Ret [ticket "T1" "closed" []; ticket "T2" "closed" [];
            ticket "T3" "closed" []].
Proof.
  split.
  - apply (proj1 (empty_page_ends_pagination _ 5))
      with (pages := linear_pages_sample) (has_next := PBool true)
           (end_cursor := PStr "cursor-2") (more := []).
    + apply sample_days_back_in_range.
    + reflexivity.
    + apply serves_scripted.
    + simpl. lia.
  - apply (proj2 (empty_page_ends_pagination _ 5))
      with (pages := pylon_pages_sample) (cursor := PStr "cursor-2")
           (more := []).
    + reflexivity.
    + apply serves_scripted.
    + simpl. lia.
Defined.

(** C6, as it stands, fails: a server that repeats a full page and its
    cursor keeps the loop running for every budget. *)
Lemma repeated_cursor_never_ends :
  ~ (exists fuel,
        fst (Linear.fetch_closed_issues (sample_env stuck) (Linear.__init__ "key")
               fuel 180 None initial_world)
        <> OutOfFuel).
Proof.
  intros [fuel Hends]. apply Hends.
  pose (p := ([ticket "L1" "completed" []], PBool true, PStr "cursor-1")).
  destruct (@fetch_closed_issues_running (sample_env stuck) (Linear.__init__ "key")
              180 None initial_world (repeat p fuel) [])
    as [w' [Hrun _]].
  - apply sample_days_back_in_range.
  - clear. induction fuel as [| n IH]; [reflexivity | exact IH].
  - apply serves_constant with (r := issues_reply p).
    + intro history. reflexivity.
    + rewrite app_nil_r. clear. induction fuel as [| n IH]; simpl.
      * constructor.
      * constructor; [reflexivity | exact IH].
  - rewrite repeat_length in Hrun. rewrite Hrun. reflexivity.
Qed.

(** C6, amended: each turn of a pagination loop sends one request, and
    the loop ends at the first reply that is an empty page, a page that
    does not signal a next one, or a failure; with [k] pages that go on
    before it, it is over after exactly [k + 1] requests, for every budget
    above [k].  Cursors are never compared: as long as the pages have
    items and signal a next page (with equal cursors or not) the loop is
    still running, having sent one request per page.  Both hold for the
    issue pagination of the Linear client and for the search pagination of
    the Pylon client. *)
Theorem pagination_ends_at_first_stop :
  forall E,
    (forall self fuel days_back team_id w pages e more,
        days_back_in_range E w days_back ->
        forallb goes_on pages = true ->
        ending_ok e = true ->
        serves E w (map issues_reply pages
                    ++ ending_reply issues_page e :: more) ->
        (List.length pages < fuel)%nat ->
        exists w',
          Linear.fetch_closed_issues E self fuel days_back team_id w
          = (ending_outcome (all_items pages) e, w')
          /\ List.length (log w')
             = (List.length (log w) + List.length pages + 1)%nat)
    /\ (forall self days_back team_id w pages more,
           days_back_in_range E w days_back ->
           forallb goes_on pages = true ->
           serves E w (map issues_reply pages ++ more) ->
           exists w',
             Linear.fetch_closed_issues E self (List.length pages) days_back
               team_id w
             = (OutOfFuel, w')
             /\ List.length (log w')
                = (List.length (log w) + List.length pages)%nat)
    /\ (forall self fuel w pages e more,
           forallb search_goes_on pages = true ->
           search_ending_ok e = true ->
           serves E w (map search_reply pages
                       ++ search_ending_reply e :: more) ->
           (List.length pages < fuel)%nat ->
           exists w',
             Pylon.search_closed_issues_only E self fuel w
             = (search_ending_outcome (all_found pages) e, w')
             /\ List.length (log w')
                = (List.length (log w) + List.length pages + 1)%nat)
    /\ (forall self w pages more,
           forallb search_goes_on pages = true ->
           serves E w (map search_reply pages ++ more) ->
           exists w',
             Pylon.search_closed_issues_only E self (List.length pages) w
             = (OutOfFuel, w')
             /\ List.length (log w')
                = (List.length (log w) + List.length pages)%nat).
Proof.
  intro E. repeat split.
  - intros self fuel days_back team_id w pages e more Hr Hall Hok Hs Hf.
    destruct (@fetch_closed_issues_pages E self fuel days_back team_id w pages
                e more Hr Hall Hok Hs Hf)
      as [w' [Hrun [Hlen _]]].
    exists w'. split; assumption.
  - intros self days_back team_id w pages more Hr Hall Hs.
    exact (@fetch_closed_issues_running E self days_back team_id w pages more
             Hr Hall Hs).
  - intros self fuel w pages e more Hall Hok Hs Hf.
    destruct (@search_closed_issues_only_pages E self fuel w pages e more
                Hall Hok Hs Hf)
      as [w' [Hrun [Hlen _]]].
    exists w'. split; assumption.
  - intros self w pages more Hall Hs.
    exact (@search_closed_issues_only_running E self w pages more Hall Hs).
Qed.

Lemma pagination_ends_at_first_stop_witness :
  exists w',
    Linear.fetch_closed_issues
      (sample_env
         (scripted (map issues_reply linear_pages_sample
                    ++ [failure 500 "overloaded"]) (failure 500 "")))
      (Linear.__init__ "key") 5 180 None initial_world
    = (Exc "API request failed: 500 - overloaded", w')
    /\ List.length (log w') = 3%nat.
Proof.
  apply (proj1 (pagination_ends_at_first_stop _))
    with (pages := linear_pages_sample)
         (e := Failure (failure 500 "overloaded")) (more := []).
  - apply sample_days_back_in_range.
  - reflexivity.
  - reflexivity.
  - apply serves_scripted.
  - simpl. lia.
Defined.

(** ** The result of a run *)

Ltac bind_inv H :=
  let a := fresh "a" in
  let w := fresh "w" in
  let Hm := fresh "Hm" in
  apply bind_Ret_inv in H; destruct H as (a & w & Hm & H).

Lemma timedelta_days_Ret d delta :
  timedelta_days d = Ret delta -> delta = d * day.
Proof.
  unfold timedelta_days. destruct (Z.abs d <=? 999999999); intro H;
    [injection H as <-; reflexivity | discriminate].
Qed.

(** The window of a run: the end is the first clock reading of the run,
    the start lies [days_back] days before it. *)
Lemma window_inv E tz days_back (k : datetime -> datetime -> M pyval) w r w' :
  bind (now E tz)
    (fun end_date =>
       bind (lift (timedelta_days days_back))
         (fun delta =>
            bind (lift (datetime_sub end_date delta))
              (fun start_date => k start_date end_date))) w
  = (Ret r, w') ->
  exists start_date,
    datetime_sub {| wall := clock E (ticks w); utcoffset := tz |}
      (days_back * day) = Ret start_date
    /\ k start_date {| wall := clock E (ticks w); utcoffset := tz |} (ticked w)
       = (Ret r, w').
Proof.
  intro H. bind_inv H. unfold now in Hm. injection Hm as <- <-.
  bind_inv H. apply lift_Ret_inv in Hm. destruct Hm as [Hd ->].
  apply timedelta_days_Ret in Hd. subst a.
  bind_inv H. apply lift_Ret_inv in Hm. destruct Hm as [Hs ->].
  exists a. split; [exact Hs | exact H].
Qed.

(** C9, as it stands, fails for the Pylon exporter: the metadata of its
    result has no source entry. *)
Lemma pylon_metadata_has_no_source :
  exists result w',
    Pylon.fetch_all_closed_tickets (sample_env pylon_site)
      (Pylon.__init__ "token") 5 30 initial_world = (Ret result, w')
    /\ lookup_path result ["metadata"; "source"] = None.
Proof.
  eexists. eexists. split; [vm_compute; reflexivity | reflexivity].
Qed.

(** C9, amended: the result of every completed run has a metadata block
    in which [total_tickets] is the length of the [tickets] sequence,
    [date_range] holds the resolved window (the end is the clock reading at
    the start of the run, the start lies [days_back] days before it),
    [fetched_at] is the last clock reading of the run, and [days_back] is
    the argument.  The Linear exporter adds the source identifier
    "linear"; the metadata of the Pylon exporter has no source entry. *)
Theorem result_metadata :
  forall E fuel days_back w result w',
    (forall self team_id,
        Linear.fetch_all_closed_tickets E self fuel days_back team_id w
        = (Ret result, w') ->
        exists tickets start_date n,
          lookup_path result ["tickets"] = Some (PList tickets)
          /\ lookup_path result ["metadata"; "total_tickets"]
             = Some (PInt (Z.of_nat (List.length tickets)))
          /\ datetime_sub {| wall := clock E (ticks w); utcoffset := Some 0 |}
               (days_back * day) = Ret start_date
          /\ lookup_path result ["metadata"; "date_range"; "start"]
             = Some (PStr (isoformat E start_date))
          /\ lookup_path result ["metadata"; "date_range"; "end"]
             = Some (PStr (isoformat E {| wall := clock E (ticks w);
                                          utcoffset := Some 0 |}))
          /\ ticks w' = Datatypes.S n
          /\ lookup_path result ["metadata"; "fetched_at"]
             = Some (PStr (isoformat E {| wall := clock E n;
                                          utcoffset := Some 0 |}))
          /\ lookup_path result ["metadata"; "days_back"]
             = Some (PInt days_back)
          /\ lookup_path result ["metadata"; "source"]
             = Some (PStr "linear"))
    /\ (forall self,
           Pylon.fetch_all_closed_tickets E self fuel days_back w
           = (Ret result, w') ->
           exists tickets start_date n,
             lookup_path result ["tickets"] = Some (PList tickets)
             /\ lookup_path result ["metadata"; "total_tickets"]
                = Some (PInt (Z.of_nat (List.length tickets)))
             /\ datetime_sub {| wall := clock E (ticks w); utcoffset := None |}
                  (days_back * day) = Ret start_date
             /\ lookup_path result ["metadata"; "date_range"; "start"]
                = Some (PStr (isoformat E start_date))
             /\ lookup_path result ["metadata"; "date_range"; "end"]
                = Some (PStr (isoformat E {| wall := clock E (ticks w);
                                             utcoffset := None |}))
             /\ ticks w' = Datatypes.S n
             /\ lookup_path result ["metadata"; "fetched_at"]
                = Some (PStr (isoformat E {| wall := clock E n;
                                             utcoffset := None |}))
             /\ lookup_path result ["metadata"; "days_back"]
                = Some (PInt days_back)
             /\ lookup_path result ["metadata"; "source"] = None).
Proof.
  intros E fuel days_back w result w'. split.
  - intros self team_id H. unfold Linear.fetch_all_closed_tickets in H.
    apply window_inv in H. destruct H as [start_date [Hstart H]].
    bind_inv H. clear Hm. unfold Linear.assemble in H.
    bind_inv H. rename a0 into tickets. clear Hm.
    bind_inv H. unfold now in Hm. injection Hm as <- <-.
    unfold ret in H. injection H as <- <-.
    exists tickets, start_date, (ticks w1). simpl.
    repeat split; assumption.
  - intros self H. unfold Pylon.fetch_all_closed_tickets in H.
    apply window_inv in H. destruct H as [start_date [Hstart H]].
    bind_inv H. clear Hm. unfold Pylon.assemble in H.
    bind_inv H. rename a0 into tickets. clear Hm.
    bind_inv H. unfold now in Hm. injection Hm as <- <-.
    unfold ret in H. injection H as <- <-.
    exists tickets, start_date, (ticks w1). simpl.
    repeat split; assumption.
Qed.

(** ** Assembly of the tickets *)

Unset Implicit Arguments.

Lemma dict_get_id issue :
  is_dict issue = true -> dict_get issue "id" PNone = Ret (issue_id issue).
Proof.
  destruct issue; try discriminate. intros _. reflexivity.
Qed.

Lemma dict_get_dict issue k dflt :
  is_dict issue = true -> exists v, dict_get issue k dflt = Ret v.
Proof.
  destruct issue; try discriminate. intros _. eexists. reflexivity.
Qed.

(** What the Linear loop body does with a ticket. *)
Lemma linear_process_issue E self fuel issue acc w :
  is_dict issue = true ->
  Linear.process_issue E self fuel issue acc w
  = if truthy (issue_id issue) then
      match Linear.fetch_issue_comments E self fuel (issue_id issue) w with
      | (Ret comments, w') =>
          (Ret (acc ++ [Linear.complete_ticket issue comments]), w')
      | (Exc e, w') => (Ret (acc ++ [Linear.failed_ticket issue e]), w')
      | (OutOfFuel, w') => (OutOfFuel, w')
      end
    else (Ret acc, w).
Proof.
  intro Hd. unfold Linear.process_issue, bind, lift.
  rewrite (dict_get_id issue Hd).
  destruct (dict_get_dict issue "identifier" (issue_id issue) Hd) as [v ->].
  destruct (truthy (issue_id issue)); simpl; [| reflexivity].
  unfold try_except, bind, ret.
  destruct (Linear.fetch_issue_comments E self fuel (issue_id issue) w)
    as [[comments | e |] w']; reflexivity.
Qed.

(** What the Pylon loop body does with a ticket. *)
Lemma pylon_process_issue E self issue acc w :
  is_dict issue = true ->
  Pylon.process_issue E self issue acc w
  = if truthy (issue_id issue) then
      match pylon_fetch_ticket E self issue w with
      | (Ret record, w') => (Ret (acc ++ [record]), w')
      | (Exc e, w') => (Ret acc, w')
      | (OutOfFuel, w') => (OutOfFuel, w')
      end
    else (Ret acc, w).
Proof.
  intro Hd. unfold Pylon.process_issue, pylon_fetch_ticket, bind, lift.
  rewrite (dict_get_id issue Hd).
  destruct (truthy (issue_id issue)); simpl; [| reflexivity].
  unfold try_except, bind, ret, lift.
  destruct (Pylon.get_issue_details E self (issue_id issue) w)
    as [[d | e |] w1]; try reflexivity.
  destruct (Pylon.get_issue_messages E self (issue_id issue) w1)
    as [[m | e |] w2]; try reflexivity.
  destruct (py_len m) as [n | e |]; reflexivity.
Qed.

Lemma total_ret (A : Type) (a : A) : total (ret a).
Proof. intro w. discriminate. Qed.

Lemma total_raise (A : Type) (e : exn) : total (raise (A := A) e).
Proof. intro w. discriminate. Qed.

Lemma total_lift (A : Type) (o : outcome A) : pure_total o -> total (lift o).
Proof. intros H w. exact H. Qed.

Lemma total_bind (A B : Type) (m : M A) (k : A -> M B) :
  total m -> (forall a, total (k a)) -> total (bind m k).
Proof.
  intros Hm Hk w. unfold bind. specialize (Hm w).
  destruct (m w) as [[a | e |] w1]; simpl in *.
  - apply Hk.
  - discriminate.
  - congruence.
Qed.

Lemma total_if (A : Type) (c : bool) (m1 m2 : M A) :
  total m1 -> total m2 -> total (if c then m1 else m2).
Proof. destruct c; intros; assumption. Qed.

Lemma total_send E r : total (send E r).
Proof.
  intro w. unfold send. destruct (server E _); discriminate.
Qed.

Lemma total_response_json r : pure_total (response_json r).
Proof. unfold pure_total, response_json. destruct (json r); discriminate. Qed.

Lemma total_dict_get d k dflt : pure_total (dict_get d k dflt).
Proof. destruct d; discriminate. Qed.

Lemma total_py_len v : pure_total (py_len v).
Proof. destruct v; discriminate. Qed.

Create HintDb totality.

#[local] Hint Resolve total_ret total_raise total_lift total_send
  total_response_json total_dict_get total_py_len : totality.

Ltac prove_total :=
  repeat first
    [ apply total_bind; [| intro]
    | apply total_if
    | solve [auto with totality] ].

Lemma total_get_issue_details E self issue_id :
  total (Pylon.get_issue_details E self issue_id).
Proof. unfold Pylon.get_issue_details. prove_total. Qed.

Lemma total_get_issue_messages E self issue_id :
  total (Pylon.get_issue_messages E self issue_id).
Proof. unfold Pylon.get_issue_messages. prove_total. Qed.

Lemma total_get_issues_in_range E self start_time end_time :
  total (Pylon.get_issues_in_range E self start_time end_time).
Proof. unfold Pylon.get_issues_in_range. prove_total. Qed.

(** The single requests of the Pylon client never run out of budget. *)
Lemma pylon_fetch_ticket_total E self issue w :
  fst (pylon_fetch_ticket E self issue w) <> OutOfFuel.
Proof.
  revert w. change (total (pylon_fetch_ticket E self issue)).
  unfold pylon_fetch_ticket.
  apply total_bind; [apply total_get_issue_details | intro].
  apply total_bind; [apply total_get_issue_messages | intro].
  prove_total.
Qed.

(** A ticket without identifier leaves the loop variables untouched. *)
Lemma linear_skip E self fuel issue acc w :
  is_dict issue = true ->
  truthy (issue_id issue) = false ->
  Linear.process_issue E self fuel issue acc w = (Ret acc, w).
Proof.
  intros Hd Hid. rewrite (linear_process_issue E self fuel issue acc w Hd).
  rewrite Hid. reflexivity.
Qed.

Lemma pylon_skip E self issue acc w :
  is_dict issue = true ->
  truthy (issue_id issue) = false ->
  Pylon.process_issue E self issue acc w = (Ret acc, w).
Proof.
  intros Hd Hid. rewrite (pylon_process_issue E self issue acc w Hd).
  rewrite Hid. reflexivity.
Qed.

(** The loops over tickets raise nothing. *)
Lemma linear_loop_never_raises E self fuel issues :
  all_dicts issues ->
  forall acc w e w',
    for_each (Linear.process_issue E self fuel) issues acc w <> (Exc e, w').
Proof.
  induction 1 as [| issue issues Hd _ IH]; intros acc w e w'; simpl.
  - unfold ret. discriminate.
  - unfold bind. rewrite (linear_process_issue E self fuel issue acc w Hd).
    destruct (truthy (issue_id issue)).
    + destruct (Linear.fetch_issue_comments E self fuel (issue_id issue) w)
        as [[comments | x |] w1]; try apply IH. discriminate.
    + apply IH.
Qed.

Lemma pylon_loop_returns E self issues :
  all_dicts issues ->
  forall acc w,
  exists tickets w',
    for_each (Pylon.process_issue E self) issues acc w = (Ret tickets, w').
Proof.
  induction 1 as [| issue issues Hd _ IH]; intros acc w; simpl.
  - exists acc, w. reflexivity.
  - unfold bind. rewrite (pylon_process_issue E self issue acc w Hd).
    destruct (truthy (issue_id issue)); [| apply IH].
    pose proof (pylon_fetch_ticket_total E self issue w) as Htot.
    destruct (pylon_fetch_ticket E self issue w) as [[record | x |] w1];
      try apply IH.
    exfalso. apply Htot. reflexivity.
Qed.

(** Records are only ever appended. *)
Lemma linear_process_appends E self fuel issue acc w tickets w' :
  Linear.process_issue E self fuel issue acc w = (Ret tickets, w') ->
  exists rest, tickets = acc ++ rest.
Proof.
  unfold Linear.process_issue, bind, lift, try_except, ret.
  destruct (dict_get issue "id" PNone) as [id | x |]; try discriminate.
  destruct (dict_get issue "identifier" id) as [identifier | x |];
    try discriminate.
  destruct (negb (truthy id)).
  - intro H. injection H as <- _. exists []. symmetry. apply app_nil_r.
  - destruct (Linear.fetch_issue_comments E self fuel id w)
      as [[comments | x |] w1]; intro H; try discriminate;
      injection H as <- _; eexists; reflexivity.
Qed.

Lemma linear_loop_appends E self fuel issues :
  forall acc w tickets w',
    for_each (Linear.process_issue E self fuel) issues acc w = (Ret tickets, w') ->
    exists rest, tickets = acc ++ rest.
Proof.
  induction issues as [| issue issues IH]; intros acc w tickets w' H; simpl in H.
  - unfold ret in H. injection H as <- _. exists []. symmetry. apply app_nil_r.
  - bind_inv H. destruct (IH _ _ _ _ H) as [rest ->].
    destruct (linear_process_appends _ _ _ _ _ _ _ _ Hm) as [rest' ->].
    exists (rest' ++ rest). symmetry. apply app_assoc.
Qed.

Lemma linear_assemble_Ret E self fuel sd ed days issues w tickets w1 :
  for_each (Linear.process_issue E self fuel) issues [] w = (Ret tickets, w1) ->
  exists result,
    Linear.assemble E self fuel sd ed days issues w = (Ret result, ticked w1)
    /\ lookup_path result ["tickets"] = Some (PList tickets).
Proof.
  intro H. unfold Linear.assemble, bind. rewrite H.
  eexists. split; reflexivity.
Qed.

Lemma linear_assemble_inv E self fuel sd ed days issues w result w' :
  Linear.assemble E self fuel sd ed days issues w = (Ret result, w') ->
  exists tickets w1,
    for_each (Linear.process_issue E self fuel) issues [] w = (Ret tickets, w1)
    /\ lookup_path result ["tickets"] = Some (PList tickets).
Proof.
  unfold Linear.assemble. intro H. bind_inv H.
  exists a, w0. split; [exact Hm |].
  bind_inv H. unfold ret in H. injection H as <- _. reflexivity.
Qed.

Lemma linear_assemble_Exc E self fuel sd ed days issues w x w' :
  Linear.assemble E self fuel sd ed days issues w = (Exc x, w') ->
  for_each (Linear.process_issue E self fuel) issues [] w = (Exc x, w').
Proof.
  unfold Linear.assemble, bind, now, ret.
  destruct (for_each (Linear.process_issue E self fuel) issues [] w)
    as [[tickets | y |] w1]; intro H; try discriminate.
  injection H as -> ->. reflexivity.
Qed.

Lemma pylon_assemble_Ret E self sd ed days issues w tickets w1 :
  for_each (Pylon.process_issue E self) issues [] w = (Ret tickets, w1) ->
  exists result,
    Pylon.assemble E self sd ed days issues w = (Ret result, ticked w1)
    /\ lookup_path result ["tickets"] = Some (PList tickets).
Proof.
  intro H. unfold Pylon.assemble, bind. rewrite H.
  eexists. split; reflexivity.
Qed.

Lemma pylon_assemble_inv E self sd ed days issues w result w' :
  Pylon.assemble E self sd ed days issues w = (Ret result, w') ->
  exists tickets w1,
    for_each (Pylon.process_issue E self) issues [] w = (Ret tickets, w1)
    /\ lookup_path result ["tickets"] = Some (PList tickets).
Proof.
  unfold Pylon.assemble. intro H. bind_inv H.
  exists a, w0. split; [exact Hm |].
  bind_inv H. unfold ret in H. injection H as <- _. reflexivity.
Qed.

(** The loop over [before ++ issue :: after] when the comment fetch of
    [issue] raises: it goes on with the tickets after it, the failed
    record appended. *)
Lemma linear_loop_after_failure E self fuel before issue after tickets1 w w1 e w2 :
  is_dict issue = true ->
  truthy (issue_id issue) = true ->
  for_each (Linear.process_issue E self fuel) before [] w = (Ret tickets1, w1) ->
  Linear.fetch_issue_comments E self fuel (issue_id issue) w1 = (Exc e, w2) ->
  for_each (Linear.process_issue E self fuel) (before ++ issue :: after) [] w
  = for_each (Linear.process_issue E self fuel) after
      (tickets1 ++ [Linear.failed_ticket issue e]) w2.
Proof.
  intros Hd Hid Hb Hf. rewrite for_each_app. rewrite (@bind_Ret _ _ _ _ _ _ _ Hb).
  simpl. unfold bind at 1.
  rewrite (linear_process_issue E self fuel issue tickets1 w1 Hd).
  rewrite Hid, Hf. reflexivity.
Qed.

(** The same loop of the Pylon exporter when the message fetch raises:
    it goes on with the tickets after it, nothing appended. *)
Lemma pylon_loop_after_failure E self before issue after tickets1 w w1
    detailed w1' e w2 :
  is_dict issue = true ->
  truthy (issue_id issue) = true ->
  for_each (Pylon.process_issue E self) before [] w = (Ret tickets1, w1) ->
  Pylon.get_issue_details E self (issue_id issue) w1 = (Ret detailed, w1') ->
  Pylon.get_issue_messages E self (issue_id issue) w1' = (Exc e, w2) ->
  for_each (Pylon.process_issue E self) (before ++ issue :: after) [] w
  = for_each (Pylon.process_issue E self) after tickets1 w2.
Proof.
  intros Hd Hid Hb Hdet Hmsg. rewrite for_each_app. rewrite (@bind_Ret _ _ _ _ _ _ _ Hb).
  simpl. unfold bind at 1.
  rewrite (pylon_process_issue E self issue tickets1 w1 Hd).
  rewrite Hid. unfold pylon_fetch_ticket, bind. rewrite Hdet, Hmsg.
  reflexivity.
Qed.

(** C1, as it stands, fails for the Pylon exporter: T3 has an
    identifier and its message fetch raises; the run goes on, but no
    record of T3 is in the output. *)
Lemma pylon_drops_failed_ticket :
  let E := sample_env pylon_site in
  let self := Pylon.__init__ "token" in
  let T3 := ticket "T3" "closed" [] in
  exists detailed w1 e w2 result w',
    Pylon.get_issue_details E self (issue_id T3) initial_world
    = (Ret detailed, w1)
    /\ Pylon.get_issue_messages E self (issue_id T3) w1 = (Exc e, w2)
    /\ Pylon.assemble E self (mk_datetime 0 None) (mk_datetime 0 None) 30 [T3]
         initial_world = (Ret result, w')
    /\ lookup_path result ["tickets"] = Some (PList []).
Proof.
  simpl. do 6 eexists.
  split; [vm_compute; reflexivity |].
  split; [vm_compute; reflexivity |].
  split; [vm_compute; reflexivity | reflexivity].
Qed.

(** C1, amended.  Take a ticket with an identifier in the filtered list,
    preceded by [before] and followed by the tickets [after].  In the
    Linear exporter, when its comment fetch raises, the error is caught:
    the run raises nothing, every result it returns contains, right after
    the records of [before], a record of that ticket with an empty comment
    list, count 0 and the error text, and the run returns a result as soon
    as the remaining tickets are processed, which happens from the world
    the failed fetch left.  In the Pylon exporter the error of the message
    fetch is caught as well and the run goes on with the remaining tickets
    and returns a result, but without a record of that ticket. *)
Theorem fetch_failure_is_contained :
  forall E before issue after,
    is_dict issue = true ->
    truthy (issue_id issue) = true ->
    all_dicts after ->
    (forall self fuel sd ed days tickets1 w w1 e w2,
        for_each (Linear.process_issue E self fuel) before [] w
        = (Ret tickets1, w1) ->
        Linear.fetch_issue_comments E self fuel (issue_id issue) w1
        = (Exc e, w2) ->
        let failed :=
          PDict [("issue", issue); ("comments", PList []);
                 ("total_comments", PInt 0); ("error", PStr e)] in
        (forall x w',
            Linear.assemble E self fuel sd ed days (before ++ issue :: after) w
            <> (Exc x, w'))
        /\ (forall result w',
               Linear.assemble E self fuel sd ed days
                 (before ++ issue :: after) w = (Ret result, w') ->
               exists rest,
                 lookup_path result ["tickets"]
                 = Some (PList (tickets1 ++ failed :: rest)))
        /\ (forall tickets w3,
               for_each (Linear.process_issue E self fuel) after
                 (tickets1 ++ [failed]) w2 = (Ret tickets, w3) ->
               exists result w',
                 Linear.assemble E self fuel sd ed days
                   (before ++ issue :: after) w = (Ret result, w')
                 /\ lookup_path result ["tickets"] = Some (PList tickets)))
    /\ (forall self sd ed days tickets1 w w1 detailed w1' e w2,
           for_each (Pylon.process_issue E self) before [] w
           = (Ret tickets1, w1) ->
           Pylon.get_issue_details E self (issue_id issue) w1
           = (Ret detailed, w1') ->
           Pylon.get_issue_messages E self (issue_id issue) w1' = (Exc e, w2) ->
           exists tickets w3 result w',
             for_each (Pylon.process_issue E self) after tickets1 w2
             = (Ret tickets, w3)
             /\ Pylon.assemble E self sd ed days (before ++ issue :: after) w
                = (Ret result, w')
             /\ lookup_path result ["tickets"] = Some (PList tickets)).
Proof.
  intros E before issue after Hd Hid Hafter. split.
  - intros self fuel sd ed days tickets1 w w1 e w2 Hb Hf failed.
    pose proof (linear_loop_after_failure E self fuel before issue after
                  tickets1 w w1 e w2 Hd Hid Hb Hf) as Hloop.
    change (Linear.failed_ticket issue e) with failed in Hloop.
    repeat split.
    + intros x w' H. apply linear_assemble_Exc in H. rewrite Hloop in H.
      exact (linear_loop_never_raises E self fuel after Hafter _ _ _ _ H).
    + intros result w' H. apply linear_assemble_inv in H.
      destruct H as (tickets & w3 & Hrun & Hlook). rewrite Hloop in Hrun.
      destruct (linear_loop_appends E self fuel after _ _ _ _ Hrun)
        as [rest ->].
      exists rest. rewrite Hlook. rewrite <- app_assoc. reflexivity.
    + intros tickets w3 Hrest. rewrite <- Hloop in Hrest.
      destruct (linear_assemble_Ret E self fuel sd ed days _ _ _ _ Hrest)
        as (result & Hrun & Hlook).
      exists result, (ticked w3). split; assumption.
  - intros self sd ed days tickets1 w w1 detailed w1' e w2 Hb Hdet Hmsg.
    pose proof (pylon_loop_after_failure E self before issue after tickets1
                  w w1 detailed w1' e w2 Hd Hid Hb Hdet Hmsg) as Hloop.
    destruct (pylon_loop_returns E self after Hafter tickets1 w2)
      as (tickets & w3 & Hrest).
    exists tickets, w3.
    rewrite <- Hloop in Hrest.
    destruct (pylon_assemble_Ret E self sd ed days _ _ _ _ Hrest)
      as (result & Hrun & Hlook).
    exists result, (ticked w3). rewrite Hloop in Hrest.
    repeat split; assumption.
Qed.

Lemma fetch_failure_is_contained_witness :
  exists result w',
    Linear.assemble linear_site (Linear.__init__ "key") 5 (mk_datetime 0 (Some 0))
      (mk_datetime 0 (Some 0)) 180 ([L1] ++ L2 :: [no_id; L3]) initial_world
    = (Ret result, w')
    /\ lookup_path result ["tickets"]
       = Some (PList
                 [PDict [("issue", L1);
                         ("comments", PList [PDict [("id", PStr "c1")];
                                             PDict [("id", PStr "c2")];
                                             PDict [("id", PStr "c3")]]);
                         ("total_comments", PInt 3)];
                  PDict [("issue", L2); ("comments", PList []);
                         ("total_comments", PInt 0);
                         ("error", PStr "API request failed: 500 - overloaded")];
                  PDict [("issue", L3); ("comments", PList []);
                         ("total_comments", PInt 0)]]).
Proof.
  assert (Hafter : all_dicts [no_id; L3]).
  { repeat constructor. }
  refine (proj2 (proj2 (proj1 (fetch_failure_is_contained linear_site [L1] L2
                                 [no_id; L3] eq_refl eq_refl Hafter)
                          (Linear.__init__ "key") 5%nat (mk_datetime 0 (Some 0))
                          (mk_datetime 0 (Some 0)) 180 _ initial_world _ _ _
                          _ _)) _ _ _).
  - vm_compute. reflexivity.
  - vm_compute. reflexivity.
  - vm_compute. reflexivity.
Defined.

Lemma result_metadata_witness :
  exists result w',
    Linear.fetch_all_closed_tickets linear_full_site (Linear.__init__ "key") 5 180
      None initial_world = (Ret result, w')
    /\ lookup_path result ["metadata"; "source"] = Some (PStr "linear")
    /\ exists tickets,
         lookup_path result ["tickets"] = Some (PList tickets)
         /\ lookup_path result ["metadata"; "total_tickets"]
            = Some (PInt (Z.of_nat (List.length tickets))).
Proof.
  eexists. eexists.
  match goal with |- ?A /\ _ => assert (H : A) end.
  { vm_compute. reflexivity. }
  split; [exact H |].
  destruct (proj1 (result_metadata _ _ _ _ _ _) _ _ H)
    as (tickets & s & n & Ht & Htotal & _ & _ & _ & _ & _ & _ & Hsrc).
  split; [exact Hsrc |].
  exists tickets. split; [exact Ht | exact Htotal].
Defined.

(** ** Tickets without identifier *)

Lemma for_each_skip (A S : Type) (body : A -> S -> M S) before x after :
  (forall s w, body x s w = (Ret s, w)) ->
  forall s w,
    for_each body (before ++ x :: after) s w
    = for_each body (before ++ after) s w.
Proof.
  intros Hskip s w. rewrite !for_each_app. unfold bind.
  destruct (for_each body before s w) as [[s1 | e |] w1]; try reflexivity.
  simpl. unfold bind. rewrite Hskip. reflexivity.
Qed.

Lemma linear_loop_count E self fuel issues :
  Forall (fun issue => has_id issue = true) issues ->
  forall acc w tickets w',
    for_each (Linear.process_issue E self fuel) issues acc w = (Ret tickets, w') ->
    List.length tickets = (List.length acc + List.length issues)%nat.
Proof.
  induction 1 as [| issue issues Hid _ IH]; intros acc w tickets w' H;
    simpl in H.
  - unfold ret in H. injection H as <- _. simpl. lia.
  - bind_inv H. apply IH in H. rewrite H. clear H IH.
    unfold has_id in Hid. apply andb_true_iff in Hid. destruct Hid as [Hd Hid].
    rewrite (linear_process_issue E self fuel issue acc w Hd) in Hm.
    rewrite Hid in Hm.
    destruct (Linear.fetch_issue_comments E self fuel (issue_id issue) w)
      as [[comments | x |] w1]; try discriminate;
      injection Hm as <- _; rewrite length_app; simpl; lia.
Qed.

Lemma pylon_process_count E self issue acc w tickets w' :
  Pylon.process_issue E self issue acc w = (Ret tickets, w') ->
  (List.length tickets <= List.length acc + 1)%nat.
Proof.
  unfold Pylon.process_issue, bind, lift, try_except, ret.
  destruct (dict_get issue "id" PNone) as [id | x |]; try discriminate.
  destruct (negb (truthy id)).
  - intro H. injection H as <- _. lia.
  - destruct (Pylon.get_issue_details E self id w) as [[d | x |] w1];
      try (intro H; injection H as <- _; lia); try discriminate.
    destruct (Pylon.get_issue_messages E self id w1) as [[m | x |] w2];
      try (intro H; injection H as <- _; lia); try discriminate.
    destruct (py_len m) as [n | x |];
      try (intro H; injection H as <- _; try rewrite length_app; simpl; lia);
      try discriminate.
Qed.

Lemma pylon_loop_count E self issues :
  forall acc w tickets w',
    for_each (Pylon.process_issue E self) issues acc w = (Ret tickets, w') ->
    (List.length tickets <= List.length acc + List.length issues)%nat.
Proof.
  induction issues as [| issue issues IH]; intros acc w tickets w' H;
    simpl in H.
  - unfold ret in H. injection H as <- _. simpl. lia.
  - bind_inv H. apply IH in H. apply pylon_process_count in Hm. simpl. lia.
Qed.

Lemma pylon_loop_count_exact E self issues :
  Forall (fun issue => has_id issue = true) issues ->
  fetches E self issues ->
  forall acc w tickets w',
    for_each (Pylon.process_issue E self) issues acc w = (Ret tickets, w') ->
    List.length tickets = (List.length acc + List.length issues)%nat.
Proof.
  induction 1 as [| issue issues Hid _ IH]; intros Hf acc w tickets w' H;
    simpl in H.
  - unfold ret in H. injection H as <- _. simpl. lia.
  - inversion Hf as [| ? ? Hfetch Hf']; subst.
    bind_inv H. apply (IH Hf') in H. rewrite H. clear H IH.
    unfold has_id in Hid. apply andb_true_iff in Hid. destruct Hid as [Hd Hid].
    rewrite (pylon_process_issue E self issue acc w Hd) in Hm.
    rewrite Hid in Hm.
    destruct (Hfetch w) as (record & w1 & Hrec). rewrite Hrec in Hm.
    injection Hm as <- _. rewrite length_app. simpl. lia.
Qed.

(** C10, as it stands, fails for the Pylon exporter: of two filtered
    tickets one lacks the identifier, and the result holds no record at
    all, because the message fetch of the other one raises. *)
Lemma pylon_result_can_be_shorter :
  let filtered := [ticket "T3" "closed" []; PDict [("state", PStr "closed")]] in
  exists result w' tickets,
    Pylon.assemble (sample_env pylon_site) (Pylon.__init__ "token")
      (mk_datetime 0 None) (mk_datetime 0 None) 30 filtered initial_world
    = (Ret result, w')
    /\ map has_id filtered = [true; false]
    /\ lookup_path result ["tickets"] = Some (PList tickets)
    /\ List.length tickets <> (List.length filtered - 1)%nat.
Proof.
  simpl. do 3 eexists.
  split; [vm_compute; reflexivity |].
  split; [reflexivity |].
  split; [reflexivity | simpl; discriminate].
Qed.

(** C10, amended.  A ticket of the filtered list that lacks the
    identifier is skipped by both exporters: the run is the very run on
    the list without that ticket (same result, same requests), so no
    record corresponds to it and no error is recorded or raised for it.
    When it is the only such ticket, the result of the Linear exporter has
    exactly one record fewer than the list is long; the result of the
    Pylon exporter has at most that many records, and exactly that many
    when the fetch of no other ticket raises (a ticket whose fetch raises
    is dropped too). *)
Theorem ticket_without_id_is_skipped :
  forall E before x after,
    is_dict x = true ->
    truthy (issue_id x) = false ->
    (forall self fuel sd ed days w,
        Linear.assemble E self fuel sd ed days (before ++ x :: after) w
        = Linear.assemble E self fuel sd ed days (before ++ after) w)
    /\ (forall self sd ed days w,
           Pylon.assemble E self sd ed days (before ++ x :: after) w
           = Pylon.assemble E self sd ed days (before ++ after) w)
    /\ (forall self fuel sd ed days w result w',
           Forall (fun issue => has_id issue = true) (before ++ after) ->
           Linear.assemble E self fuel sd ed days (before ++ x :: after) w
           = (Ret result, w') ->
           exists tickets,
             lookup_path result ["tickets"] = Some (PList tickets)
             /\ List.length tickets
                = (List.length (before ++ x :: after) - 1)%nat)
    /\ (forall self sd ed days w result w',
           Pylon.assemble E self sd ed days (before ++ x :: after) w
           = (Ret result, w') ->
           exists tickets,
             lookup_path result ["tickets"] = Some (PList tickets)
             /\ (List.length tickets
                 <= List.length (before ++ x :: after) - 1)%nat)
    /\ (forall self sd ed days w result w',
           Forall (fun issue => has_id issue = true) (before ++ after) ->
           fetches E self (before ++ after) ->
           Pylon.assemble E self sd ed days (before ++ x :: after) w
           = (Ret result, w') ->
           exists tickets,
             lookup_path result ["tickets"] = Some (PList tickets)
             /\ List.length tickets
                = (List.length (before ++ x :: after) - 1)%nat).
Proof.
  intros E before x after Hd Hid.
  assert (Hl : forall self fuel sd ed days w,
             Linear.assemble E self fuel sd ed days (before ++ x :: after) w
             = Linear.assemble E self fuel sd ed days (before ++ after) w).
  { intros. unfold Linear.assemble, bind.
    rewrite (for_each_skip _ _ (Linear.process_issue E self fuel) before x after
               (fun s w0 => linear_skip E self fuel x s w0 Hd Hid)).
    reflexivity. }
  assert (Hp : forall self sd ed days w,
             Pylon.assemble E self sd ed days (before ++ x :: after) w
             = Pylon.assemble E self sd ed days (before ++ after) w).
  { intros. unfold Pylon.assemble, bind.
    rewrite (for_each_skip _ _ (Pylon.process_issue E self) before x after
               (fun s w0 => pylon_skip E self x s w0 Hd Hid)).
    reflexivity. }
  assert (Hlen : (List.length (before ++ x :: after) - 1
                  = List.length (before ++ after))%nat).
  { rewrite !length_app. simpl. lia. }
  split; [exact Hl |]. split; [exact Hp |]. split.
  - intros self fuel sd ed days w result w' Hids H. rewrite Hl in H.
    apply linear_assemble_inv in H. destruct H as (tickets & w1 & Hrun & Hlook).
    exists tickets. split; [exact Hlook |].
    rewrite Hlen.
    exact (linear_loop_count E self fuel _ Hids _ _ _ _ Hrun).
  - split.
    + intros self sd ed days w result w' H. rewrite Hp in H.
      apply pylon_assemble_inv in H.
      destruct H as (tickets & w1 & Hrun & Hlook).
      exists tickets. split; [exact Hlook |].
      rewrite Hlen.
      exact (pylon_loop_count E self _ _ _ _ _ Hrun).
    + intros self sd ed days w result w' Hids Hfetch H. rewrite Hp in H.
      apply pylon_assemble_inv in H.
      destruct H as (tickets & w1 & Hrun & Hlook).
      exists tickets. split; [exact Hlook |].
      rewrite Hlen.
      exact (pylon_loop_count_exact E self _ Hids Hfetch _ _ _ _ Hrun).
Qed.

Lemma ticket_without_id_is_skipped_witness :
  (exists result w' tickets,
      Linear.assemble linear_site (Linear.__init__ "key") 5 (mk_datetime 0 (Some 0))
        (mk_datetime 0 (Some 0)) 180 ([L1; L2] ++ no_id :: [L3]) initial_world
      = (Ret result, w')
      /\ lookup_path result ["tickets"] = Some (PList tickets)
      /\ List.length tickets = 3%nat)
  /\ (exists result w' tickets,
         Pylon.assemble (sample_env quiet) (Pylon.__init__ "token")
           (mk_datetime 0 None) (mk_datetime 0 None) 30
           ([L1] ++ no_id :: [L3]) initial_world
         = (Ret result, w')
         /\ lookup_path result ["tickets"] = Some (PList tickets)
         /\ List.length tickets = 2%nat).
Proof.
  split.
  - eexists. eexists.
    match goal with |- exists t, ?A /\ _ => assert (H : A) end.
    { vm_compute. reflexivity. }
    assert (Hids : Forall (fun issue => has_id issue = true) ([L1; L2] ++ [L3])).
    { repeat constructor. }
    destruct (proj1 (proj2 (proj2 (ticket_without_id_is_skipped linear_site
                                     [L1; L2] no_id [L3] eq_refl eq_refl)))
                _ _ _ _ _ _ _ _ Hids H)
      as (tickets & Hlook & Hlen).
    exists tickets. split; [exact H |]. split; [exact Hlook | exact Hlen].
  - eexists. eexists.
    match goal with |- exists t, ?A /\ _ => assert (H : A) end.
    { vm_compute. reflexivity. }
    assert (Hids : Forall (fun issue => has_id issue = true) ([L1] ++ [L3])).
    { repeat constructor. }
    assert (Hfetch : fetches (sample_env quiet) (Pylon.__init__ "token")
                       ([L1] ++ [L3])).
    { repeat constructor; intro w; eexists; eexists; reflexivity. }
    destruct (proj2 (proj2 (proj2 (proj2
                (ticket_without_id_is_skipped (sample_env quiet)
                   [L1] no_id [L3] eq_refl eq_refl))))
                _ _ _ _ _ _ _ Hids Hfetch H)
      as (tickets & Hlook & Hlen).
    exists tickets. split; [exact H |]. split; [exact Hlook | exact Hlen].
Defined.

(** ** Conversations *)






(** ** The scan in chunks of the Pylon exporter *)

Lemma chunk_windows_chain fuel start :
  forall current_end,
    start < current_end ->
    current_end - start <= Z.of_nat fuel * (30 * day) ->
    chain current_end (chunk_windows fuel start current_end) start.
Proof.
  induction fuel as [| fuel IH]; intros c Hlt Hfuel.
  - simpl in Hfuel. lia.
  - cbn [chunk_windows]. destruct (Z.ltb_spec start c) as [_ | Hge]; [| lia].
    constructor.
    rewrite Nat2Z.inj_succ, Z.mul_succ_l in Hfuel.
    destruct (Z.max_spec start (c - 30 * day)) as [[Hcmp Heq] | [Hcmp Heq]];
      rewrite Heq.
    + apply IH; lia.
    + destruct fuel; cbn [chunk_windows]; rewrite Z.ltb_irrefl; constructor.
Qed.

Lemma chunk_windows_bounded fuel start :
  forall current_end,
    Forall (fun win => start <= fst win /\ 0 < snd win - fst win <= 30 * day)
      (chunk_windows fuel start current_end).
Proof.
  induction fuel as [| fuel IH]; intro c; cbn [chunk_windows].
  - destruct (start <? c); constructor.
  - destruct (Z.ltb_spec start c) as [Hlt | Hge]; [| constructor].
    constructor; [| apply IH].
    assert (0 < day) by (unfold day; lia). cbn [fst snd]. lia.
Qed.

Lemma total_closed_in_chunk chunk_issues :
  pure_total (Pylon.closed_in_chunk chunk_issues).
Proof.
  unfold pure_total, Pylon.closed_in_chunk, and_then.
  destruct (py_iter chunk_issues) as [items | y |] eqn:Hi.
  - clear. induction items as [| i items IH]; simpl; [discriminate |].
    unfold and_then.
    destruct (dict_get i "state" PNone) as [s | y |] eqn:Hg.
    + destruct (Pylon.closed_only items); [discriminate | discriminate |].
      contradiction.
    + discriminate.
    + destruct i; discriminate.
  - discriminate.
  - destruct chunk_issues; discriminate.
Qed.

Lemma scan_chunk_step E self start c filtered w :
  30 * day <= start ->
  start < c ->
  c <= datetime_max_wall ->
  Pylon.scan_chunk E self (naive start) (naive c, filtered) w
  = let win := (Z.max start (c - 30 * day), c) in
    (Ret (naive (fst win), fst (chunk_step E self (filtered, w) win)),
     snd (chunk_step E self (filtered, w) win)).
Proof.
  intros Hmin Hlt Hmax.
  assert (Hday : 0 < day) by (unfold day; lia).
  unfold Pylon.scan_chunk.
  assert (Hd : timedelta_days 30 = Ret (30 * day)) by reflexivity.
  assert (Hs : datetime_sub (naive c) (30 * day) = Ret (naive (c - 30 * day))).
  { unfold datetime_sub, naive. cbn [wall utcoffset].
    rewrite (proj2 (Z.leb_le 0 (c - 30 * day))) by lia.
    rewrite (proj2 (Z.leb_le (c - 30 * day) datetime_max_wall)) by lia.
    reflexivity. }
  assert (Hm : datetime_max (naive start) (naive (c - 30 * day))
               = Ret (naive (Z.max start (c - 30 * day)))).
  { unfold datetime_max, datetime_gt, datetime_le, and_then, naive.
    cbn [wall utcoffset].
    destruct (Z.leb_spec (c - 30 * day) start); cbn [negb].
    - rewrite Z.max_l by lia. reflexivity.
    - rewrite Z.max_r by lia. reflexivity. }
  unfold bind at 1. unfold lift at 1. rewrite Hd.
  unfold bind at 1. unfold lift at 1. rewrite Hs.
  unfold bind at 1. unfold lift at 1. rewrite Hm.
  unfold chunk_step, try_except, bind, lift, ret. cbn [fst snd].
  pose proof (total_get_issues_in_range E self
                (naive (Z.max start (c - 30 * day))) (naive c) w) as Ht.
  destruct (Pylon.get_issues_in_range E self
              (naive (Z.max start (c - 30 * day))) (naive c) w)
    as [[chunk | y |] w2]; cbn [fst] in Ht.
  - pose proof (total_closed_in_chunk chunk) as Hc.
    destruct (Pylon.closed_in_chunk chunk) as [closed | y |];
      [reflexivity | reflexivity | contradiction].
  - reflexivity.
  - contradiction.
Qed.

Lemma chunk_loop_windows E self start fuel :
  30 * day <= start ->
  forall c filtered w,
    c <= datetime_max_wall ->
    c - start <= Z.of_nat fuel * (30 * day) ->
    exists c',
      while_do fuel (fun st => datetime_gt (fst st) (naive start))
        (Pylon.scan_chunk E self (naive start)) (naive c, filtered) w
      = (Ret (naive c',
              fst (fold_left (chunk_step E self) (chunk_windows fuel start c)
                     (filtered, w))),
         snd (fold_left (chunk_step E self) (chunk_windows fuel start c)
                (filtered, w))).
Proof.
  intro Hmin.
  assert (Hday : 0 < day) by (unfold day; lia).
  assert (Hcond : forall c (filtered : list pyval),
             datetime_gt (fst (naive c, filtered)) (naive start)
             = Ret (start <? c)).
  { intros c filtered. unfold datetime_gt, datetime_le, and_then, naive.
    cbn [fst wall utcoffset]. rewrite Z.ltb_antisym. reflexivity. }
  induction fuel as [| fuel IH]; intros c filtered w Hmax Hfuel.
  - exists c. cbn [while_do chunk_windows]. unfold bind, lift.
    rewrite Hcond.
    destruct (Z.ltb_spec start c) as [Hlt | Hge]; [simpl in Hfuel; lia |].
    reflexivity.
  - cbn [while_do chunk_windows]. unfold bind at 1. unfold lift at 1.
    rewrite Hcond.
    destruct (Z.ltb_spec start c) as [Hlt | Hge].
    + unfold bind at 1.
      rewrite (scan_chunk_step E self start c filtered w Hmin Hlt Hmax).
      cbn [fst snd fold_left].
      rewrite Nat2Z.inj_succ, Z.mul_succ_l in Hfuel.
      destruct (IH (Z.max start (c - 30 * day))
                  (fst (chunk_step E self (filtered, w)
                          (Z.max start (c - 30 * day), c)))
                  (snd (chunk_step E self (filtered, w)
                          (Z.max start (c - 30 * day), c))))
        as [c' Hloop]; [lia | lia |].
      exists c'. rewrite Hloop.
      destruct (chunk_step E self (filtered, w) (Z.max start (c - 30 * day), c));
        reflexivity.
    + exists c. reflexivity.
Qed.

Lemma chunked_scan_windows E self fuel start finish w :
  30 * day <= start ->
  finish <= datetime_max_wall ->
  finish - start <= Z.of_nat fuel * (30 * day) ->
  Pylon.chunked_scan E self fuel (naive start) (naive finish) w
  = (Ret (fst (fold_left (chunk_step E self) (chunk_windows fuel start finish)
                 ([], w))),
     snd (fold_left (chunk_step E self) (chunk_windows fuel start finish)
            ([], w))).
Proof.
  intros Hmin Hmax Hfuel.
  destruct (chunk_loop_windows E self start fuel Hmin finish [] w Hmax Hfuel)
    as [c' Hloop].
  unfold Pylon.chunked_scan, bind. rewrite Hloop. reflexivity.
Qed.

Lemma closed_only_filter items :
  all_dicts items -> Pylon.closed_only items = Ret (filter is_closed items).
Proof.
  induction 1 as [| issue items Hd _ IH]; [reflexivity |].
  simpl. rewrite IH. destruct issue as [| | | | | kv]; try discriminate.
  unfold is_closed. simpl. destruct (assoc "state" kv) as [v |]; simpl.
  - destruct (eq_str v "closed"); reflexivity.
  - reflexivity.
Qed.

Lemma closed_only_dicts items :
  forall closed, Pylon.closed_only items = Ret closed -> all_dicts closed.
Proof.
  induction items as [| issue items IH]; intros closed H; simpl in H.
  - injection H as <-. constructor.
  - unfold and_then in H.
    destruct (dict_get issue "state" PNone) as [s | x |] eqn:Hg;
      try discriminate.
    destruct (Pylon.closed_only items) as [cl | x |]; try discriminate.
    injection H as <-. specialize (IH cl eq_refl).
    destruct (eq_str s "closed"); [| exact IH].
    constructor; [| exact IH]. destruct issue; try discriminate. reflexivity.
Qed.

Lemma chunk_step_dicts E self filtered w win :
  all_dicts filtered -> all_dicts (fst (chunk_step E self (filtered, w) win)).
Proof.
  intro Hf. unfold chunk_step, bind, lift.
  destruct (Pylon.get_issues_in_range E self (naive (fst win))
              (naive (snd win)) w) as [[chunk | x |] w1]; try exact Hf.
  destruct (Pylon.closed_in_chunk chunk) as [closed | x |] eqn:Hc; try exact Hf.
  cbn [fst]. apply Forall_app. split; [exact Hf |].
  unfold Pylon.closed_in_chunk, and_then in Hc.
  destruct (py_iter chunk) as [items | x |]; try discriminate.
  exact (closed_only_dicts items closed Hc).
Qed.

Lemma chunk_fold_dicts E self wins :
  forall filtered w,
    all_dicts filtered ->
    all_dicts (fst (fold_left (chunk_step E self) wins (filtered, w))).
Proof.
  induction wins as [| win wins IH]; intros filtered w Hf; [exact Hf |].
  cbn [fold_left].
  pose proof (chunk_step_dicts E self filtered w win Hf) as Hstep.
  destruct (chunk_step E self (filtered, w) win) as [filtered' w1].
  apply IH. exact Hstep.
Qed.

Lemma get_issues_in_range_request E self start_time end_time w :
  exists req,
    snd (Pylon.get_issues_in_range E self start_time end_time w) = sent req w
    /\ req_params req = [("start_time", isoformat E start_time +:+ "Z");
                         ("end_time", isoformat E end_time +:+ "Z")].
Proof.
  eexists. unfold Pylon.get_issues_in_range, bind, send. cbn [log].
  split.
  - destruct (server E _) as [x | a]; [reflexivity |].
    destruct (negb (status_code a =? 200)); [reflexivity |].
    unfold lift. destruct (response_json a) as [v | x |]; reflexivity.
  - reflexivity.
Qed.

(** C5, as it stands, fails: in the scan in chunks the closed ticket T1,
    created in 2020, is kept for a window of the last 30 days, although the
    filter on state and date does not retain it. *)
Lemma fallback_keeps_issue_outside_window :
  let E := sample_env pylon_site in
  let self := Pylon.__init__ "token" in
  let T1 := ticket "T1" "closed" [("created_at", PStr "2020-01-01T00:00:00")] in
  let end_date := naive (sample_clock 0) in
  let start_date := naive (sample_clock 0 - 30 * day) in
  exists x w1 filtered w',
    Pylon.search_and_filter E self 5 start_date end_date initial_world
    = (Exc x, w1)
    /\ Pylon.fetch_list E self 5 start_date end_date initial_world
       = (Ret filtered, w')
    /\ In T1 filtered
    /\ Pylon.filter_issues_by_date_and_state E [T1] start_date end_date "closed"
       = Ret [].
Proof.
  simpl. do 4 eexists.
  split; [vm_compute; reflexivity |].
  split; [vm_compute; reflexivity |].
  split; [left; reflexivity | vm_compute; reflexivity].
Qed.

(** C5, amended.  For a window from [start] to [finish], the scan in
    chunks walks through consecutive windows, each at most 30 days long,
    that lie end to end from [finish] down to [start]; it sends one range
    request per window, carrying the bounds of that window, and adds what
    that request yields; from a chunk that answers with a list of tickets
    it keeps a ticket if and only if its state is "closed", without
    looking at its dates; a chunk whose request raises adds nothing. *)
Theorem fallback_scans_chunks :
  forall E self fuel start finish w,
    30 * day <= start ->
    finish <= datetime_max_wall ->
    finish - start <= Z.of_nat fuel * (30 * day) ->
    let wins := chunk_windows fuel start finish in
    (start < finish -> chain finish wins start)
    /\ Forall (fun win => start <= fst win
                          /\ 0 < snd win - fst win <= 30 * day) wins
    /\ Pylon.chunked_scan E self fuel (naive start) (naive finish) w
       = (Ret (fst (fold_left (chunk_step E self) wins ([], w))),
          snd (fold_left (chunk_step E self) wins ([], w)))
    /\ (forall filtered w0 win,
           exists req,
             snd (chunk_step E self (filtered, w0) win) = sent req w0
             /\ req_params req
                = [("start_time", isoformat E (naive (fst win)) +:+ "Z");
                   ("end_time", isoformat E (naive (snd win)) +:+ "Z")])
    /\ (forall filtered w0 win issues,
           next_reply E w0 (ok (PDict [("data", PList issues)])) ->
           all_dicts issues ->
           fst (chunk_step E self (filtered, w0) win)
           = filtered ++ filter is_closed issues)
    /\ (forall filtered w0 win x w1,
           Pylon.get_issues_in_range E self (naive (fst win))
             (naive (snd win)) w0 = (Exc x, w1) ->
           chunk_step E self (filtered, w0) win = (filtered, w1)).
Proof.
  intros E self fuel start finish w Hmin Hmax Hfuel wins.
  split; [intro Hlt; exact (chunk_windows_chain fuel start finish Hlt Hfuel) |].
  split; [exact (chunk_windows_bounded fuel start finish) |].
  split; [exact (chunked_scan_windows E self fuel start finish w Hmin Hmax Hfuel) |].
  split; [| split].
  - intros filtered w0 win.
    destruct (get_issues_in_range_request E self (naive (fst win))
                (naive (snd win)) w0) as (req & Hw & Hp).
    exists req. split; [| exact Hp].
    unfold chunk_step, bind, lift.
    destruct (Pylon.get_issues_in_range E self (naive (fst win))
                (naive (snd win)) w0) as [[chunk | x |] w1];
      cbn [snd] in Hw |- *; try exact Hw.
    destruct (Pylon.closed_in_chunk chunk); exact Hw.
  - intros filtered w0 win issues Hnext Hd.
    unfold chunk_step, bind, lift. run_turn Hnext.
    unfold lift, Pylon.closed_in_chunk, and_then. simpl.
    rewrite (closed_only_filter issues Hd). reflexivity.
  - intros filtered w0 win x w1 Hraise.
    unfold chunk_step, bind. rewrite Hraise. reflexivity.
Qed.

Lemma fallback_scans_chunks_witness :
  let start := sample_clock 0 - 70 * day in
  let finish := sample_clock 0 in
  chain finish [(finish - 30 * day, finish);
                (finish - 60 * day, finish - 30 * day);
                (start, finish - 60 * day)] start
  /\ fst (Pylon.chunked_scan (sample_env pylon_site) (Pylon.__init__ "token") 3
            (naive start) (naive finish) initial_world)
     = Ret (fst (fold_left (chunk_step (sample_env pylon_site)
                              (Pylon.__init__ "token"))
                   (chunk_windows 3 start finish) ([], initial_world))).
Proof.
  assert (H1 : 30 * day <= sample_clock 0 - 70 * day) by (vm_compute; discriminate).
  assert (H2 : sample_clock 0 <= datetime_max_wall) by (vm_compute; discriminate).
  assert (H3 : sample_clock 0 - (sample_clock 0 - 70 * day)
               <= Z.of_nat 3 * (30 * day)) by (vm_compute; discriminate).
  pose proof (fallback_scans_chunks (sample_env pylon_site)
                (Pylon.__init__ "token") 3 _ _ initial_world H1 H2 H3) as H.
  destruct H as (Hchain & _ & Hscan & _).
  split.
  - apply Hchain. vm_compute. reflexivity.
  - rewrite Hscan. reflexivity.
Defined.

(** C2, as it stands, fails: with a transport that is down the search
    raises and the range request of the first chunk raises as well, yet the
    run returns a result, with zero tickets. *)
Lemma failed_fallback_still_returns :
  let E := sample_env down in
  let self := Pylon.__init__ "token" in
  let end_date := naive (sample_clock 0) in
  let start_date := naive (sample_clock 0 - 180 * day) in
  exists x w1 y w2 result w',
    Pylon.search_and_filter E self 7 start_date end_date (ticked initial_world)
    = (Exc x, w1)
    /\ Pylon.get_issues_in_range E self (naive (sample_clock 0 - 30 * day))
         end_date w1 = (Exc y, w2)
    /\ Pylon.fetch_all_closed_tickets E self 7 180 initial_world
       = (Ret result, w')
    /\ lookup_path result ["metadata"; "total_tickets"] = Some (PInt 0).
Proof.
  simpl. do 6 eexists.
  split; [vm_compute; reflexivity |].
  split; [vm_compute; reflexivity |].
  split; [vm_compute; reflexivity | reflexivity].
Qed.

(** C2, amended.  When the primary strategy raises and the window starts
    at least 30 days after the first date Python can represent, so that the
    date arithmetic of the chunks stays in range, the scan in chunks takes
    over and the errors of its requests are not fatal.  The run is then the
    assembly of exactly what the chunks yield: the windows of the scan lie
    end to end over the whole window, a chunk whose range request raises is
    passed over (it adds nothing, the list collected so far is kept, the scan
    goes on with the next chunk), a chunk that answers adds its closed
    tickets, and the run returns a result, for every budget of at least one
    turn per 30 days of the window. *)
Theorem fallback_errors_are_contained :
  forall E self fuel days_back w x w1,
    let finish := clock E (ticks w) in
    let start := finish - days_back * day in
    0 <= days_back <= 999999999 ->
    30 * day <= start ->
    finish <= datetime_max_wall ->
    days_back <= 30 * Z.of_nat fuel ->
    Pylon.search_and_filter E self fuel (naive start) (naive finish) (ticked w)
    = (Exc x, w1) ->
    let scan := fold_left (chunk_step E self) (chunk_windows fuel start finish)
                  ([], w1) in
    Pylon.fetch_all_closed_tickets E self fuel days_back w
    = Pylon.assemble E self (naive start) (naive finish) days_back
        (fst scan) (snd scan)
    /\ (exists result w',
           Pylon.fetch_all_closed_tickets E self fuel days_back w
           = (Ret result, w'))
    /\ (0 < days_back -> chain finish (chunk_windows fuel start finish) start)
    /\ (forall filtered w0 win y w2,
           Pylon.get_issues_in_range E self (naive (fst win))
             (naive (snd win)) w0 = (Exc y, w2) ->
           chunk_step E self (filtered, w0) win = (filtered, w2))
    /\ (forall filtered w0 win chunk_issues closed w2,
           Pylon.get_issues_in_range E self (naive (fst win))
             (naive (snd win)) w0 = (Ret chunk_issues, w2) ->
           Pylon.closed_in_chunk chunk_issues = Ret closed ->
           chunk_step E self (filtered, w0) win = (filtered ++ closed, w2))
    /\ (forall c filtered w0 y w2,
           start < c ->
           c <= datetime_max_wall ->
           Pylon.get_issues_in_range E self
             (naive (Z.max start (c - 30 * day))) (naive c) w0 = (Exc y, w2) ->
           Pylon.scan_chunk E self (naive start) (naive c, filtered) w0
           = (Ret (naive (Z.max start (c - 30 * day)), filtered), w2)).
Proof.
  intros E self fuel days_back w x w1 finish start Hdays Hmin Hmax Hfuel
    Hprimary scan.
  assert (Hday : 0 < day) by (unfold day; lia).
  assert (Hr : days_back_in_range E w days_back).
  { unfold days_back_in_range. fold finish. fold start. lia. }
  destruct (days_back_in_range_sub None Hr) as [Hd Hs].
  fold finish in Hs. fold start in Hs.
  assert (Hspan : finish - start <= Z.of_nat fuel * (30 * day)).
  { unfold start. nia. }
  pose proof (chunked_scan_windows E self fuel start finish w1 Hmin Hmax Hspan)
    as Hscan.
  fold scan in Hscan.
  assert (Hrun : Pylon.fetch_all_closed_tickets E self fuel days_back w
                 = Pylon.assemble E self (naive start) (naive finish) days_back
                     (fst scan) (snd scan)).
  { unfold Pylon.fetch_all_closed_tickets.
    unfold bind at 1. unfold now at 1. fold finish.
    unfold bind at 1. unfold lift at 1. rewrite Hd.
    unfold bind at 1. unfold lift at 1. rewrite Hs.
    unfold bind at 1. unfold Pylon.fetch_list, try_except.
    change {| log := log w; ticks := Datatypes.S (ticks w) |} with (ticked w).
    change {| wall := start; utcoffset := None |} with (naive start).
    change {| wall := finish; utcoffset := None |} with (naive finish).
    rewrite Hprimary, Hscan. reflexivity. }
  split; [exact Hrun |].
  split; [| split; [| split; [| split]]].
  - assert (Hdicts : all_dicts (fst scan)).
    { apply chunk_fold_dicts. constructor. }
    destruct (pylon_loop_returns E self (fst scan) Hdicts [] (snd scan))
      as (tickets & w3 & Hloop).
    destruct (pylon_assemble_Ret E self (naive start) (naive finish) days_back
                (fst scan) (snd scan) tickets w3 Hloop)
      as (result & Hret & _).
    exists result, (ticked w3). rewrite Hrun. exact Hret.
  - intro Hpos. apply chunk_windows_chain; [unfold start; nia | exact Hspan].
  - intros filtered w0 win y w2 Hraise.
    unfold chunk_step, bind. rewrite Hraise. reflexivity.
  - intros filtered w0 win chunk_issues closed w2 Hanswer Hclosed.
    unfold chunk_step, bind, lift. rewrite Hanswer, Hclosed. reflexivity.
  - intros c filtered w0 y w2 Hlt Hc Hraise.
    rewrite (scan_chunk_step E self start c filtered w0 Hmin Hlt Hc).
    unfold chunk_step, bind. cbn [fst snd]. rewrite Hraise. reflexivity.
Qed.

Lemma fallback_errors_are_contained_witness :
  exists result w',
    Pylon.fetch_all_closed_tickets (sample_env down) (Pylon.__init__ "token") 7 180
      initial_world = (Ret result, w').
Proof.
  refine (proj1 (proj2 (fallback_errors_are_contained (sample_env down)
                          (Pylon.__init__ "token") 7 180 initial_world
                          _ _ _ _ _ _ _))).
  - vm_compute. split; discriminate.
  - vm_compute. discriminate.
  - vm_compute. discriminate.
  - vm_compute. discriminate.
  - vm_compute. reflexivity.
Defined.

(** ** The filter on state and date *)

(** As long as every date the filter parses is naive, like the window
    bounds taken from [datetime.now()], the filter retains exactly the
    tickets described by [retained], in their order. *)
Lemma filter_on_naive_dates E start finish state issues :
  all_dicts issues ->
  Forall (fun issue =>
            forall d, Pylon.find_issue_date E issue Pylon.date_fields = Some d ->
                      utcoffset d = None) issues ->
  Pylon.filter_issues_by_date_and_state E issues (naive start) (naive finish)
    state
  = Ret (filter (retained E start finish state) issues).
Proof.
  intros Hd Hn. unfold Pylon.filter_issues_by_date_and_state.
  change (filter (retained E start finish state) issues)
    with ([] ++ filter (retained E start finish state) issues).
  generalize (@nil pyval) as acc.
  induction Hd as [| issue issues Hi Hd IH]; intro acc; simpl.
  - rewrite app_nil_r. reflexivity.
  - inversion Hn as [| ? ? Hnaive Hn']; subst.
    unfold Pylon.filter_issue at 1. unfold and_then at 1 2.
    destruct issue as [| | | | | kv]; try discriminate.
    unfold retained at 1. unfold issue_state. cbn [dict_get dict_lookup].
    destruct (eq_str match assoc "state" kv with
                     | Some v => v
                     | None => PNone
                     end state); cbn [negb andb].
    + destruct (Pylon.find_issue_date E (PDict kv) Pylon.date_fields)
        as [d |] eqn:Hdate.
      * specialize (Hnaive d eq_refl).
        unfold Pylon.in_window, datetime_le, and_then, naive.
        cbn [wall utcoffset]. rewrite Hnaive.
        destruct (start <=? wall d); cbn [andb].
        -- destruct (wall d <=? finish).
           ++ rewrite (IH Hn'). rewrite <- app_assoc. reflexivity.
           ++ apply (IH Hn').
        -- apply (IH Hn').
      * apply (IH Hn').
    + apply (IH Hn').
Qed.

(** A closed ticket whose first parseable date comes out aware makes the
    filter raise when the window bounds are naive. *)
Lemma filter_raises_on_aware_date E start finish state issue rest d off :
  is_dict issue = true ->
  eq_str (issue_state issue) state = true ->
  Pylon.find_issue_date E issue Pylon.date_fields
  = Some {| wall := d; utcoffset := Some off |} ->
  Pylon.filter_issues_by_date_and_state E (issue :: rest) (naive start)
    (naive finish) state
  = Exc "TypeError: can't compare offset-naive and offset-aware datetimes".
Proof.
  intros Hd Hstate Hdate. unfold Pylon.filter_issues_by_date_and_state.
  simpl. unfold Pylon.filter_issue, and_then.
  destruct issue as [| | | | | kv]; try discriminate.
  unfold issue_state in Hstate. cbn [dict_get dict_lookup] in *.
  rewrite Hstate. cbn [negb]. rewrite Hdate. reflexivity.
Qed.

(** C7: the code departs from the specification.  The ticket T4 is closed and its
    creation date, 2025-05-20T00:00:00Z, lies in the window of the last 30
    days before 2025-06-01T12:00:00.  The filter turns the trailing Z into
    an explicit UTC offset, the parsed date is therefore aware, and its
    comparison with the naive window bounds raises: the ticket is not
    retained and no list is returned. *)
Theorem filter_raises_on_utc_dates :
  Pylon.filter_issues_by_date_and_state (sample_env down)
    [ticket "T4" "closed" [("created_at", PStr "2025-05-20T00:00:00Z")]]
    (naive (sample_clock 0 - 30 * day)) (naive (sample_clock 0)) "closed"
  = Exc "TypeError: can't compare offset-naive and offset-aware datetimes"
  /\ Pylon.parse_date (sample_env down) (PStr "2025-05-20T00:00:00Z")
     = Some {| wall := 739390 * day; utcoffset := Some 0 |}
  /\ sample_clock 0 - 30 * day <= 739390 * day <= sample_clock 0.
Proof.
  split; [| split].
  - apply filter_raises_on_aware_date with (d := 739390 * day) (off := 0);
      reflexivity.
  - reflexivity.
  - vm_compute. split; discriminate.
Qed.

(** * Further properties of the exporters *)

(** ** What the clients send *)

Lemma sends_ret {A : Type} P (a : A) : sends P (ret a).
Proof. intro w. exists []. split; [reflexivity | constructor]. Qed.

Lemma sends_raise {A : Type} P (e : exn) : sends P (raise (A := A) e).
Proof. intro w. exists []. split; [reflexivity | constructor]. Qed.

Lemma sends_lift {A : Type} P (o : outcome A) : sends P (lift o).
Proof. intro w. exists []. split; [reflexivity | constructor]. Qed.

Lemma sends_now P E tz : sends P (now E tz).
Proof. intro w. exists []. split; [reflexivity | constructor]. Qed.

Lemma sends_send (P : request -> Prop) E r : P r -> sends P (send E r).
Proof.
  intros Hr w. exists [r]. unfold send. cbn [log].
  split; [| repeat constructor; exact Hr].
  destruct (server E (r :: log w)); reflexivity.
Qed.

Lemma sends_bind {A B : Type} P (m : M A) (k : A -> M B) :
  sends P m -> (forall a, sends P (k a)) -> sends P (bind m k).
Proof.
  intros Hm Hk w. unfold bind. destruct (Hm w) as (added & Hlog & Hall).
  destruct (m w) as [[a | e |] w1]; cbn [snd] in *.
  - destruct (Hk a w1) as (added' & Hlog' & Hall').
    exists (added' ++ added). rewrite Hlog', Hlog, app_assoc.
    split; [reflexivity | apply Forall_app; split; assumption].
  - exists added. split; assumption.
  - exists added. split; assumption.
Qed.

Lemma sends_try_except {A : Type} P (m : M A) (h : exn -> M A) :
  sends P m -> (forall e, sends P (h e)) -> sends P (try_except m h).
Proof.
  intros Hm Hh w. unfold try_except. destruct (Hm w) as (added & Hlog & Hall).
  destruct (m w) as [[a | e |] w1]; cbn [snd] in *.
  - exists added. split; assumption.
  - destruct (Hh e w1) as (added' & Hlog' & Hall').
    exists (added' ++ added). rewrite Hlog', Hlog, app_assoc.
    split; [reflexivity | apply Forall_app; split; assumption].
  - exists added. split; assumption.
Qed.

Lemma sends_if {A : Type} P (c : bool) (m1 m2 : M A) :
  sends P m1 -> sends P m2 -> sends P (if c then m1 else m2).
Proof. destruct c; intros; assumption. Qed.

Lemma sends_while_true {S A : Type} P (body : S -> M (S + A)) fuel :
  (forall s, sends P (body s)) -> forall s, sends P (while_true fuel body s).
Proof.
  intro Hb. induction fuel as [| fuel IH]; intros s w; simpl.
  - exists []. split; [reflexivity | constructor].
  - destruct (Hb s w) as (added & Hlog & Hall).
    destruct (body s w) as [[[s' | a] | e |] w1]; cbn [snd] in *;
      try (exists added; split; assumption).
    destruct (IH s' w1) as (added' & Hlog' & Hall').
    exists (added' ++ added). rewrite Hlog', Hlog, app_assoc.
    split; [reflexivity | apply Forall_app; split; assumption].
Qed.

Lemma sends_while_do {S : Type} P (cond : S -> outcome bool) (body : S -> M S)
    fuel :
  (forall s, sends P (body s)) -> forall s, sends P (while_do fuel cond body s).
Proof.
  intro Hb. induction fuel as [| fuel IH]; intro s; cbn [while_do].
  - apply sends_bind; [apply sends_lift | intros [|]].
    + intro w. exists []. split; [reflexivity | constructor].
    + apply sends_ret.
  - apply sends_bind; [apply sends_lift | intros [|]].
    + apply sends_bind; [apply Hb | exact IH].
    + apply sends_ret.
Qed.

Lemma sends_for_each {A S : Type} P (body : A -> S -> M S) l :
  (forall x s, sends P (body x s)) -> forall s, sends P (for_each body l s).
Proof.
  intro Hb. induction l as [| x l IH]; intro s; simpl.
  - apply sends_ret.
  - apply sends_bind; [apply Hb | exact IH].
Qed.

Create HintDb sending.

#[local] Hint Resolve sends_ret sends_raise sends_lift sends_now : sending.

Ltac prove_sends :=
  repeat first
    [ solve [auto with sending]
    | apply sends_bind; [| intro]
    | apply sends_try_except; [| intro]
    | apply sends_if
    | match goal with
      | |- sends _ (match ?x with _ => _ end) => destruct x
      end ].

Lemma sends_execute_query E self query variables :
  sends (linear_request self) (Linear._execute_query E self query variables).
Proof.
  unfold Linear._execute_query.
  apply sends_bind; [apply sends_send; repeat split | intro].
  prove_sends.
Qed.

Lemma sends_take_page P connection nodes acc :
  sends P (Linear.take_page connection nodes acc).
Proof. unfold Linear.take_page. prove_sends. Qed.

Lemma sends_fetch_closed_issues E self fuel days_back team_id :
  sends (linear_request self)
    (Linear.fetch_closed_issues E self fuel days_back team_id).
Proof.
  unfold Linear.fetch_closed_issues.
  apply sends_bind; [apply sends_now | intro].
  apply sends_bind; [apply sends_lift | intro].
  apply sends_bind; [apply sends_lift | intro].
  apply sends_while_true. intros [cursor acc].
  unfold Linear.fetch_closed_issues_body.
  apply sends_bind; [apply sends_execute_query | intro].
  apply sends_bind; [apply sends_lift | intro].
  apply sends_bind; [apply sends_lift | intro].
  apply sends_take_page.
Qed.

Lemma sends_fetch_issue_comments E self fuel issue_id :
  sends (linear_request self) (Linear.fetch_issue_comments E self fuel issue_id).
Proof.
  unfold Linear.fetch_issue_comments.
  apply sends_while_true. intros [cursor acc].
  unfold Linear.fetch_issue_comments_body.
  apply sends_bind; [apply sends_execute_query | intro].
  apply sends_bind; [apply sends_lift | intro].
  apply sends_if; [apply sends_ret |].
  apply sends_bind; [apply sends_lift | intro].
  apply sends_bind; [apply sends_lift | intro].
  apply sends_take_page.
Qed.

Lemma sends_linear_process_issue E self fuel issue acc :
  sends (linear_request self) (Linear.process_issue E self fuel issue acc).
Proof.
  unfold Linear.process_issue.
  apply sends_bind; [apply sends_lift | intro].
  apply sends_bind; [apply sends_lift | intro].
  apply sends_if; [apply sends_ret |].
  apply sends_try_except; [| intro; apply sends_ret].
  apply sends_bind; [apply sends_fetch_issue_comments | intro; apply sends_ret].
Qed.

(** X1: every request of a run of the Linear exporter is a POST to the
    GraphQL endpoint of the client and carries the client's two headers:
    the key the client was built with as [Authorization], unchanged, and the
    JSON content type.  Nothing is sent anywhere else, and nothing already
    in the log is touched. *)
Theorem linear_run_sends_only_to_its_endpoint :
  forall E api_key fuel days_back team_id w,
  exists added,
    log (snd (Linear.fetch_all_closed_tickets E (Linear.__init__ api_key) fuel
                days_back team_id w))
    = added ++ log w
    /\ Forall (fun r =>
                 req_method r = "POST"
                 /\ req_url r = "https://api.linear.app/graphql"
                 /\ req_headers r = [("Authorization", api_key);
                                     ("Content-Type", "application/json")])
         added.
Proof.
  intros E api_key fuel days_back team_id.
  change (sends (linear_request (Linear.__init__ api_key))
            (Linear.fetch_all_closed_tickets E (Linear.__init__ api_key) fuel
               days_back team_id)).
  unfold Linear.fetch_all_closed_tickets.
  apply sends_bind; [apply sends_now | intro].
  apply sends_bind; [apply sends_lift | intro].
  apply sends_bind; [apply sends_lift | intro].
  apply sends_bind; [apply sends_fetch_closed_issues | intro].
  unfold Linear.assemble.
  apply sends_bind.
  - apply sends_for_each. intros. apply sends_linear_process_issue.
  - intro. apply sends_bind; [apply sends_now | intro; apply sends_ret].
Qed.

Lemma prefix_append (s t : string) : String.prefix s (s +:+ t) = true.
Proof.
  induction s as [| a s IH]; simpl.
  - destruct t; reflexivity.
  - destruct (ascii_dec a a) as [_ | Hne]; [exact IH | contradiction].
Qed.

Lemma pylon_request_below (self : Pylon.PylonAPIClient) meth path params payload :
  meth = "GET" \/ meth = "POST" ->
  pylon_request self
    {| req_method := meth; req_url := Pylon.base_url self +:+ path;
       req_headers := Pylon.headers self; req_params := params;
       req_json := payload |}.
Proof.
  intro Hm. split; [exact Hm |]. split; [apply prefix_append | reflexivity].
Qed.

Lemma sends_get_issues_in_range E self start_time end_time :
  sends (pylon_request self)
    (Pylon.get_issues_in_range E self start_time end_time).
Proof.
  unfold Pylon.get_issues_in_range.
  apply sends_bind;
    [apply sends_send; apply pylon_request_below; left; reflexivity | intro].
  prove_sends.
Qed.

Lemma sends_search_closed_issues_only E self fuel :
  sends (pylon_request self) (Pylon.search_closed_issues_only E self fuel).
Proof.
  unfold Pylon.search_closed_issues_only.
  apply sends_while_true. intros [cursor acc]. unfold Pylon.search_body.
  apply sends_bind;
    [apply sends_send; apply pylon_request_below; right; reflexivity | intro].
  prove_sends.
Qed.

Lemma sends_get_issue_details E self issue_id :
  sends (pylon_request self) (Pylon.get_issue_details E self issue_id).
Proof.
  unfold Pylon.get_issue_details.
  apply sends_bind; [apply sends_send | intro; prove_sends].
  apply (pylon_request_below self "GET" ("/issues/" +:+ py_str issue_id)).
  left. reflexivity.
Qed.

Lemma sends_get_issue_messages E self issue_id :
  sends (pylon_request self) (Pylon.get_issue_messages E self issue_id).
Proof.
  unfold Pylon.get_issue_messages.
  apply sends_bind; [apply sends_send | intro; prove_sends].
  apply (pylon_request_below self "GET"
           ("/issues/" +:+ py_str issue_id +:+ "/messages")).
  left. reflexivity.
Qed.

Lemma sends_fetch_list E self fuel start_date end_date :
  sends (pylon_request self) (Pylon.fetch_list E self fuel start_date end_date).
Proof.
  unfold Pylon.fetch_list.
  apply sends_try_except.
  - unfold Pylon.search_and_filter.
    apply sends_bind; [apply sends_search_closed_issues_only | intro].
    apply sends_lift.
  - intro e. unfold Pylon.chunked_scan.
    apply sends_bind.
    + apply sends_while_do. intros [current_end filtered].
      unfold Pylon.scan_chunk.
      apply sends_bind; [apply sends_lift | intro].
      apply sends_bind; [apply sends_lift | intro].
      apply sends_bind; [apply sends_lift | intro].
      apply sends_bind; [| intro; apply sends_ret].
      apply sends_try_except; [| intro; apply sends_ret].
      apply sends_bind; [apply sends_get_issues_in_range | intro].
      apply sends_bind; [apply sends_lift | intro; apply sends_ret].
    + intros [current_end filtered]. apply sends_ret.
Qed.

Lemma sends_pylon_process_issue E self issue acc :
  sends (pylon_request self) (Pylon.process_issue E self issue acc).
Proof.
  unfold Pylon.process_issue.
  apply sends_bind; [apply sends_lift | intro].
  apply sends_if; [apply sends_ret |].
  apply sends_try_except; [| intro; apply sends_ret].
  apply sends_bind; [apply sends_get_issue_details | intro].
  apply sends_bind; [apply sends_get_issue_messages | intro].
  apply sends_bind; [apply sends_lift | intro; apply sends_ret].
Qed.

(** X2: every request of a run of the Pylon exporter, on the search path
    and on the chunk path alike, is a GET or a POST to a URL below
    https://api.usepylon.com and carries the client's three headers;
    requests already in the log are left as they are. *)
Theorem pylon_run_sends_only_below_its_base_url :
  forall E api_token fuel days_back w,
  exists added,
    log (snd (Pylon.fetch_all_closed_tickets E (Pylon.__init__ api_token) fuel
                days_back w))
    = added ++ log w
    /\ Forall (fun r =>
                 (req_method r = "GET" \/ req_method r = "POST")
                 /\ String.prefix "https://api.usepylon.com" (req_url r) = true
                 /\ req_headers r = [("Authorization", "Bearer <TOKEN>");
                                     ("Content-Type", "application/json");
                                     ("Accept", "application/json")])
         added.
Proof.
  intros E api_token fuel days_back.
  change (sends (pylon_request (Pylon.__init__ api_token))
            (Pylon.fetch_all_closed_tickets E (Pylon.__init__ api_token) fuel
               days_back)).
  unfold Pylon.fetch_all_closed_tickets.
  apply sends_bind; [apply sends_now | intro].
  apply sends_bind; [apply sends_lift | intro].
  apply sends_bind; [apply sends_lift | intro].
  apply sends_bind; [apply sends_fetch_list | intro].
  unfold Pylon.assemble.
  apply sends_bind.
  - apply sends_for_each. intros. apply sends_pylon_process_issue.
  - intro. apply sends_bind; [apply sends_now | intro; apply sends_ret].
Qed.

(** ** The Pylon run as a whole *)

Lemma filter_issue_dicts E start_date end_date state issue acc l :
  all_dicts acc ->
  Pylon.filter_issue E start_date end_date state issue acc = Ret l ->
  all_dicts l.
Proof.
  intros Hacc. unfold Pylon.filter_issue, and_then.
  destruct issue as [| | | | | kv]; try discriminate.
  cbn [dict_get].
  destruct (negb (eq_str match assoc "state" kv with
                         | Some v => v
                         | None => PNone
                         end state)).
  - intro H. injection H as <-. exact Hacc.
  - destruct (Pylon.find_issue_date E (PDict kv) Pylon.date_fields) as [d |].
    + destruct (Pylon.in_window start_date d end_date) as [[|] | x |];
        intro H; try discriminate; injection H as <-; [| exact Hacc].
      apply Forall_app. split; [exact Hacc | repeat constructor].
    + intro H. injection H as <-. exact Hacc.
Qed.

Lemma filter_loop_dicts E start_date end_date state issues :
  forall acc l,
    all_dicts acc ->
    Pylon.filter_loop E start_date end_date state issues acc = Ret l ->
    all_dicts l.
Proof.
  induction issues as [| issue issues IH]; intros acc l Hacc H; simpl in H.
  - injection H as <-. exact Hacc.
  - unfold and_then in H.
    destruct (Pylon.filter_issue E start_date end_date state issue acc)
      as [acc' | x |] eqn:Hstep; try discriminate.
    exact (IH acc' l (filter_issue_dicts E _ _ _ _ _ _ Hacc Hstep) H).
Qed.

(** The chunk loop with any budget: it ends with tickets only, or is
    still running; it raises nothing. *)
Lemma chunk_loop_outcome E self start fuel :
  30 * day <= start ->
  forall c filtered w,
    c <= datetime_max_wall ->
    all_dicts filtered ->
    match while_do fuel (fun st => datetime_gt (fst st) (naive start))
            (Pylon.scan_chunk E self (naive start)) (naive c, filtered) w with
    | (Ret st, _) => all_dicts (snd st)
    | (Exc _, _) => False
    | (OutOfFuel, _) => True
    end.
Proof.
  intro Hmin.
  assert (Hday : 0 < day) by (unfold day; lia).
  assert (Hcond : forall c (filtered : list pyval),
             datetime_gt (fst (naive c, filtered)) (naive start)
             = Ret (start <? c)).
  { intros c filtered. unfold datetime_gt, datetime_le, and_then, naive.
    cbn [fst wall utcoffset]. rewrite Z.ltb_antisym. reflexivity. }
  induction fuel as [| fuel IH]; intros c filtered w Hmax Hd.
  - cbn [while_do]. unfold bind, lift. rewrite Hcond.
    destruct (start <? c); [exact I | exact Hd].
  - cbn [while_do]. unfold bind at 1. unfold lift at 1. rewrite Hcond.
    destruct (Z.ltb_spec start c) as [Hlt | Hge]; [| exact Hd].
    unfold bind at 1.
    rewrite (scan_chunk_step E self start c filtered w Hmin Hlt Hmax).
    cbn [fst snd].
    apply IH; [lia |].
    apply chunk_step_dicts. exact Hd.
Qed.

Lemma chunked_scan_outcome E self fuel start finish w :
  30 * day <= start ->
  finish <= datetime_max_wall ->
  match Pylon.chunked_scan E self fuel (naive start) (naive finish) w with
  | (Ret filtered, _) => all_dicts filtered
  | (Exc _, _) => False
  | (OutOfFuel, _) => True
  end.
Proof.
  intros Hmin Hmax.
  pose proof (chunk_loop_outcome E self start fuel Hmin finish [] w Hmax
                (Forall_nil _)) as H.
  unfold Pylon.chunked_scan, bind.
  destruct (while_do fuel (fun st => datetime_gt (fst st) (naive start))
              (Pylon.scan_chunk E self (naive start)) (naive finish, []) w)
    as [[[c' filtered] | x |] w1]; cbn [snd] in H; [exact H | exact H | exact I].
Qed.

Lemma fetch_list_outcome E self fuel start finish w :
  30 * day <= start ->
  finish <= datetime_max_wall ->
  match Pylon.fetch_list E self fuel (naive start) (naive finish) w with
  | (Ret filtered, _) => all_dicts filtered
  | (Exc _, _) => False
  | (OutOfFuel, _) => True
  end.
Proof.
  intros Hmin Hmax. unfold Pylon.fetch_list, try_except.
  destruct (Pylon.search_and_filter E self fuel (naive start) (naive finish) w)
    as [[filtered | x |] w1] eqn:Hprimary.
  - unfold Pylon.search_and_filter, bind, lift in Hprimary.
    destruct (Pylon.search_closed_issues_only E self fuel w)
      as [[found | y |] w2]; try discriminate.
    destruct (Pylon.filter_issues_by_date_and_state E found (naive start)
                (naive finish) "closed") as [l | y |] eqn:Hf; try discriminate.
    injection Hprimary as <- _.
    exact (filter_loop_dicts E _ _ _ found [] l (Forall_nil _) Hf).
  - exact (chunked_scan_outcome E self fuel start finish w1 Hmin Hmax).
  - exact I.
Qed.

Lemma pylon_assemble_returns E self sd ed days issues w :
  all_dicts issues ->
  exists result w', Pylon.assemble E self sd ed days issues w = (Ret result, w').
Proof.
  intro Hd.
  destruct (pylon_loop_returns E self issues Hd [] w) as (tickets & w1 & Hloop).
  destruct (pylon_assemble_Ret E self sd ed days issues w tickets w1 Hloop)
    as (result & Hrun & _).
  exists result, (ticked w1). exact Hrun.
Qed.

(** X3: when the window starts at least 30 days after the first date
    Python can represent and ends within the range of its dates, a run of
    the Pylon exporter never raises, whatever the transport does: no failed
    request, malformed answer or unparseable date gets past its handlers.
    (The 30 days are what the date arithmetic of the first chunk of the scan
    needs; nearer to the first date that subtraction overflows outside any
    handler.)  The run returns a result whenever the search pagination comes
    to an end and the budget allows one turn per 30 days of the window. *)
Theorem pylon_run_never_raises :
  forall E self fuel days_back w,
    0 <= days_back <= 999999999 ->
    30 * day <= clock E (ticks w) - days_back * day ->
    clock E (ticks w) <= datetime_max_wall ->
    (forall x w', Pylon.fetch_all_closed_tickets E self fuel days_back w
                  <> (Exc x, w'))
    /\ (fst (Pylon.search_closed_issues_only E self fuel (ticked w))
        <> OutOfFuel ->
        days_back <= 30 * Z.of_nat fuel ->
        exists result w',
          Pylon.fetch_all_closed_tickets E self fuel days_back w
          = (Ret result, w')).
Proof.
  intros E self fuel days_back w Hdays Hmin Hmax.
  assert (Hday : 0 < day) by (unfold day; lia).
  set (finish := clock E (ticks w)) in *.
  set (start := finish - days_back * day) in *.
  assert (Hr : days_back_in_range E w days_back).
  { unfold days_back_in_range. fold finish. fold start. lia. }
  destruct (days_back_in_range_sub None Hr) as [Hd Hs].
  fold finish in Hs. fold start in Hs.
  assert (Hrun : Pylon.fetch_all_closed_tickets E self fuel days_back w
                 = bind (Pylon.fetch_list E self fuel (naive start)
                           (naive finish))
                     (Pylon.assemble E self (naive start) (naive finish)
                        days_back) (ticked w)).
  { unfold Pylon.fetch_all_closed_tickets.
    unfold bind at 1. unfold now at 1. fold finish.
    unfold bind at 1. unfold lift at 1. rewrite Hd.
    unfold bind at 1. unfold lift at 1. rewrite Hs. reflexivity. }
  rewrite Hrun. clear Hrun.
  pose proof (fetch_list_outcome E self fuel start finish (ticked w) Hmin Hmax)
    as Hlist.
  split.
  - intros x w'. unfold bind.
    destruct (Pylon.fetch_list E self fuel (naive start) (naive finish)
                (ticked w)) as [[filtered | y |] w1];
      [| contradiction | discriminate].
    destruct (pylon_assemble_returns E self (naive start) (naive finish)
                days_back filtered w1 Hlist) as (result & w2 & ->).
    discriminate.
  - intros Hsearch Hfuel.
    assert (Hspan : finish - start <= Z.of_nat fuel * (30 * day)).
    { unfold start. nia. }
    unfold bind.
    destruct (Pylon.fetch_list E self fuel (naive start) (naive finish)
                (ticked w)) as [[filtered | y |] w1] eqn:Hfetch;
      [| contradiction |].
    + exact (pylon_assemble_returns E self (naive start) (naive finish)
               days_back filtered w1 Hlist).
    + exfalso. unfold Pylon.fetch_list, try_except in Hfetch.
      destruct (Pylon.search_and_filter E self fuel (naive start)
                  (naive finish) (ticked w)) as [[l | y |] w2] eqn:Hprimary.
      * discriminate.
      * rewrite (chunked_scan_windows E self fuel start finish w2 Hmin Hmax
                   Hspan) in Hfetch. discriminate.
      * unfold Pylon.search_and_filter, bind, lift in Hprimary.
        destruct (Pylon.search_closed_issues_only E self fuel (ticked w))
          as [[found | y |] w3]; cbn [fst] in Hsearch.
        -- destruct (Pylon.filter_issues_by_date_and_state E found
                       (naive start) (naive finish) "closed") as [l | y |] eqn:Hf;
             try discriminate.
           clear - Hf. unfold Pylon.filter_issues_by_date_and_state in Hf.
           revert Hf. generalize (@nil pyval).
           induction found as [| i found IH]; intros acc Hf; simpl in Hf;
             [discriminate |].
           unfold and_then in Hf.
           destruct (Pylon.filter_issue E (naive start) (naive finish)
                       "closed" i acc) as [acc' | y |] eqn:Hstep;
             try discriminate.
           ++ exact (IH acc' Hf).
           ++ clear - Hstep. unfold Pylon.filter_issue, and_then in Hstep.
              destruct i as [| | | | | kv]; try discriminate.
              cbn [dict_get] in Hstep.
              destruct (negb _); try discriminate.
              destruct (Pylon.find_issue_date _ _ _) as [d |]; try discriminate.
              unfold Pylon.in_window, and_then, datetime_le in Hstep.
              cbn [utcoffset naive] in Hstep.
              destruct (utcoffset d); try discriminate.
              destruct (wall (naive start) <=? wall d); discriminate.
        -- discriminate.
        -- apply Hsearch. reflexivity.
Qed.

Lemma pylon_run_never_raises_witness :
  exists result w',
    Pylon.fetch_all_closed_tickets (sample_env pylon_site)
      (Pylon.__init__ "token") 7 180 initial_world = (Ret result, w').
Proof.
  refine (proj2 (pylon_run_never_raises (sample_env pylon_site)
                   (Pylon.__init__ "token") 7 180 initial_world _ _ _) _ _).
  - vm_compute. split; discriminate.
  - vm_compute. discriminate.
  - vm_compute. discriminate.
  - vm_compute. discriminate.
  - vm_compute. discriminate.
Defined.

(** ** The Linear run as a whole *)

(** X4: in the Linear exporter a failure of the issue list is fatal.
    When the reply to any page request of the list is a failure (no
    connection, a status other than 200, a body that is not JSON, a GraphQL
    errors entry), after however many good pages, the whole run raises that
    error: the pages already fetched are given up, no comment is requested,
    and the run has sent exactly one request per page served. *)
Theorem linear_list_failure_is_fatal :
  forall E self fuel days_back team_id w pages r x more,
    days_back_in_range E w days_back ->
    days_back_in_range E (ticked w) days_back ->
    forallb goes_on pages = true ->
    graphql_failure r = Some x ->
    serves E w (map issues_reply pages ++ r :: more) ->
    (List.length pages < fuel)%nat ->
    exists w',
      Linear.fetch_all_closed_tickets E self fuel days_back team_id w
      = (Exc x, w')
      /\ List.length (log w')
         = (List.length (log w) + List.length pages + 1)%nat.
Proof.
  intros E self fuel days_back team_id w pages r x more Hr Hr' Hall Hfail Hs Hf.
  destruct (days_back_in_range_sub (Some 0) Hr) as [Hd Hsub].
  assert (Hok : ending_ok (Failure r) = true).
  { simpl. rewrite Hfail. reflexivity. }
  destruct (@fetch_closed_issues_pages E self fuel days_back team_id (ticked w)
              pages (Failure r) more Hr' Hall Hok Hs Hf)
    as (w' & Hrun & Hlen & _).
  exists w'. split; [| exact Hlen].
  unfold Linear.fetch_all_closed_tickets.
  unfold bind at 1. unfold now at 1.
  unfold bind at 1. unfold lift at 1. rewrite Hd.
  unfold bind at 1. unfold lift at 1. rewrite Hsub.
  unfold bind at 1.
  change {| log := log w; ticks := Datatypes.S (ticks w) |} with (ticked w).
  rewrite Hrun. simpl. rewrite Hfail. reflexivity.
Qed.

Lemma linear_list_failure_is_fatal_witness :
  exists w',
    Linear.fetch_all_closed_tickets
      (sample_env
         (scripted (map issues_reply linear_pages_sample
                    ++ [failure 503 "unavailable"]) (failure 500 "")))
      (Linear.__init__ "key") 5 180 None initial_world
    = (Exc "API request failed: 503 - unavailable", w')
    /\ List.length (log w') = 3%nat.
Proof.
  refine (linear_list_failure_is_fatal _ (Linear.__init__ "key") 5 180 None
            initial_world linear_pages_sample (failure 503 "unavailable")
            "API request failed: 503 - unavailable" [] _ _ eq_refl eq_refl _ _).
  - apply sample_days_back_in_range.
  - unfold days_back_in_range. vm_compute. intuition discriminate.
  - apply serves_scripted.
  - simpl. lia.
Defined.

(** ** The records of a result *)

Lemma linear_process_result E self fuel issue acc w tickets w' :
  Linear.process_issue E self fuel issue acc w = (Ret tickets, w') ->
  (with_id issue = false /\ tickets = acc)
  \/ (with_id issue = true
      /\ exists record, tickets = acc ++ [record] /\ linear_record issue record).
Proof.
  unfold Linear.process_issue, bind, lift, try_except, ret, with_id, issue_id.
  destruct issue as [| | | | | kv]; try discriminate.
  cbn [dict_get dict_lookup].
  destruct (truthy match assoc "id" kv with
                   | Some v => v
                   | None => PNone
                   end); cbn [negb].
  - destruct (Linear.fetch_issue_comments E self fuel _ w)
      as [[comments | x |] w1]; intro H; try discriminate;
      injection H as <- _; right; (split; [reflexivity |]);
      eexists; (split; [reflexivity |]).
    + left. eexists. reflexivity.
    + right. eexists. reflexivity.
  - intro H. injection H as <- _. left. split; reflexivity.
Qed.

Lemma linear_loop_records E self fuel issues :
  forall acc w tickets w',
    for_each (Linear.process_issue E self fuel) issues acc w = (Ret tickets, w') ->
    exists records,
      tickets = acc ++ records
      /\ Forall2 linear_record (filter with_id issues) records.
Proof.
  induction issues as [| issue issues IH]; intros acc w tickets w' H; simpl in H.
  - unfold ret in H. injection H as <- _. exists [].
    split; [symmetry; apply app_nil_r | constructor].
  - bind_inv H. destruct (IH _ _ _ _ H) as (records & -> & Hrec).
    destruct (linear_process_result E self fuel issue acc w a w0 Hm)
      as [[Hid ->] | [Hid (record & -> & Hr)]]; simpl; rewrite Hid.
    + exists records. split; [reflexivity | exact Hrec].
    + exists (record :: records). rewrite <- app_assoc.
      split; [reflexivity | constructor; assumption].
Qed.

Lemma linear_record_issue issue record :
  linear_record issue record -> dict_lookup record "issue" = Some issue.
Proof. intros [[comments ->] | [e ->]]; reflexivity. Qed.

(** X5: the records of a Linear result follow the fetched list: there is
    exactly one record for each ticket that has an identifier, in the order
    of the list, holding that very ticket as its issue, whether its comment
    fetch went well or raised. *)
Theorem linear_records_follow_the_list :
  forall E self fuel sd ed days issues w result w',
    Linear.assemble E self fuel sd ed days issues w = (Ret result, w') ->
    exists tickets,
      lookup_path result ["tickets"] = Some (PList tickets)
      /\ map (fun record => dict_lookup record "issue") tickets
         = map Some (filter with_id issues).
Proof.
  intros E self fuel sd ed days issues w result w' H.
  apply linear_assemble_inv in H. destruct H as (tickets & w1 & Hrun & Hlook).
  exists tickets. split; [exact Hlook |].
  destruct (linear_loop_records E self fuel issues [] w tickets w1 Hrun)
    as (records & -> & Hrec).
  simpl. clear Hlook Hrun.
  generalize dependent (filter with_id issues). intros l Hrec.
  induction Hrec as [| issue record l records Hr _ IH]; [reflexivity |].
  simpl. rewrite (linear_record_issue issue record Hr), IH. reflexivity.
Qed.

Lemma linear_records_follow_the_list_witness :
  exists result w' tickets,
    Linear.assemble linear_site (Linear.__init__ "key") 5
      (mk_datetime 0 (Some 0)) (mk_datetime 0 (Some 0)) 180
      [L1; L2; no_id; L3] initial_world = (Ret result, w')
    /\ lookup_path result ["tickets"] = Some (PList tickets)
    /\ map (fun record => dict_lookup record "issue") tickets
       = [Some L1; Some L2; Some L3].
Proof.
  eexists. eexists.
  match goal with |- exists t, ?A /\ _ => assert (H : A) end.
  { vm_compute. reflexivity. }
  destruct (linear_records_follow_the_list _ _ _ _ _ _ _ _ _ _ H)
    as (tickets & Hlook & Hmap).
  exists tickets. split; [exact H |]. split; [exact Hlook | exact Hmap].
Defined.

(** X6: in every record of a Linear result the count is the length of the
    comment list, and a record that carries an error marker has an empty
    comment list and the count 0. *)
Theorem linear_record_counts :
  forall E self fuel sd ed days issues w result w',
    Linear.assemble E self fuel sd ed days issues w = (Ret result, w') ->
    exists tickets,
      lookup_path result ["tickets"] = Some (PList tickets)
      /\ Forall (fun record =>
                   exists comments,
                     dict_lookup record "comments" = Some (PList comments)
                     /\ dict_lookup record "total_comments"
                        = Some (PInt (Z.of_nat (List.length comments)))
                     /\ (dict_lookup record "error" <> None -> comments = []))
           tickets.
Proof.
  intros E self fuel sd ed days issues w result w' H.
  apply linear_assemble_inv in H. destruct H as (tickets & w1 & Hrun & Hlook).
  exists tickets. split; [exact Hlook |].
  destruct (linear_loop_records E self fuel issues [] w tickets w1 Hrun)
    as (records & -> & Hrec).
  simpl. clear Hlook Hrun.
  generalize dependent (filter with_id issues). intros l Hrec.
  induction Hrec as [| issue record l records Hr _ IH]; constructor.
  - destruct Hr as [[comments ->] | [e ->]].
    + exists comments. repeat split. intro Herr. exfalso. apply Herr.
      reflexivity.
    + exists []. repeat split.
  - exact IH.
Qed.

Lemma linear_record_counts_witness :
  exists result w' tickets,
    Linear.assemble linear_site (Linear.__init__ "key") 5
      (mk_datetime 0 (Some 0)) (mk_datetime 0 (Some 0)) 180
      [L1; L2; no_id; L3] initial_world = (Ret result, w')
    /\ lookup_path result ["tickets"] = Some (PList tickets)
    /\ List.length tickets = 3%nat.
Proof.
  eexists. eexists.
  match goal with |- exists t, ?A /\ _ => assert (H : A) end.
  { vm_compute. reflexivity. }
  destruct (linear_record_counts _ _ _ _ _ _ _ _ _ _ H)
    as (tickets & Hlook & Hall).
  exists tickets. split; [exact H |]. split; [exact Hlook |].
  clear H Hall. vm_compute in Hlook.
  injection Hlook as <-. reflexivity.
Defined.

Lemma pylon_process_result E self issue acc w tickets w' :
  Pylon.process_issue E self issue acc w = (Ret tickets, w') ->
  tickets = acc
  \/ (with_id issue = true
      /\ exists record, tickets = acc ++ [record] /\ pylon_record issue record).
Proof.
  unfold Pylon.process_issue, bind, lift, try_except, ret, with_id, issue_id.
  destruct issue as [| | | | | kv]; try discriminate.
  cbn [dict_get dict_lookup].
  destruct (truthy match assoc "id" kv with
                   | Some v => v
                   | None => PNone
                   end); cbn [negb].
  - destruct (Pylon.get_issue_details E self _ w) as [[d | x |] w1];
      try (intro H; injection H as <- _; left; reflexivity);
      try discriminate.
    destruct (Pylon.get_issue_messages E self _ w1) as [[m | x |] w2];
      try (intro H; injection H as <- _; left; reflexivity);
      try discriminate.
    destruct (py_len m) as [n | x |] eqn:Hlen;
      try (intro H; injection H as <- _; left; reflexivity);
      try discriminate.
    intro H. injection H as <- _. right. split; [reflexivity |].
    eexists. split; [reflexivity |].
    exists d, m, n. split; [reflexivity | exact Hlen].
  - intro H. injection H as <- _. left. reflexivity.
Qed.

Lemma pylon_loop_records E self issues :
  forall acc w tickets w',
    for_each (Pylon.process_issue E self) issues acc w = (Ret tickets, w') ->
    exists kept records,
      tickets = acc ++ records
      /\ subsequence kept (filter with_id issues)
      /\ Forall2 pylon_record kept records.
Proof.
  induction issues as [| issue issues IH]; intros acc w tickets w' H; simpl in H.
  - unfold ret in H. injection H as <- _. exists [], [].
    split; [symmetry; apply app_nil_r | split; constructor].
  - bind_inv H. destruct (IH _ _ _ _ H) as (kept & records & -> & Hsub & Hrec).
    destruct (pylon_process_result E self issue acc w a w0 Hm)
      as [-> | [Hid (record & -> & Hr)]]; simpl.
    + exists kept, records. split; [reflexivity |]. split; [| exact Hrec].
      destruct (with_id issue); [constructor |]; exact Hsub.
    + rewrite Hid. exists (issue :: kept), (record :: records).
      rewrite <- app_assoc. split; [reflexivity |].
      split; constructor; assumption.
Qed.

(** X7: the records of a Pylon result are in the order of the filtered
    list and stem from its tickets with an identifier, each at most once per
    occurrence: the summaries of the records are the summaries of those
    tickets with some left out (the ones whose fetch raised).  In every
    record the count is the length of the message value it holds. *)
Theorem pylon_records_follow_the_list :
  forall E self sd ed days issues w result w',
    Pylon.assemble E self sd ed days issues w = (Ret result, w') ->
    exists tickets,
      lookup_path result ["tickets"] = Some (PList tickets)
      /\ subsequence (map (fun record => dict_lookup record "issue_summary")
                        tickets)
           (map Some (filter with_id issues))
      /\ Forall (fun record =>
                   exists messages total,
                     dict_lookup record "messages" = Some messages
                     /\ dict_lookup record "total_messages" = Some total
                     /\ py_len messages = Ret total) tickets.
Proof.
  intros E self sd ed days issues w result w' H.
  apply pylon_assemble_inv in H. destruct H as (tickets & w1 & Hrun & Hlook).
  exists tickets. split; [exact Hlook |].
  destruct (pylon_loop_records E self issues [] w tickets w1 Hrun)
    as (kept & records & -> & Hsub & Hrec).
  simpl. clear Hlook Hrun. split.
  - assert (Hmap : map (fun record => dict_lookup record "issue_summary")
                     records = map Some kept).
    { clear Hsub. induction Hrec as [| issue record l records' Hr _ IH];
        [reflexivity |].
      destruct Hr as (d & m & n & -> & _). simpl. rewrite IH. reflexivity. }
    rewrite Hmap. clear Hmap Hrec.
    induction Hsub; simpl; constructor; assumption.
  - clear Hsub. induction Hrec as [| issue record l records' Hr _ IH];
      constructor; [| exact IH].
    destruct Hr as (d & m & n & -> & Hlen). exists m, n.
    repeat split. exact Hlen.
Qed.

Lemma pylon_records_follow_the_list_witness :
  exists result w' tickets,
    Pylon.assemble (sample_env pylon_site) (Pylon.__init__ "token")
      (mk_datetime 0 None) (mk_datetime 0 None) 30
      [ticket "T3" "closed" []; PDict [("state", PStr "closed")];
       ticket "T4" "closed" []] initial_world = (Ret result, w')
    /\ lookup_path result ["tickets"] = Some (PList tickets)
    /\ map (fun record => dict_lookup record "issue_summary") tickets
       = [Some (ticket "T4" "closed" [])].
Proof.
  eexists. eexists.
  match goal with |- exists t, ?A /\ _ => assert (H : A) end.
  { vm_compute. reflexivity. }
  destruct (pylon_records_follow_the_list _ _ _ _ _ _ _ _ _ H)
    as (tickets & Hlook & _ & _).
  exists tickets. split; [exact H |]. split; [exact Hlook |].
  clear H. vm_compute in Hlook.
  injection Hlook as <-. reflexivity.
Defined.

(** ** The cursors of the page requests *)

Lemma still_ret {A : Type} (a : A) : still (ret a).
Proof. intro w. reflexivity. Qed.

Lemma still_raise {A : Type} (e : exn) : still (raise (A := A) e).
Proof. intro w. reflexivity. Qed.

Lemma still_lift {A : Type} (o : outcome A) : still (lift o).
Proof. intro w. reflexivity. Qed.

Lemma still_bind {A B : Type} (m : M A) (k : A -> M B) :
  still m -> (forall a, still (k a)) -> still (bind m k).
Proof.
  intros Hm Hk w. unfold bind. specialize (Hm w).
  destruct (m w) as [[a | e |] w1]; cbn [snd] in *; subst; [apply Hk | |];
    reflexivity.
Qed.

Lemma still_if {A : Type} (c : bool) (m1 m2 : M A) :
  still m1 -> still m2 -> still (if c then m1 else m2).
Proof. destruct c; intros; assumption. Qed.

Create HintDb stillness.

#[local] Hint Resolve still_ret still_raise still_lift : stillness.

Ltac prove_still :=
  repeat first
    [ solve [auto with stillness]
    | apply still_bind; [| intro]
    | apply still_if
    | match goal with
      | |- still (match ?x with _ => _ end) => destruct x
      end ].

(** After a request, whatever is done without sending leaves the world
    of the request. *)
Lemma send_then_still {A : Type} E r (k : response -> M A) w :
  (forall a, still (k a)) -> snd (bind (send E r) k w) = sent r w.
Proof.
  intro Hk. unfold bind, send. cbn [log].
  destruct (server E (r :: log w)) as [x | a]; [reflexivity |].
  apply Hk.
Qed.

Lemma still_take_page connection nodes acc :
  still (Linear.take_page connection nodes acc).
Proof. unfold Linear.take_page. prove_still. Qed.

Lemma bind_world {A B : Type} (m : M A) (k : A -> M B) w w1 :
  snd (m w) = w1 -> (forall a, still (k a)) -> snd (bind m k w) = w1.
Proof.
  intros Hm Hk. unfold bind.
  destruct (m w) as [[a | e |] w2]; cbn [snd] in *; subst;
    [apply Hk | |]; reflexivity.
Qed.

Lemma execute_query_world E self query variables w :
  snd (Linear._execute_query E self query variables w)
  = sent {| req_method := "POST"; req_url := Linear.base_url self;
            req_headers := Linear.headers self; req_params := [];
            req_json :=
              PDict (("query", PStr query)
                     :: (if truthy variables then [("variables", variables)]
                         else [])) |} w.
Proof.
  unfold Linear._execute_query. apply send_then_still. intro response.
  prove_still.
Qed.

Lemma issues_turn_world E self filter cursor acc w :
  snd (Linear.fetch_closed_issues_body E self filter (cursor, acc) w)
  = sent (issues_request self filter cursor) w.
Proof.
  unfold Linear.fetch_closed_issues_body.
  apply bind_world; [apply execute_query_world | intro data].
  apply still_bind; [apply still_lift | intro issues_data].
  apply still_bind; [apply still_lift | intro nodes].
  apply still_take_page.
Qed.

Lemma search_turn_world E self cursor acc w :
  snd (Pylon.search_body E self (cursor, acc) w)
  = sent (search_request self cursor) w.
Proof.
  unfold Pylon.search_body. apply send_then_still. intro response.
  prove_still.
Qed.

Section Cursors.
Variables (E : env) (P A : Type).
Variable body : pyval * list pyval -> M ((pyval * list pyval) + A).
Variable request_of : pyval -> request.
Variables (reply_of : P -> reply) (more_follows : P -> bool).
Variables (items_of : P -> list pyval) (cursor_of : P -> pyval).
Variables (Ending : Type) (last_reply : Ending -> reply).
Variable valid : Ending -> bool.
Variable result : list pyval -> Ending -> outcome A.

Hypothesis turn_goes_on :
  forall p cursor acc w,
    next_reply E w (reply_of p) ->
    more_follows p = true ->
    exists req,
      body (cursor, acc) w
      = (Ret (inl (cursor_of p, acc ++ items_of p)), sent req w).

Hypothesis turn_ends :
  forall e cursor acc w,
    next_reply E w (last_reply e) ->
    valid e = true ->
    ends_with body (cursor, acc) w (result acc e).

Hypothesis turn_world :
  forall cursor acc w,
    snd (body (cursor, acc) w) = sent (request_of cursor) w.

(** The requests of a pagination over pages that go on and an ending:
    the first carries the initial cursor, each later one the cursor of the
    page before it. *)
Lemma pages_log pages e more :
  forall cursor acc w fuel,
    forallb more_follows pages = true ->
    valid e = true ->
    serves E w (map reply_of pages ++ last_reply e :: more) ->
    (List.length pages < fuel)%nat ->
    log (snd (while_true fuel body (cursor, acc) w))
    = rev (map request_of (cursor :: map cursor_of pages)) ++ log w.
Proof.
  induction pages as [| p pages IH]; intros cursor acc w fuel Hall Hok Hs Hfuel;
    (destruct fuel as [| fuel]; [simpl in Hfuel; lia |]).
  - assert (Hnext : next_reply E w (last_reply e)).
    { intro req. exact (@serves_next E w _ _ req Hs). }
    destruct (turn_ends e cursor acc w Hnext Hok) as [req Hend].
    pose proof (turn_world cursor acc w) as Hw.
    simpl while_true.
    destruct (result acc e) as [a | x |]; [| | contradiction];
      rewrite Hend in Hw |- *; cbn [snd] in Hw |- *; rewrite Hw; reflexivity.
  - simpl in Hall. apply andb_true_iff in Hall. destruct Hall as [Hp Hall].
    assert (Hnext : next_reply E w (reply_of p)).
    { intro req. exact (@serves_next E w _ _ req Hs). }
    destruct (turn_goes_on p cursor acc w Hnext Hp) as [req Hb].
    pose proof (turn_world cursor acc w) as Hw.
    rewrite Hb in Hw. cbn [snd] in Hw.
    rewrite (@while_true_continue _ _ body fuel _ _ _ _ Hb).
    rewrite (IH (cursor_of p) (acc ++ items_of p) (sent req w) fuel Hall Hok
               (@serves_sent E w _ _ req Hs) ltac:(simpl in Hfuel; lia)).
    rewrite Hw. cbn [log sent map rev]. rewrite <- !app_assoc. reflexivity.
Qed.
End Cursors.

(** X8: the issue pagination of the Linear client threads the cursor.
    Over pages that go on and an ending page, it sends one request per
    page, all with the same filter (built from the cutoff date, the state
    restriction and the team of the call); the first carries no [after]
    variable, each later one carries as [after] the end cursor of the page
    before it. *)
Theorem linear_pagination_threads_the_cursor :
  forall E self fuel days_back team_id w pages e more,
    days_back_in_range E w days_back ->
    forallb goes_on pages = true ->
    ending_ok e = true ->
    serves E w (map issues_reply pages ++ ending_reply issues_page e :: more) ->
    (List.length pages < fuel)%nat ->
    let cutoff := {| wall := clock E (ticks w) - days_back * day;
                     utcoffset := Some 0 |} in
    let filter := Linear.issue_filter (strftime E cutoff "%Y-%m-%dT%H:%M:%SZ")
                    (Linear.fetch_all_states E) team_id in
    log (snd (Linear.fetch_closed_issues E self fuel days_back team_id w))
    = rev (map (issues_request self filter) (PNone :: map snd pages)) ++ log w.
Proof.
  intros E self fuel days_back team_id w pages e more Hr Hall Hok Hs Hf
    cutoff filter.
  destruct (days_back_in_range_sub (Some 0) Hr) as [Hd Hsub].
  assert (Hloop : Linear.fetch_closed_issues E self fuel days_back team_id w
                  = while_true fuel
                      (Linear.fetch_closed_issues_body E self filter)
                      (PNone, []) (ticked w)).
  { unfold Linear.fetch_closed_issues, bind, now, lift.
    rewrite Hd, Hsub. reflexivity. }
  rewrite Hloop.
  exact (pages_log E _ _ (Linear.fetch_closed_issues_body E self filter)
           (issues_request self filter) issues_reply goes_on page_items snd
           _ (ending_reply issues_page) ending_ok ending_outcome
           (@issues_page_goes_on E self filter)
           (fun e cursor acc w => @issues_turn_ends E self filter cursor acc w e)
           (issues_turn_world E self filter)
           pages e more PNone [] (ticked w) fuel Hall Hok Hs Hf).
Qed.

Lemma linear_pagination_threads_the_cursor_witness :
  map (fun r => lookup_path (req_json r) ["variables"; "after"])
      (rev (log (snd (Linear.fetch_closed_issues
                        (sample_env
                           (scripted
                              ([issues_page (PList [L1]) (PBool true)
                                  (PStr "cursor-1");
                                issues_page (PList [L2]) (PBool true)
                                  (PStr "cursor-2")]
                               ++ [issues_page (PList [L3]) (PBool false) PNone])
                              (failure 500 "")))
                        (Linear.__init__ "key") 5 180 None initial_world))))
  = [None; Some (PStr "cursor-1"); Some (PStr "cursor-2")].
Proof.
  rewrite (linear_pagination_threads_the_cursor
             (sample_env
                (scripted
                   ([issues_page (PList [L1]) (PBool true) (PStr "cursor-1");
                     issues_page (PList [L2]) (PBool true) (PStr "cursor-2")]
                    ++ [issues_page (PList [L3]) (PBool false) PNone])
                   (failure 500 "")))
             (Linear.__init__ "key") 5 180 None initial_world
             [([L1], PBool true, PStr "cursor-1");
              ([L2], PBool true, PStr "cursor-2")]
             (LastPage [L3] (PBool false) PNone) []
             (sample_days_back_in_range _) eq_refl eq_refl
             (serves_scripted _ _ _ _ _ _ _) ltac:(simpl; lia)).
  reflexivity.
Defined.

(** X9: the search pagination of the Pylon client threads the cursor in
    the same way: one request per page, the first with the bare search
    payload (state equals closed, limit 100), each later one with the
    cursor of the page before it added to that payload. *)
Theorem pylon_search_threads_the_cursor :
  forall E self fuel w pages e more,
    forallb search_goes_on pages = true ->
    search_ending_ok e = true ->
    serves E w (map search_reply pages ++ search_ending_reply e :: more) ->
    (List.length pages < fuel)%nat ->
    log (snd (Pylon.search_closed_issues_only E self fuel w))
    = rev (map (search_request self) (PNone :: map snd pages)) ++ log w.
Proof.
  intros E self fuel w pages e more Hall Hok Hs Hf.
  exact (pages_log E _ _ (Pylon.search_body E self) (search_request self)
           search_reply search_goes_on fst snd
           _ search_ending_reply search_ending_ok search_ending_outcome
           (@search_page_goes_on E self)
           (fun e cursor acc w => @search_turn_ends E self cursor acc w e)
           (search_turn_world E self)
           pages e more PNone [] w fuel Hall Hok Hs Hf).
Qed.

Lemma pylon_search_threads_the_cursor_witness :
  map (fun r => lookup_path (req_json r) ["cursor"])
      (rev (log (snd (Pylon.search_closed_issues_only
                        (sample_env
                           (scripted
                              (map search_reply pylon_pages_sample
                               ++ [search_page (PList []) PNone])
                              (failure 500 "")))
                        (Pylon.__init__ "token") 5 initial_world))))
  = [None; Some (PStr "cursor-1"); Some (PStr "cursor-1")].
Proof.
  rewrite (pylon_search_threads_the_cursor
             (sample_env
                (scripted (map search_reply pylon_pages_sample
                           ++ [search_page (PList []) PNone])
                   (failure 500 "")))
             (Pylon.__init__ "token") 5 initial_world pylon_pages_sample
             (SearchEmptyPage PNone) [] eq_refl eq_refl
             (serves_scripted _ _ _ _ _ _ _) ltac:(simpl; lia)).
  reflexivity.
Defined.

(** ** The filter of the Pylon exporter, whatever the dates *)

Lemma filter_loop_keeps E start_date end_date state issues :
  forall acc kept,
    Pylon.filter_loop E start_date end_date state issues acc = Ret kept ->
    exists added,
      kept = acc ++ added
      /\ subsequence added issues
      /\ Forall (kept_rightly E start_date end_date state) added.
Proof.
  induction issues as [| issue issues IH]; intros acc kept H; simpl in H.
  - injection H as <-. exists []. rewrite app_nil_r.
    repeat split; constructor.
  - unfold and_then at 1 in H.
    destruct (Pylon.filter_issue E start_date end_date state issue acc)
      as [acc' | e |] eqn:Hone; try discriminate.
    destruct (IH acc' kept H) as (added & -> & Hsub & Hall).
    unfold Pylon.filter_issue, and_then in Hone.
    destruct issue as [| | | | | kv]; try discriminate.
    cbn [dict_get] in Hone.
    destruct (eq_str match assoc "state" kv with
                     | Some v => v
                     | None => PNone
                     end state) eqn:Hstate; cbn [negb] in Hone.
    + destruct (Pylon.find_issue_date E (PDict kv) Pylon.date_fields)
        as [d |] eqn:Hdate.
      * destruct (Pylon.in_window start_date d end_date) as [[|] | |] eqn:Hin;
          try discriminate; injection Hone as <-.
        -- exists (PDict kv :: added). rewrite <- app_assoc.
           repeat split; [constructor; exact Hsub |].
           constructor; [| exact Hall].
           split; [exact Hstate | exists d; split; assumption].
        -- exists added. repeat split; [constructor; exact Hsub | exact Hall].
      * injection Hone as <-.
        exists added. repeat split; [constructor; exact Hsub | exact Hall].
    + injection Hone as <-.
      exists added. repeat split; [constructor; exact Hsub | exact Hall].
Qed.

(** X10: whenever the Pylon filter returns a list, for any window bounds
    and any dates, the list is the input with some tickets left out, in the
    input's order, and every ticket in it has the state asked for and a
    first parseable date (among created_at, updated_at, closed_at, in this
    order) that compared as inside the window. *)
Theorem filter_keeps_order_state_and_window :
  forall E issues start_date end_date state kept,
    Pylon.filter_issues_by_date_and_state E issues start_date end_date state
    = Ret kept ->
    subsequence kept issues
    /\ Forall (kept_rightly E start_date end_date state) kept.
Proof.
  intros E issues start_date end_date state kept H.
  destruct (filter_loop_keeps E start_date end_date state issues [] kept H)
    as (added & -> & Hsub & Hall).
  split; assumption.
Qed.

Lemma filter_keeps_order_state_and_window_witness :
  subsequence
    [ticket "T5" "closed" [("created_at", PStr "2025-05-20T00:00:00")]]
    [ticket "T1" "closed" [("created_at", PStr "2020-01-01T00:00:00")];
     ticket "T2" "open" [("created_at", PStr "2025-05-20T00:00:00Z")];
     ticket "T5" "closed" [("created_at", PStr "2025-05-20T00:00:00")]]
  /\ Forall (kept_rightly (sample_env down)
               (naive (sample_clock 0 - 30 * day)) (naive (sample_clock 0))
               "closed")
       [ticket "T5" "closed" [("created_at", PStr "2025-05-20T00:00:00")]].
Proof.
  apply (filter_keeps_order_state_and_window (sample_env down)
           [ticket "T1" "closed" [("created_at", PStr "2020-01-01T00:00:00")];
            ticket "T2" "open" [("created_at", PStr "2025-05-20T00:00:00Z")];
            ticket "T5" "closed" [("created_at", PStr "2025-05-20T00:00:00")]]
           (naive (sample_clock 0 - 30 * day)) (naive (sample_clock 0))
           "closed").
  vm_compute. reflexivity.
Defined.

(** X11: tickets in other states cannot disturb the filter.  When the
    window bounds carry no offset and every date the filter parses on a
    ticket in the state asked for carries none either, the filter returns
    exactly the tickets in that state whose first parseable date lies in
    the window, in their order; the dates of the other tickets are never
    compared, whatever they are. *)
Theorem filter_on_offsetless_dates :
  forall E start finish state issues,
    all_dicts issues ->
    Forall (fun issue =>
              eq_str (issue_state issue) state = true ->
              forall d,
                Pylon.find_issue_date E issue Pylon.date_fields = Some d ->
                utcoffset d = None) issues ->
    Pylon.filter_issues_by_date_and_state E issues (naive start) (naive finish)
      state
    = Ret (filter (retained E start finish state) issues).
Proof.
  intros E start finish state issues Hd Hn.
  unfold Pylon.filter_issues_by_date_and_state.
  change (filter (retained E start finish state) issues)
    with ([] ++ filter (retained E start finish state) issues).
  generalize (@nil pyval) as acc.
  induction Hd as [| issue issues Hi Hd IH]; intro acc; simpl.
  - rewrite app_nil_r. reflexivity.
  - inversion Hn as [| ? ? Hnaive Hn']; subst.
    unfold Pylon.filter_issue at 1. unfold and_then at 1 2.
    destruct issue as [| | | | | kv]; try discriminate.
    unfold retained at 1. unfold issue_state in *.
    cbn [dict_get dict_lookup] in *.
    destruct (eq_str match assoc "state" kv with
                     | Some v => v
                     | None => PNone
                     end state); cbn [negb andb].
    + destruct (Pylon.find_issue_date E (PDict kv) Pylon.date_fields)
        as [d |] eqn:Hdate.
      * specialize (Hnaive eq_refl d eq_refl).
        unfold Pylon.in_window, datetime_le, and_then, naive.
        cbn [wall utcoffset]. rewrite Hnaive.
        destruct (start <=? wall d); cbn [andb].
        -- destruct (wall d <=? finish).
           ++ rewrite (IH Hn'). rewrite <- app_assoc. reflexivity.
           ++ apply (IH Hn').
        -- apply (IH Hn').
      * apply (IH Hn').
    + apply (IH Hn').
Qed.

Lemma filter_on_offsetless_dates_witness :
  Pylon.filter_issues_by_date_and_state (sample_env down)
    [ticket "T1" "closed" [("created_at", PStr "2020-01-01T00:00:00")];
     ticket "T2" "open" [("created_at", PStr "2025-05-20T00:00:00Z")];
     ticket "T5" "closed" [("created_at", PStr "2025-05-20T00:00:00")]]
    (naive (sample_clock 0 - 30 * day)) (naive (sample_clock 0)) "closed"
  = Ret [ticket "T5" "closed" [("created_at", PStr "2025-05-20T00:00:00")]].
Proof.
  rewrite (filter_on_offsetless_dates (sample_env down)
             (sample_clock 0 - 30 * day) (sample_clock 0) "closed").
  - reflexivity.
  - repeat constructor.
  - repeat constructor; vm_compute; intros Hs d Hdate;
      try discriminate Hs; injection Hdate as <-; reflexivity.
Defined.

(** ** The requests the Pylon exporter spends on a ticket *)

Lemma sends_at_most_ret {A : Type} n (a : A) : sends_at_most n (ret a).
Proof. intro w. exists []. split; [reflexivity | simpl; lia]. Qed.

Lemma sends_at_most_lift {A : Type} n (o : outcome A) :
  sends_at_most n (lift o).
Proof. intro w. exists []. split; [reflexivity | simpl; lia]. Qed.

Lemma sends_at_most_now n E tz : sends_at_most n (now E tz).
Proof. intro w. exists []. split; [reflexivity | simpl; lia]. Qed.

Lemma sends_at_most_send E r : sends_at_most 1 (send E r).
Proof.
  intro w. exists [r]. unfold send. cbn [log].
  split; [| simpl; lia].
  destruct (server E (r :: log w)); reflexivity.
Qed.

Lemma sends_at_most_bind {A B : Type} n1 n2 (m : M A) (k : A -> M B) :
  sends_at_most n1 m -> (forall a, sends_at_most n2 (k a)) ->
  sends_at_most (n1 + n2) (bind m k).
Proof.
  intros Hm Hk w. unfold bind. destruct (Hm w) as (added & Hlog & Hlen).
  destruct (m w) as [[a | e |] w1]; cbn [snd] in *.
  - destruct (Hk a w1) as (added' & Hlog' & Hlen').
    exists (added' ++ added). rewrite Hlog', Hlog, app_assoc.
    split; [reflexivity | rewrite length_app; lia].
  - exists added. split; [assumption | lia].
  - exists added. split; [assumption | lia].
Qed.

Lemma sends_at_most_weaken {A : Type} n1 n2 (m : M A) :
  (n1 <= n2)%nat -> sends_at_most n1 m -> sends_at_most n2 m.
Proof.
  intros Hle Hm w. destruct (Hm w) as (added & Hlog & Hlen).
  exists added. split; [assumption | lia].
Qed.

Lemma get_issue_details_sends_one E self issue_id :
  sends_at_most 1 (Pylon.get_issue_details E self issue_id).
Proof.
  unfold Pylon.get_issue_details.
  apply (sends_at_most_bind 1 0); [apply sends_at_most_send | intro response].
  destruct (negb (status_code response =? 200)).
  - intro w. exists []. split; [reflexivity | simpl; lia].
  - apply sends_at_most_lift.
Qed.

Lemma get_issue_messages_sends_one E self issue_id :
  sends_at_most 1 (Pylon.get_issue_messages E self issue_id).
Proof.
  unfold Pylon.get_issue_messages.
  apply (sends_at_most_bind 1 0); [apply sends_at_most_send | intro response].
  destruct (negb (status_code response =? 200)).
  - apply sends_at_most_ret.
  - apply (sends_at_most_bind 0 0); [apply sends_at_most_lift | intro].
    apply sends_at_most_lift.
Qed.

Lemma pylon_fetch_ticket_budget E self issue :
  sends_at_most 2 (pylon_fetch_ticket E self issue).
Proof.
  unfold pylon_fetch_ticket.
  apply (sends_at_most_bind 1 1);
    [apply get_issue_details_sends_one | intro detailed_issue].
  apply (sends_at_most_bind 1 0);
    [apply get_issue_messages_sends_one | intro messages].
  apply (sends_at_most_bind 0 0); [apply sends_at_most_lift | intro total].
  apply sends_at_most_ret.
Qed.

Lemma pylon_process_issue_budget E self issue acc :
  sends_at_most (if with_id issue then 2 else 0)
    (Pylon.process_issue E self issue acc).
Proof.
  intro w. destruct (is_dict issue) eqn:Hd.
  - rewrite (pylon_process_issue E self issue acc w Hd). unfold with_id.
    destruct (truthy (issue_id issue)).
    + destruct (pylon_fetch_ticket_budget E self issue w)
        as (added & Hlog & Hlen).
      exists added.
      destruct (pylon_fetch_ticket E self issue w) as [[record | e |] w'];
        cbn [snd] in *; split; assumption.
    + exists []. split; [reflexivity | simpl; lia].
  - destruct issue; try discriminate;
      (exists []; split; [reflexivity | simpl; lia]).
Qed.

Lemma pylon_loop_budget E self issues :
  forall acc,
    sends_at_most (2 * List.length (filter with_id issues))
      (for_each (Pylon.process_issue E self) issues acc).
Proof.
  induction issues as [| issue issues IH]; intro acc.
  - apply sends_at_most_ret.
  - cbn [for_each filter].
    apply (sends_at_most_weaken
             ((if with_id issue then 2 else 0)
              + 2 * List.length (filter with_id issues))).
    + destruct (with_id issue); simpl; lia.
    + apply sends_at_most_bind; [apply pylon_process_issue_budget | exact IH].
Qed.

(** X12: the second half of a Pylon run, from the filtered list to the
    result, sends at most two requests for each ticket that has an
    identifier (its details, then its messages) and none for the others;
    nothing is asked twice, whatever the transport answers. *)
Theorem pylon_assembly_request_budget :
  forall E self start_date end_date days_back issues w,
  exists added,
    log (snd (Pylon.assemble E self start_date end_date days_back issues w))
    = added ++ log w
    /\ (List.length added <= 2 * List.length (filter with_id issues))%nat.
Proof.
  intros E self start_date end_date days_back issues.
  change (sends_at_most (2 * List.length (filter with_id issues))
            (Pylon.assemble E self start_date end_date days_back issues)).
  unfold Pylon.assemble.
  apply (sends_at_most_weaken
           (2 * List.length (filter with_id issues) + (0 + 0))); [lia |].
  apply sends_at_most_bind; [apply pylon_loop_budget | intro all_tickets].
  apply sends_at_most_bind; [apply sends_at_most_now | intro fetched_at].
  apply sends_at_most_ret.
Qed.

(** ** The scripts: what comes before the fetch *)

Lemma asks_ret {A : Type} (a : A) : asks [] (ret a).
Proof.
  intro w. exists [], []. repeat split. destruct w; reflexivity.
Qed.

Lemma asks_lift {A : Type} (o : outcome A) : asks [] (lift o).
Proof.
  intro w. exists [], []. repeat split. destruct w; reflexivity.
Qed.

Lemma asks_bind {A B : Type} l1 l2 (m : M A) (k : A -> M B) :
  asks l1 m -> (forall a, asks l2 (k a)) -> asks (l1 ++ l2) (bind m k).
Proof.
  intros Hm Hk w. destruct (Hm w) as (done & rest & Hl & Hw & Hret).
  unfold bind. destruct (m w) as [[a | e |] w1]; cbn [fst snd] in *.
  - specialize (Hret a eq_refl). subst rest. rewrite app_nil_r in Hl.
    subst done.
    destruct (Hk a w1) as (done2 & rest2 & Hl2 & Hw2 & Hret2).
    exists (l1 ++ done2), rest2.
    split; [rewrite Hl2, app_assoc; reflexivity |].
    split; [| exact Hret2].
    rewrite Hw2, Hw. cbn [log ticks].
    rewrite rev_app_distr, app_assoc. reflexivity.
  - exists done, (rest ++ l2).
    split; [rewrite Hl, app_assoc; reflexivity |].
    split; [exact Hw | intros a H; discriminate].
  - exists done, (rest ++ l2).
    split; [rewrite Hl, app_assoc; reflexivity |].
    split; [exact Hw | intros a H; discriminate].
Qed.

Lemma asks_execute_query E self query :
  asks [query_request self query] (Linear._execute_query E self query PNone).
Proof.
  intro w. exists [query_request self query], [].
  split; [reflexivity |]. split; [| reflexivity].
  rewrite execute_query_world. reflexivity.
Qed.

Ltac prove_asks :=
  repeat match goal with
  | |- asks (?r :: ?rest) (bind (Linear._execute_query _ _ _ _) _) =>
      apply (asks_bind [r] rest); [apply asks_execute_query | intro]
  | |- asks ?l (bind (lift _) _) =>
      apply (asks_bind [] l); [apply asks_lift | intro]
  | |- asks [] (lift _) => apply asks_lift
  | |- asks [] (ret _) => apply asks_ret
  end.

Lemma asks_diagnose E self :
  asks (map (query_request self)
          [Linear.teams_query; Linear.states_query; Linear.recent_query])
    (Linear.diagnose E self).
Proof. unfold Linear.diagnose. cbn [map]. prove_asks. Qed.

Lemma asks_preliminaries E self :
  asks (map (query_request self) preliminary_queries)
    (Linear.preliminaries E self).
Proof.
  unfold Linear.preliminaries, Linear.test_connection, preliminary_queries.
  cbn [map]. prove_asks.
  change (asks ([] ++ map (query_request self)
                        [Linear.teams_query; Linear.states_query;
                         Linear.recent_query])
            (Linear.diagnose E self)).
  apply asks_diagnose.
Qed.

Lemma sends_diagnose E self :
  sends (linear_request self) (Linear.diagnose E self).
Proof.
  unfold Linear.diagnose.
  repeat (apply sends_bind;
          [first [apply sends_execute_query | apply sends_lift] | intro]).
  apply sends_lift.
Qed.

Lemma sends_linear_run E self fuel days_back team_id :
  sends (linear_request self)
    (Linear.fetch_all_closed_tickets E self fuel days_back team_id).
Proof.
  unfold Linear.fetch_all_closed_tickets.
  apply sends_bind; [apply sends_now | intro].
  apply sends_bind; [apply sends_lift | intro].
  apply sends_bind; [apply sends_lift | intro].
  apply sends_bind; [apply sends_fetch_closed_issues | intro].
  unfold Linear.assemble.
  apply sends_bind.
  - apply sends_for_each. intros. apply sends_linear_process_issue.
  - intro. apply sends_bind; [apply sends_now | intro; apply sends_ret].
Qed.

Lemma log_grows_bind {A B : Type} P (m : M A) (k : A -> M B) w n :
  (n <= List.length (log (snd (m w))))%nat ->
  (forall a, sends P (k a)) ->
  (n <= List.length (log (snd (bind m k w))))%nat.
Proof.
  intros Hn Hk. unfold bind.
  destruct (m w) as [[a | e |] w1]; cbn [snd] in *; try exact Hn.
  destruct (Hk a w1) as (added & -> & _). rewrite length_app. lia.
Qed.

Lemma log_grows_try_except {A : Type} P (m : M A) (h : exn -> M A) w n :
  (n <= List.length (log (snd (m w))))%nat ->
  (forall e, sends P (h e)) ->
  (n <= List.length (log (snd (try_except m h w))))%nat.
Proof.
  intros Hn Hh. unfold try_except.
  destruct (m w) as [[a | e |] w1]; cbn [snd] in *; try exact Hn.
  destruct (Hh e w1) as (added & -> & _). rewrite length_app. lia.
Qed.

Lemma preliminaries_send_first E self w :
  (Datatypes.S (List.length (log w))
   <= List.length (log (snd (Linear.preliminaries E self w))))%nat.
Proof.
  unfold Linear.preliminaries, Linear.test_connection.
  apply (log_grows_bind (linear_request self)).
  - rewrite execute_query_world. simpl. lia.
  - intro.
    repeat (apply sends_bind; [apply sends_lift | intro]).
    apply sends_diagnose.
Qed.

(** X13: the Linear script sends a request if and only if the
    environment gives it a key: with LINEAR_API_KEY unset or empty nothing
    is sent at all, and with a key the connection test goes out whatever
    happens afterwards. *)
Theorem linear_script_sends_iff_key :
  forall E int_of_str fuel w,
    log (snd (Linear.main E int_of_str fuel w)) = log w
    <-> (environ E "LINEAR_API_KEY" = None
         \/ environ E "LINEAR_API_KEY" = Some "").
Proof.
  intros E int_of_str fuel w. unfold Linear.main.
  destruct (environ E "LINEAR_API_KEY") as [key |]; [| tauto].
  destruct (String.eqb_spec key "") as [-> | Hkey].
  - split; [right; reflexivity | reflexivity].
  - split; [| intros [H | H]; [discriminate | congruence]].
    intro Hlog. exfalso.
    match type of Hlog with
    | log (snd ?run) = _ =>
        assert (Hgrow : (Datatypes.S (List.length (log w))
                         <= List.length (log (snd run)))%nat)
    end.
    { apply (log_grows_try_except (linear_request (Linear.__init__ key)));
        [| intro; apply sends_ret].
      apply (log_grows_bind (linear_request (Linear.__init__ key)));
        [apply preliminaries_send_first | intro].
      apply sends_bind; [apply sends_lift | intro].
      apply sends_bind; [apply sends_linear_run | intro].
      apply sends_bind; [apply sends_now | intro; apply sends_ret]. }
    rewrite Hlog in Hgrow. lia.
Qed.

(** ** The scripts: what they dump *)

Lemma try_except_Ret_inv {A : Type} (m : M (option A)) w a w' :
  try_except m (fun _ => ret None) w = (Ret (Some a), w') ->
  m w = (Ret (Some a), w').
Proof.
  unfold try_except, ret.
  destruct (m w) as [[r | e |] w1]; intro H; try discriminate; exact H.
Qed.

Lemma asks_Ret_world {A : Type} l (m : M A) w a w1 :
  asks l m -> m w = (Ret a, w1) ->
  w1 = {| log := rev l ++ log w; ticks := ticks w |}.
Proof.
  intros Hm Hrun. destruct (Hm w) as (done & rest & Hl & Hw & Hret).
  rewrite Hrun in Hw, Hret. cbn [fst snd] in *.
  rewrite (Hret a eq_refl), app_nil_r in Hl. subst done. exact Hw.
Qed.

(** X14: what the Linear script dumps.  Whenever the script gets to its
    dump, the environment held a key; exactly four requests came first, in
    this order: the connection test and the three queries of the
    diagnosis; the data dumped is the result of one run of
    [fetch_all_closed_tickets] started right after them, over the number of
    days read from LINEAR_DAYS_BACK (180 when unset) and for the team of
    LINEAR_TEAM_ID; and the file name carries a clock reading taken after
    that run. *)
Theorem linear_script_dumps_what_it_fetched :
  forall E int_of_str fuel w path data w',
    Linear.main E int_of_str fuel w = (Ret (Some (path, data)), w') ->
    exists key days w1 w2,
      environ E "LINEAR_API_KEY" = Some key
      /\ int_of_str match environ E "LINEAR_DAYS_BACK" with
                    | Some s => s
                    | None => "180"
                    end = Some days
      /\ w1 = {| log := rev (map (query_request (Linear.__init__ key))
                               preliminary_queries) ++ log w;
                 ticks := ticks w |}
      /\ Linear.fetch_all_closed_tickets E (Linear.__init__ key) fuel days
           (environ E "LINEAR_TEAM_ID") w1 = (Ret data, w2)
      /\ path = "linear_closed_tickets_"
                +:+ strftime E (naive (clock E (ticks w2))) "%Y%m%d_%H%M%S"
                +:+ ".json"
      /\ w' = ticked w2.
Proof.
  intros E int_of_str fuel w path data w' H. unfold Linear.main in H.
  destruct (environ E "LINEAR_API_KEY") as [key |];
    [| discriminate].
  destruct (key =? "")%string; [discriminate |].
  apply try_except_Ret_inv in H.
  apply bind_Ret_inv in H. destruct H as ([] & w1 & Hpre & H).
  apply bind_Ret_inv in H. destruct H as (days & w1' & Hdays & H).
  apply lift_Ret_inv in Hdays. destruct Hdays as [Hdays ->].
  apply bind_Ret_inv in H. destruct H as (all_data & w2 & Hrun & H).
  apply bind_Ret_inv in H. destruct H as (stamp & w3 & Hnow & H).
  unfold now in Hnow. injection Hnow as <- <-.
  unfold ret in H. injection H as <- <- <-.
  exists key, days, w1, w2.
  split; [reflexivity |].
  split.
  { unfold Linear.py_int in Hdays.
    destruct (int_of_str _) as [n |]; [| discriminate].
    injection Hdays as ->. reflexivity. }
  split; [eapply asks_Ret_world; [apply asks_preliminaries | exact Hpre] |].
  split; [exact Hrun |].
  split; reflexivity.
Qed.

Lemma linear_script_dumps_what_it_fetched_witness :
  exists path data w',
    Linear.main (script_env sample_workspace) sample_int_of_str 5
      initial_world = (Ret (Some (path, data)), w')
    /\ exists key days w1 w2,
         environ (script_env sample_workspace) "LINEAR_API_KEY" = Some key
         /\ sample_int_of_str
              match environ (script_env sample_workspace) "LINEAR_DAYS_BACK"
              with
              | Some s => s
              | None => "180"
              end = Some days
         /\ w1 = {| log := rev (map (query_request (Linear.__init__ key))
                                  preliminary_queries) ++ log initial_world;
                    ticks := ticks initial_world |}
         /\ Linear.fetch_all_closed_tickets (script_env sample_workspace)
              (Linear.__init__ key) 5 days
              (environ (script_env sample_workspace) "LINEAR_TEAM_ID") w1
            = (Ret data, w2)
         /\ path = "linear_closed_tickets_"
                   +:+ strftime (script_env sample_workspace)
                         (naive (clock (script_env sample_workspace)
                                   (ticks w2))) "%Y%m%d_%H%M%S"
                   +:+ ".json"
         /\ w' = ticked w2.
Proof.
  eexists. eexists. eexists. split.
  - vm_compute. reflexivity.
  - apply (linear_script_dumps_what_it_fetched (script_env sample_workspace)
             sample_int_of_str 5 initial_world).
    vm_compute. reflexivity.
Defined.

(** X15: the preliminaries of the Linear script are not optional.  When
    the connection test or the diagnosis raises (a failed request, an
    answer that cannot be printed, such as a team without key), the script
    ends there: it has sent between one and four of the preliminary
    requests, in their order, it has not read the clock, so that no fetch
    was started, and it dumps nothing. *)
Theorem linear_script_stops_when_preliminaries_fail :
  forall E int_of_str fuel w key x w1,
    environ E "LINEAR_API_KEY" = Some key ->
    key <> "" ->
    Linear.preliminaries E (Linear.__init__ key) w = (Exc x, w1) ->
    Linear.main E int_of_str fuel w = (Ret None, w1)
    /\ exists done rest,
         map (query_request (Linear.__init__ key)) preliminary_queries
         = done ++ rest
         /\ done <> []
         /\ w1 = {| log := rev done ++ log w; ticks := ticks w |}.
Proof.
  intros E int_of_str fuel w key x w1 Hkey Hne Hpre. split.
  - unfold Linear.main. rewrite Hkey.
    destruct (String.eqb_spec key "") as [-> | _]; [contradiction |].
    unfold try_except. rewrite (bind_Exc _ _ _ Hpre). reflexivity.
  - destruct (asks_preliminaries E (Linear.__init__ key) w)
      as (done & rest & Hl & Hw & _).
    pose proof (preliminaries_send_first E (Linear.__init__ key) w) as Hgrow.
    rewrite Hpre in Hw, Hgrow. cbn [snd] in Hw, Hgrow.
    exists done, rest. split; [exact Hl |]. split; [| exact Hw].
    intros ->. rewrite Hw in Hgrow. simpl in Hgrow. lia.
Qed.

Lemma linear_script_stops_when_preliminaries_fail_witness :
  Linear.main (script_env keyless_workspace) sample_int_of_str 5 initial_world
  = (Ret None,
     {| log := [query_request (Linear.__init__ "lin_api_sample")
                  Linear.teams_query;
                query_request (Linear.__init__ "lin_api_sample")
                  Linear.viewer_query];
        ticks := 0 |})
  /\ exists done rest,
       map (query_request (Linear.__init__ "lin_api_sample"))
         preliminary_queries = done ++ rest
       /\ done <> []
       /\ {| log := [query_request (Linear.__init__ "lin_api_sample")
                       Linear.teams_query;
                     query_request (Linear.__init__ "lin_api_sample")
                       Linear.viewer_query];
             ticks := 0 |}
          = {| log := rev done ++ log initial_world;
               ticks := ticks initial_world |}.
Proof.
  apply (linear_script_stops_when_preliminaries_fail
           (script_env keyless_workspace) sample_int_of_str 5 initial_world
           "lin_api_sample" "KeyError: 'key'").
  - reflexivity.
  - discriminate.
  - vm_compute. reflexivity.
Defined.

Lemma pylon_assemble_days_back E self sd ed days issues w result w' :
  Pylon.assemble E self sd ed days issues w = (Ret result, w') ->
  lookup_path result ["metadata"; "days_back"] = Some (PInt days).
Proof.
  unfold Pylon.assemble. intro H. bind_inv H. bind_inv H.
  unfold ret in H. injection H as <- _. reflexivity.
Qed.

Lemma pylon_run_days_back E self fuel days w result w' :
  Pylon.fetch_all_closed_tickets E self fuel days w = (Ret result, w') ->
  lookup_path result ["metadata"; "days_back"] = Some (PInt days).
Proof.
  unfold Pylon.fetch_all_closed_tickets. intro H.
  bind_inv H. bind_inv H. bind_inv H. bind_inv H.
  exact (pylon_assemble_days_back _ _ _ _ _ _ _ _ _ H).
Qed.

(** X16: what the Pylon script dumps.  Whenever the script gets to its
    dump, its first request was the connection test, a GET of /me with the
    placeholder Authorization header; the data dumped is the result of one
    run of [fetch_all_closed_tickets] started right after it for the client
    built with the literal token XXX, always over 180 days; and the file
    name carries a clock reading taken after that run. *)
Theorem pylon_script_dumps_a_180_day_run :
  forall E fuel w path data w',
    Pylon.main E fuel w = (Ret (Some (path, data)), w') ->
    exists w2,
      Pylon.fetch_all_closed_tickets E (Pylon.__init__ "XXX") fuel 180
        (sent me_request w) = (Ret data, w2)
      /\ lookup_path data ["metadata"; "days_back"] = Some (PInt 180)
      /\ path = "pylon_closed_tickets_"
                +:+ strftime E (naive (clock E (ticks w2))) "%Y%m%d_%H%M%S"
                +:+ ".json"
      /\ w' = ticked w2.
Proof.
  intros E fuel w path data w' H. unfold Pylon.main in H.
  apply try_except_Ret_inv in H.
  apply bind_Ret_inv in H. destruct H as (response & w1 & Hsend & H).
  assert (Hw1 : w1 = sent me_request w).
  { unfold send in Hsend.
    destruct (server E _); injection Hsend as _ <-; reflexivity. }
  subst w1.
  destruct (negb (status_code response =? 200)); [discriminate |].
  apply bind_Ret_inv in H. destruct H as (org_data & w1 & Hjson & H).
  apply lift_Ret_inv in Hjson. destruct Hjson as [_ ->].
  apply bind_Ret_inv in H. destruct H as (org & w1 & Horg & H).
  apply lift_Ret_inv in Horg. destruct Horg as [_ ->].
  apply bind_Ret_inv in H. destruct H as (name & w1 & Hname & H).
  apply lift_Ret_inv in Hname. destruct Hname as [_ ->].
  apply bind_Ret_inv in H. destruct H as (all_data & w2 & Hrun & H).
  apply bind_Ret_inv in H. destruct H as (stamp & w3 & Hnow & H).
  unfold now in Hnow. injection Hnow as <- <-.
  unfold ret in H. injection H as <- <- <-.
  exists w2. split; [exact Hrun |].
  split; [exact (pylon_run_days_back _ _ _ _ _ _ _ Hrun) |].
  split; reflexivity.
Qed.

Lemma pylon_script_dumps_a_180_day_run_witness :
  exists path data w',
    Pylon.main
      (sample_env
         (scripted [ok (PDict [("data", PDict [("name", PStr "Example")])]);
                    search_page (PList []) PNone]
            (failure 500 "")))
      5 initial_world = (Ret (Some (path, data)), w')
    /\ exists w2,
         Pylon.fetch_all_closed_tickets
           (sample_env
              (scripted [ok (PDict [("data", PDict [("name", PStr "Example")])]);
                         search_page (PList []) PNone]
                 (failure 500 "")))
           (Pylon.__init__ "XXX") 5 180 (sent me_request initial_world)
         = (Ret data, w2)
         /\ lookup_path data ["metadata"; "days_back"] = Some (PInt 180)
         /\ path = "pylon_closed_tickets_"
                   +:+ strftime
                         (sample_env
                            (scripted
                               [ok (PDict [("data",
                                            PDict [("name", PStr "Example")])]);
                                search_page (PList []) PNone]
                               (failure 500 "")))
                         (naive (sample_clock (ticks w2))) "%Y%m%d_%H%M%S"
                   +:+ ".json"
         /\ w' = ticked w2.
Proof.
  eexists. eexists. eexists. split.
  - vm_compute. reflexivity.
  - apply (pylon_script_dumps_a_180_day_run
             (sample_env
                (scripted
                   [ok (PDict [("data", PDict [("name", PStr "Example")])]);
                    search_page (PList []) PNone]
                   (failure 500 "")))
             5 initial_world).
    vm_compute. reflexivity.
Defined.

(** X17: what the handler of the Linear script contains after the
    preliminaries.  The reading of LINEAR_DAYS_BACK and the fetch sit inside
    the [try] block: when the variable is no integer, the script ends right
    after its four preliminary requests, without reading the clock, so
    without starting a fetch, and without a dump; when the fetch raises, the
    script ends where the fetch ended, again without a dump. *)
Theorem linear_script_contains_later_failures :
  forall E int_of_str fuel w key w1,
    environ E "LINEAR_API_KEY" = Some key ->
    key <> "" ->
    Linear.preliminaries E (Linear.__init__ key) w = (Ret tt, w1) ->
    (int_of_str match environ E "LINEAR_DAYS_BACK" with
                | Some s => s
                | None => "180"
                end = None ->
     Linear.main E int_of_str fuel w
     = (Ret None,
        {| log := rev (map (query_request (Linear.__init__ key))
                         preliminary_queries) ++ log w;
           ticks := ticks w |}))
    /\ (forall days x w2,
           int_of_str match environ E "LINEAR_DAYS_BACK" with
                      | Some s => s
                      | None => "180"
                      end = Some days ->
           Linear.fetch_all_closed_tickets E (Linear.__init__ key) fuel days
             (environ E "LINEAR_TEAM_ID") w1 = (Exc x, w2) ->
           Linear.main E int_of_str fuel w = (Ret None, w2)).
Proof.
  intros E int_of_str fuel w key w1 Hkey Hne Hpre.
  assert (Hmain : Linear.main E int_of_str fuel w
                  = try_except
                      (bind (Linear.preliminaries E (Linear.__init__ key))
                         (fun _ =>
                            bind (lift (Linear.py_int int_of_str
                                          match environ E "LINEAR_DAYS_BACK" with
                                          | Some s => s
                                          | None => "180"
                                          end))
                              (fun days_back =>
                                 bind (Linear.fetch_all_closed_tickets E
                                         (Linear.__init__ key) fuel days_back
                                         (environ E "LINEAR_TEAM_ID"))
                                   (fun all_data =>
                                      bind (now E None)
                                        (fun stamp =>
                                           ret (Some
                                                  ("linear_closed_tickets_"
                                                   +:+ strftime E stamp
                                                         "%Y%m%d_%H%M%S"
                                                   +:+ ".json", all_data)))))))
                      (fun _ => ret None) w).
  { unfold Linear.main. rewrite Hkey.
    destruct (String.eqb_spec key "") as [-> | _]; [contradiction |].
    reflexivity. }
  rewrite Hmain. unfold try_except. rewrite (bind_Ret _ _ _ Hpre).
  split.
  - intro Hint. unfold bind at 1, lift, Linear.py_int. rewrite Hint.
    unfold ret. f_equal.
    eapply asks_Ret_world; [apply asks_preliminaries | exact Hpre].
  - intros days x w2 Hint Hfetch.
    unfold bind at 1, lift, Linear.py_int. rewrite Hint.
    rewrite (bind_Exc _ _ _ Hfetch). reflexivity.
Qed.

Lemma linear_script_contains_later_failures_witness :
  Linear.main (script_env sample_workspace) (fun _ => None) 5 initial_world
  = (Ret None,
     {| log := rev (map (query_request (Linear.__init__ "lin_api_sample"))
                      preliminary_queries) ++ log initial_world;
        ticks := ticks initial_world |})
  /\ exists x w2,
       Linear.fetch_all_closed_tickets (script_env failing_workspace)
         (Linear.__init__ "lin_api_sample") 5 180
         (environ (script_env failing_workspace) "LINEAR_TEAM_ID")
         {| log := rev (map (query_request (Linear.__init__ "lin_api_sample"))
                          preliminary_queries);
            ticks := 0 |}
       = (Exc x, w2)
       /\ Linear.main (script_env failing_workspace) sample_int_of_str 5
            initial_world = (Ret None, w2).
Proof.
  split.
  - refine (proj1 (linear_script_contains_later_failures
                     (script_env sample_workspace) (fun _ => None) 5
                     initial_world "lin_api_sample" _ _ _ _) _).
    + reflexivity.
    + discriminate.
    + vm_compute. reflexivity.
    + reflexivity.
  - eexists. eexists. split.
    + vm_compute. reflexivity.
    + refine (proj2 (linear_script_contains_later_failures
                       (script_env failing_workspace) sample_int_of_str 5
                       initial_world "lin_api_sample" _ _ _ _)
                180 _ _ _ _).
      * reflexivity.
      * discriminate.
      * vm_compute. reflexivity.
      * reflexivity.
      * vm_compute. reflexivity.
Defined.

(** X18: the connection test of the Pylon script decides whether
    anything is fetched.  Unless the reply to the GET of /me is accepted
    (status 200, a JSON object whose data, if any, is an object), the
    script ends after this single request: no clock reading, no fetch, no
    dump. *)
Theorem pylon_script_stops_at_failed_connection_test :
  forall E fuel w r,
    next_reply E w r ->
    accepted r = false ->
    Pylon.main E fuel w = (Ret None, sent me_request w).
Proof.
  intros E fuel w r Hnext Hr.
  unfold Pylon.main, try_except, bind, send. cbn [log].
  change ({| log := _ :: log w; ticks := ticks w |}) with (sent me_request w).
  change (server E (_ :: log w)) with (server E (me_request :: log w)).
  rewrite (Hnext me_request).
  destruct r as [e | a]; [reflexivity |].
  unfold accepted in Hr.
  destruct (status_code a =? 200); cbn [negb andb] in *; [| reflexivity].
  unfold lift, response_json.
  destruct (json a) as [[| | | | | kv] |]; try reflexivity.
  cbn [dict_get].
  destruct (assoc "data" kv) as [[| | | | | kv'] |];
    try discriminate; reflexivity.
Qed.

Lemma pylon_script_stops_at_failed_connection_test_witness :
  Pylon.main (sample_env (fun _ => failure 401 "unauthorized")) 5
    initial_world
  = (Ret None, sent me_request initial_world).
Proof.
  apply (pylon_script_stops_at_failed_connection_test
           (sample_env (fun _ => failure 401 "unauthorized")) 5 initial_world
           (failure 401 "unauthorized")).
  - intro req. reflexivity.
  - reflexivity.
Defined.

(** ** The text helpers of the converters *)

Lemma re_sub_skip match_at repl b :
  forall x,
    Kapa.re_sub match_at repl (List.length x) (x ++ b)
    = Kapa.re_sub match_at repl 0 b.
Proof.
  induction x as [| c x IH]; simpl.
  - destruct b; reflexivity.
  - exact IH.
Qed.

Lemma re_sub_unmatched (P : N -> Prop) match_at repl :
  (forall c rest, P c -> match_at (c :: rest) = O) ->
  forall s b,
    Forall P s ->
    Kapa.re_sub match_at repl 0 (s ++ b) = s ++ Kapa.re_sub match_at repl 0 b.
Proof.
  intros Hm s b Hs. induction Hs as [| c s Hc _ IH]; simpl.
  - reflexivity.
  - rewrite (Hm c (s ++ b) Hc). rewrite IH. reflexivity.
Qed.

Lemma re_sub_fixed (P : N -> Prop) match_at repl :
  (forall c rest, P c -> match_at (c :: rest) = O) ->
  forall s, Forall P s -> Kapa.re_sub match_at repl 0 s = s.
Proof.
  intros Hm s Hs.
  rewrite <- (app_nil_r s) at 1.
  rewrite (re_sub_unmatched P match_at repl Hm s [] Hs).
  simpl. apply app_nil_r.
Qed.

Lemma re_sub_Forall (Q R : N -> Prop) match_at repl :
  Forall R repl ->
  (forall c rest, Q c -> match_at (c :: rest) = O -> R c) ->
  forall s skip, Forall Q s -> Forall R (Kapa.re_sub match_at repl skip s).
Proof.
  intros Hrepl Hkeep s. induction s as [| c s IH]; intros skip Hs; simpl.
  - constructor.
  - inversion Hs as [| ? ? Hc Hs']; subst.
    destruct skip as [| k]; [| apply IH; exact Hs'].
    destruct (match_at (c :: s)) as [| k] eqn:Hm.
    + constructor; [exact (Hkeep c s Hc Hm) | apply IH; exact Hs'].
    + apply Forall_app. split; [exact Hrepl | apply IH; exact Hs'].
Qed.

Lemma lstrip_split s :
  exists spaces,
    s = spaces ++ Kapa.lstrip s
    /\ Forall (fun c => Kapa.isspace c = true) spaces.
Proof.
  induction s as [| c s (spaces & Hs & Hall)]; simpl.
  - exists []. split; [reflexivity | constructor].
  - destruct (Kapa.isspace c) eqn:Hc.
    + exists (c :: spaces). split; [simpl; rewrite <- Hs; reflexivity |].
      constructor; assumption.
    + exists []. split; [reflexivity | constructor].
Qed.

Lemma lstrip_head s c rest :
  Kapa.lstrip s = c :: rest -> Kapa.isspace c = false.
Proof.
  induction s as [| c' s IH]; simpl; [discriminate |].
  destruct (Kapa.isspace c') eqn:Hc; [exact IH |].
  intro H. injection H as -> _. exact Hc.
Qed.

Lemma rstrip_split s :
  exists spaces,
    s = Kapa.rstrip s ++ spaces
    /\ Forall (fun c => Kapa.isspace c = true) spaces.
Proof.
  unfold Kapa.rstrip.
  destruct (lstrip_split (rev s)) as (spaces & Hs & Hall).
  exists (rev spaces). split.
  - rewrite <- rev_app_distr, <- Hs, rev_involutive. reflexivity.
  - apply Forall_rev. exact Hall.
Qed.

Lemma strip_split s :
  exists before after,
    s = before ++ Kapa.strip s ++ after
    /\ Forall (fun c => Kapa.isspace c = true) before
    /\ Forall (fun c => Kapa.isspace c = true) after.
Proof.
  unfold Kapa.strip.
  destruct (lstrip_split s) as (before & Hb & Hball).
  destruct (rstrip_split (Kapa.lstrip s)) as (after & Ha & Haall).
  exists before, after. split; [| split; assumption].
  rewrite <- Ha. exact Hb.
Qed.

Lemma strip_Forall (Q : N -> Prop) s : Forall Q s -> Forall Q (Kapa.strip s).
Proof.
  intro H. destruct (strip_split s) as (before & after & Hs & _).
  rewrite Hs in H. apply Forall_app in H. destruct H as [_ H].
  apply Forall_app in H. destruct H as [H _]. exact H.
Qed.

Lemma lstrip_fixed s :
  Forall (fun c => Kapa.isspace c = false) s -> Kapa.lstrip s = s.
Proof.
  intro H. destruct H as [| c s Hc _]; simpl; [reflexivity |].
  rewrite Hc. reflexivity.
Qed.

Lemma strip_fixed s :
  Forall (fun c => Kapa.isspace c = false) s -> Kapa.strip s = s.
Proof.
  intro H. unfold Kapa.strip, Kapa.rstrip.
  rewrite (lstrip_fixed s H).
  rewrite (lstrip_fixed (rev s) (Forall_rev H)).
  apply rev_involutive.
Qed.

Lemma strip_ends s :
  (forall c rest, Kapa.strip s = c :: rest -> Kapa.isspace c = false)
  /\ (forall c front, Kapa.strip s = front ++ [c] -> Kapa.isspace c = false).
Proof.
  assert (Hlast : forall x c front,
             Kapa.rstrip x = front ++ [c] -> Kapa.isspace c = false).
  { intros x c front H. unfold Kapa.rstrip in H.
    apply (f_equal (@rev N)) in H.
    rewrite rev_involutive, rev_app_distr in H. simpl in H.
    exact (lstrip_head _ _ _ H). }
  split.
  - intros c rest H. unfold Kapa.strip in H.
    destruct (rstrip_split (Kapa.lstrip s)) as (spaces & Hs & _).
    rewrite H in Hs. simpl in Hs. exact (lstrip_head s _ _ Hs).
  - intros c front H. exact (Hlast _ _ _ H).
Qed.

Lemma tag_not_at (c : N) rest : c <> 60%N -> Kapa.match_tag (c :: rest) = O.
Proof.
  intro Hc. unfold Kapa.match_tag. destruct rest as [| c1 rest]; [reflexivity |].
  destruct (N.eqb_spec c 60) as [-> | _]; [contradiction | reflexivity].
Qed.

Lemma safe_not_lt c : safe_char c -> c <> 60%N.
Proof. intros [Hp _] ->. discriminate Hp. Qed.

Lemma class_not_at class (c : N) rest :
  class c = false -> Kapa.match_class class (c :: rest) = O.
Proof. intro Hc. simpl. rewrite Hc. reflexivity. Qed.

Lemma class_kept class (c : N) rest :
  Kapa.match_class class (c :: rest) = O -> class c = false.
Proof. simpl. destruct (class c); [discriminate | reflexivity]. Qed.

Lemma spaces_not_at (c : N) rest :
  Kapa.isspace c = false -> Kapa.match_spaces (c :: rest) = O.
Proof. intro Hc. unfold Kapa.match_spaces. simpl. rewrite Hc. reflexivity. Qed.

Lemma spaces_kept (c : N) rest :
  Kapa.match_spaces (c :: rest) = O -> Kapa.isspace c = false.
Proof.
  unfold Kapa.match_spaces. simpl.
  destruct (Kapa.isspace c); [discriminate | reflexivity].
Qed.

Lemma firstn_Forall {A : Type} (P : A -> Prop) n (l : list A) :
  Forall P l -> Forall P (firstn n l).
Proof.
  intro H. revert n. induction H as [| x l Hx _ IH]; intros [| n]; simpl;
    constructor; [exact Hx | apply IH].
Qed.

Lemma clean_filename_safe filename :
  Forall safe_char (Kapa.clean_filename filename).
Proof.
  unfold Kapa.clean_filename. apply firstn_Forall.
  apply (re_sub_Forall (fun c => Kapa.problematic c = false) safe_char).
  - repeat constructor.
  - intros c rest Hc Hm. split; [exact Hc |]. exact (spaces_kept _ _ Hm).
  - apply strip_Forall.
    apply (re_sub_Forall (fun _ => True) (fun c => Kapa.problematic c = false)).
    + repeat constructor.
    + intros c rest _ Hm. exact (class_kept _ _ _ Hm).
    + apply Forall_forall. intros; exact I.
Qed.

Lemma cleaning_fixed s :
  Forall safe_char s ->
  Kapa.re_sub Kapa.match_spaces (Kapa.lit "_") 0
    (Kapa.strip
       (Kapa.re_sub (Kapa.match_class Kapa.problematic) (Kapa.lit "_") 0
          (Kapa.re_sub Kapa.match_tag [] 0 s)))
  = s.
Proof.
  intro Hsafe.
  rewrite (re_sub_fixed (fun c => c <> 60%N) Kapa.match_tag []
             tag_not_at s).
  2: { eapply Forall_impl; [| exact Hsafe]. exact safe_not_lt. }
  rewrite (re_sub_fixed (fun c => Kapa.problematic c = false)
             (Kapa.match_class Kapa.problematic) (Kapa.lit "_")
             (class_not_at Kapa.problematic) s).
  2: { eapply Forall_impl; [| exact Hsafe]. intros c [H _]. exact H. }
  rewrite (strip_fixed s).
  2: { eapply Forall_impl; [| exact Hsafe]. intros c [_ H]. exact H. }
  apply (re_sub_fixed (fun c => Kapa.isspace c = false)
           Kapa.match_spaces (Kapa.lit "_") spaces_not_at s).
  eapply Forall_impl; [| exact Hsafe]. intros c [_ H]. exact H.
Qed.

(** X19: the name [clean_filename] returns is at most 100 characters
    long and contains none of the characters of the second pattern (angle
    brackets, colon, double quote, slash, backslash, bar, question mark,
    star) and no whitespace, whatever the title it is given. *)
Theorem clean_filename_is_safe :
  forall filename,
    (List.length (Kapa.clean_filename filename) <= 100)%nat
    /\ Forall safe_char (Kapa.clean_filename filename).
Proof.
  intro filename. split; [| apply clean_filename_safe].
  unfold Kapa.clean_filename. apply firstn_le_length.
Qed.

(** X20: a title that is already safe, at most 100 characters without
    whitespace and without a character of the second pattern, is returned
    unchanged. *)
Theorem clean_filename_keeps_safe_names :
  forall filename,
    Forall safe_char filename ->
    (List.length filename <= 100)%nat ->
    Kapa.clean_filename filename = filename.
Proof.
  intros filename Hsafe Hlen. unfold Kapa.clean_filename.
  rewrite (cleaning_fixed filename Hsafe).
  apply firstn_all2. exact Hlen.
Qed.

Lemma clean_filename_keeps_safe_names_witness :
  Kapa.clean_filename (Kapa.lit "Login_fails_after_update")
  = Kapa.lit "Login_fails_after_update".
Proof.
  apply clean_filename_keeps_safe_names.
  - unfold Kapa.lit. simpl. repeat constructor.
  - simpl. lia.
Defined.

(** X21: [clean_filename] is idempotent: cleaning a cleaned name changes
    nothing. *)
Theorem clean_filename_idempotent :
  forall filename,
    Kapa.clean_filename (Kapa.clean_filename filename)
    = Kapa.clean_filename filename.
Proof.
  intro filename. unfold Kapa.clean_filename at 1.
  rewrite (cleaning_fixed _ (clean_filename_safe filename)).
  unfold Kapa.clean_filename. rewrite firstn_firstn.
  rewrite Nat.min_id. reflexivity.
Qed.

Lemma upto_gt_tag t b :
  Forall (fun c => c <> 62%N) t ->
  Kapa.upto_gt (t ++ 62%N :: b) = Datatypes.S (List.length t).
Proof.
  intro H. induction H as [| c t Hc _ IH]; simpl.
  - reflexivity.
  - destruct (N.eqb_spec c 62) as [-> | _]; [contradiction |].
    rewrite IH. reflexivity.
Qed.

Lemma re_sub_tag c t b :
  c <> 62%N ->
  Forall (fun c => c <> 62%N) t ->
  Kapa.re_sub Kapa.match_tag [] 0 (60%N :: c :: t ++ 62%N :: b)
  = Kapa.re_sub Kapa.match_tag [] 0 b.
Proof.
  intros Hc Ht. cbn [Kapa.re_sub Kapa.match_tag].
  destruct (N.eqb_spec c 62) as [-> | _]; [contradiction |].
  cbn [N.eqb Pos.eqb andb negb]. rewrite (upto_gt_tag t b Ht).
  cbn [app Kapa.re_sub].
  change (t ++ 62%N :: b) with (t ++ [62%N] ++ b).
  rewrite app_assoc.
  replace (Datatypes.S (List.length t)) with (List.length (t ++ [62%N]))
    by (rewrite length_app; simpl; lia).
  apply re_sub_skip.
Qed.

(** X22: a tag after text without [<] is cut out as if it had not been
    there: when [before] contains no [<] and [tag] is a non-empty text
    without [>], the title [before <tag> after] is cleaned to the same name
    as [before after]. *)
Theorem clean_filename_drops_tags :
  forall before c tag after,
    Forall (fun c => c <> 60%N) before ->
    Forall (fun c => c <> 62%N) (c :: tag) ->
    Kapa.clean_filename (before ++ 60%N :: (c :: tag) ++ 62%N :: after)
    = Kapa.clean_filename (before ++ after).
Proof.
  intros before c tag after Hb Ht. unfold Kapa.clean_filename.
  rewrite !(re_sub_unmatched (fun c => c <> 60%N) Kapa.match_tag []
              tag_not_at before _ Hb).
  inversion Ht as [| ? ? Hc Htag]; subst.
  cbn [app]. rewrite (re_sub_tag c tag after Hc Htag). reflexivity.
Qed.

Lemma clean_filename_drops_tags_witness :
  Kapa.clean_filename (Kapa.lit "Crash in <b>parser</b> module")
  = Kapa.clean_filename (Kapa.lit "Crash in parser</b> module").
Proof.
  apply (clean_filename_drops_tags (Kapa.lit "Crash in ") 98%N []
           (Kapa.lit "parser</b> module")).
  - repeat constructor; discriminate.
  - repeat constructor; discriminate.
Defined.

Lemma re_sub_skipn match_at repl s :
  forall k,
    Kapa.re_sub match_at repl k s = Kapa.re_sub match_at repl 0 (skipn k s).
Proof.
  induction s as [| c s IH]; intros [| k]; try reflexivity.
  simpl. apply IH.
Qed.

Lemma run_skipn class s :
  Kapa.run class (skipn (Kapa.run class s) s) = O.
Proof.
  induction s as [| c s IH]; simpl; [reflexivity |].
  destruct (class c) eqn:Hc; simpl; [exact IH | rewrite Hc; reflexivity].
Qed.

Lemma newlines_calm :
  forall n s,
    (List.length s <= n)%nat ->
    calm (Kapa.re_sub Kapa.match_newlines [10; 10]%N 0 s) = true
    /\ Kapa.run Kapa.is_newline
         (Kapa.re_sub Kapa.match_newlines [10; 10]%N 0 s)
       = Nat.min (Kapa.run Kapa.is_newline s) 2.
Proof.
  induction n as [| n IH]; intros s Hlen.
  - destruct s; [split; reflexivity | simpl in Hlen; lia].
  - destruct s as [| c rest]; [split; reflexivity |].
    cbn [Kapa.re_sub].
    assert (Hm : Kapa.match_newlines (c :: rest)
                 = if (3 <=? Kapa.run Kapa.is_newline (c :: rest))%nat
                   then Kapa.run Kapa.is_newline (c :: rest) else O)
      by reflexivity.
    destruct (Nat.leb_spec 3 (Kapa.run Kapa.is_newline (c :: rest)))
      as [Hlong | Hshort]; rewrite Hm; clear Hm.
    + destruct (Kapa.run Kapa.is_newline (c :: rest)) as [| k] eqn:Hrun;
        [lia |].
      rewrite re_sub_skipn.
      assert (Hrest : skipn k rest
                      = skipn (Kapa.run Kapa.is_newline (c :: rest))
                          (c :: rest)).
      { rewrite Hrun. reflexivity. }
      pose proof (run_skipn Kapa.is_newline (c :: rest)) as Hzero.
      rewrite <- Hrest in Hzero.
      destruct (IH (skipn k rest)) as [Hcalm Hout].
      { rewrite length_skipn. simpl in Hlen. lia. }
      rewrite Hzero in Hout. cbn [app calm Kapa.run].
      change (Kapa.is_newline 10) with true. cbn iota.
      rewrite Hout, Hcalm.
      split; [reflexivity | simpl; lia].
    + destruct (IH rest) as [Hcalm Hout]; [simpl in Hlen; lia |].
      cbn [calm]. rewrite Hcalm.
      cbn [Kapa.run] in *.
      destruct (Kapa.is_newline c).
      * rewrite Hout.
        replace (Nat.min (Kapa.run Kapa.is_newline rest) 2)
          with (Kapa.run Kapa.is_newline rest) by lia.
        split; [| lia].
        apply andb_true_iff. split; [| reflexivity].
        apply Nat.leb_le. lia.
      * split; reflexivity.
Qed.

Lemma calm_no_three s :
  calm s = true -> forall a b, s <> a ++ [10; 10; 10]%N ++ b.
Proof.
  intros Hcalm a. revert s Hcalm.
  induction a as [| x a IH]; intros s Hcalm b Hs; subst s.
  - simpl in Hcalm. discriminate Hcalm.
  - simpl in Hcalm. apply andb_true_iff in Hcalm. destruct Hcalm as [_ H].
    exact (IH _ H b eq_refl).
Qed.

(** X23: whatever [html2text] makes of a message, a text that
    [html_to_markdown] returns contains no three newlines in a row and
    neither begins nor ends with whitespace. *)
Theorem html_to_markdown_is_tidy :
  forall html2text html_content md,
    Kapa.html_to_markdown html2text html_content = Ret md ->
    (forall a b, md <> a ++ [10; 10; 10]%N ++ b)
    /\ (forall c rest, md = c :: rest -> Kapa.isspace c = false)
    /\ (forall c front, md = front ++ [c] -> Kapa.isspace c = false).
Proof.
  intros html2text html_content md. unfold Kapa.html_to_markdown.
  destruct html_content as [| c0 content].
  - intro H. injection H as <-. split; [| split].
    + intros a b H. destruct a; discriminate H.
    + intros c rest H. discriminate H.
    + intros c front H. destruct front; discriminate H.
  - unfold and_then.
    destruct (html2text (c0 :: content)) as [h | e |]; try discriminate.
    intro H. injection H as <-.
    split; [| apply strip_ends].
    intros a b H.
    destruct (strip_split
                (Kapa.re_sub Kapa.match_newlines [10; 10]%N 0 h))
      as (before & after & Hh & _).
    rewrite H in Hh.
    destruct (newlines_calm (List.length h) h (le_n _)) as [Hcalm _].
    apply (calm_no_three _ Hcalm (before ++ a) (b ++ after)).
    rewrite Hh. rewrite <- !app_assoc. reflexivity.
Qed.

Lemma html_to_markdown_is_tidy_witness :
  (forall a b, Kapa.lit "Hi" ++ [10; 10]%N ++ Kapa.lit "there"
               <> a ++ [10; 10; 10]%N ++ b)
  /\ (forall c rest,
         Kapa.lit "Hi" ++ [10; 10]%N ++ Kapa.lit "there" = c :: rest ->
         Kapa.isspace c = false)
  /\ (forall c front,
         Kapa.lit "Hi" ++ [10; 10]%N ++ Kapa.lit "there" = front ++ [c] ->
         Kapa.isspace c = false).
Proof.
  apply (html_to_markdown_is_tidy
           (fun _ => Ret ([10; 32]%N ++ Kapa.lit "Hi" ++ [10; 10; 10; 10]%N
                          ++ Kapa.lit "there" ++ [32; 10; 10; 10]%N))
           (Kapa.lit "<p>Hi</p><p>there</p>")).
  vm_compute. reflexivity.
Defined.

(** ** The converters: index and files *)





Ltac and_then_inv H :=
  repeat match type of H with
  | and_then ?o _ = Ret _ =>
      let x := fresh "x" in
      destruct o as [x | |] eqn:?;
      [cbv beta iota zeta delta [and_then] in H
      | discriminate H | discriminate H]
  end.







(** X26: in the Pylon converter the file of a ticket is written before
    its index entry is built, so a ticket can have its file and no entry:
    a ticket that is converted and whose messages value has no length (a
    null, the number 0, false) adds its markdown file and leaves the index
    as it was. *)
Theorem pylon_file_without_index_entry :
  forall H output_dir i ticket files index_data filename text entry messages
         e,
    PylonToKapa.render H i ticket = Ret (filename, text, entry) ->
    dict_lookup ticket "messages" = Some messages ->
    py_len messages = Exc e ->
    open_error H files (path_join output_dir filename) = None ->
    PylonToKapa.convert_ticket H output_dir i ticket (files, index_data)
    = ((path_join output_dir filename, Markdown text) :: files, index_data).
Proof.
  intros H output_dir i ticket files index_data filename text entry messages
    e Hrender Hmessages Hlen Hopen.
  unfold PylonToKapa.convert_ticket. rewrite Hrender, Hopen.
  assert (Hentry : forall index_entry, entry <> Ret index_entry).
  { intros index_entry ->. unfold PylonToKapa.render in Hrender.
    destruct ticket as [| | | | | kv]; try discriminate.
    cbn [dict_lookup] in Hmessages.
    cbv beta iota zeta delta [and_then dict_get] in Hrender.
    rewrite Hmessages in Hrender.
    and_then_inv Hrender.
    repeat match type of Hrender with
    | match ?o with _ => _ end = Ret _ =>
        destruct o eqn:?; try discriminate Hrender
    end.
    injection Hrender as _ _ Hentry.
    unfold PylonToKapa.index_entry in Hentry.
    cbv beta iota zeta delta [and_then] in Hentry.
    rewrite Hlen in Hentry. discriminate Hentry. }
  destruct entry as [index_entry | x |];
    [destruct (Hentry index_entry eq_refl) | |]; reflexivity.
Qed.

Lemma pylon_file_without_index_entry_witness :
  exists text,
    PylonToKapa.convert_ticket (sample_host pylon_export) "pylon_tickets" 2
      (PDict [("issue_summary",
               PDict [("id", PStr "T2"); ("number", PInt 8);
                      ("title", PStr "Export: broken");
                      ("state", PStr "closed")]);
              ("messages", PNone)])
      ([], [])
    = ([(path_join "pylon_tickets" "8_Export__broken.md", Markdown text)], []).
Proof.
  eexists.
  eapply (pylon_file_without_index_entry (sample_host pylon_export)
            "pylon_tickets" 2 _ [] [] "8_Export__broken.md" _ _ PNone).
  - vm_compute. reflexivity.
  - reflexivity.
  - reflexivity.
  - reflexivity.
Defined.

Lemma prefix_slash_append (s t : string) :
  String.prefix "/" s = true -> String.prefix "/" (s +:+ t) = true.
Proof.
  destruct s as [| c s]; [discriminate |].
  cbn [String.prefix String.append].
  destruct (ascii_dec "/" c); [intros _ | discriminate].
  destruct (s +:+ t); reflexivity.
Qed.

(** X27: the name of the file of a Linear ticket begins with the
    identifier of the ticket as it stands: only the title is cleaned.  So
    when the identifier begins with a slash, the file is written at that
    absolute path, whatever the output directory. *)
Theorem linear_file_name_keeps_identifier :
  forall H E i ticket filename text url,
    LinearToKapa.render H E i ticket = Ret (filename, text, url) ->
    exists issue identifier cleaned,
      dict_get ticket "issue" (PDict []) = Ret issue
      /\ dict_get issue "identifier" (PStr ("ISSUE-" +:+ string_of_Z i))
         = Ret identifier
      /\ filename = py_str identifier +:+ "_" +:+ cleaned +:+ ".md"
      /\ (String.prefix "/" (py_str identifier) = true ->
          forall output_dir files index_data,
            open_error H files filename = None ->
            fst (LinearToKapa.convert_ticket H E output_dir i ticket
                   (files, index_data))
            = (filename, Markdown text) :: files).
Proof.
  intros H E i ticket filename text url Hrender.
  pose proof Hrender as Hr. unfold LinearToKapa.render in Hr.
  cbv beta iota zeta delta [and_then] in Hr.
  destruct (dict_get ticket "issue" (PDict [])) as [issue | |] eqn:Hissue;
    try discriminate Hr.
  destruct (dict_get ticket "comments" (PList [])) as [comments | |];
    try discriminate Hr.
  destruct (dict_get issue "identifier" (PStr ("ISSUE-" +:+ string_of_Z i)))
    as [identifier | |] eqn:Hid; try discriminate Hr.
  and_then_inv Hr.
  repeat match type of Hr with
  | match ?o with _ => _ end = Ret _ =>
      destruct o eqn:?; try discriminate Hr
  end.
  all: injection Hr as Hname _ _.
  all: eexists issue, identifier, _.
  all: split; [reflexivity |]; split; [exact Hid |];
    split; [symmetry; exact Hname |].
  all: intros Hslash output_dir files index_data Hopen.
  all: unfold LinearToKapa.convert_ticket; rewrite Hrender.
  all: assert (Hjoin : path_join output_dir filename = filename)
    by (unfold path_join; rewrite <- Hname;
        rewrite (prefix_slash_append _ _ Hslash); reflexivity).
  all: rewrite Hjoin, Hopen; reflexivity.
Qed.

Lemma linear_file_name_keeps_identifier_witness :
  exists text issue identifier cleaned,
    dict_get (PDict [("issue", PDict [("identifier", PStr "/tmp/COR-9");
                                      ("title", PStr "Moved")])])
      "issue" (PDict []) = Ret issue
    /\ dict_get issue "identifier" (PStr ("ISSUE-" +:+ string_of_Z 1))
       = Ret identifier
    /\ "/tmp/COR-9_Moved.md" = py_str identifier +:+ "_" +:+ cleaned +:+ ".md"
    /\ (String.prefix "/" (py_str identifier) = true ->
        forall output_dir files index_data,
          open_error (sample_host PNone) files "/tmp/COR-9_Moved.md" = None ->
          fst (LinearToKapa.convert_ticket (sample_host PNone)
                 (sample_env down) output_dir 1
                 (PDict [("issue", PDict [("identifier", PStr "/tmp/COR-9");
                                          ("title", PStr "Moved")])])
                 (files, index_data))
          = ("/tmp/COR-9_Moved.md", Markdown text) :: files).
Proof.
  eexists.
  eapply (linear_file_name_keeps_identifier (sample_host PNone)
            (sample_env down) 1 _ "/tmp/COR-9_Moved.md" _ (PStr "")).
  vm_compute. reflexivity.
Defined.
